(** * Attention detector and audio processor: a shallow embedding

    Embedding of [advanced_attention_detector.py] (class
    [AdvancedAttentionDetector]) and [audio_processor.py] (class
    [AudioProcessor]).

    Conventions.
    - Python floats are modelled as rationals [Q].  Every threshold of the
      source is a decimal constant and every score adjustment is an integer,
      so the comparisons and sums of the source are exact on the model.
    - Python ints and numpy integer scalars are [Z]; [//] is [Z.div].
    - A dictionary with a fixed set of keys is a record whose fields are
      [option]s: [None] is an absent key.  Reading an absent key with
      [d[k]] raises [KeyError]; [d.get(k, v)] yields [v].
    - A raised exception is [None] in the [exc] monad; every [try/except]
      of the source is the [match] that closes the corresponding function.
    - [collections.deque(maxlen=n)] is a list, oldest element first, with
      [deque_append] dropping the oldest element when the bound is hit.
    - What OpenCV and numpy compute from pixels (cascade detections, image
      statistics) enters the model as input; [np.sqrt] and [math.atan2]
      are section variables. *)

From Stdlib Require Import String ZArith QArith Qround Qminmax Qabs.
From Stdlib Require Import Reals Lra Bool Lia Lqa List Permutation Sorted.
Import ListNotations.

Local Open Scope Q_scope.

(** ** Rational comparisons as booleans *)

Definition Qltb (x y : Q) : bool := negb (Qle_bool y x).
Definition Qgtb (x y : Q) : bool := Qltb y x.

(** Python's [max(a, b)] returns [a] unless [b > a]; [min(a, b)] returns
    [a] unless [b < a]. *)
Definition py_max (a b : Q) : Q := if Qgtb b a then b else a.
Definition py_min (a b : Q) : Q := if Qltb b a then b else a.

(** [int(q)]: truncation towards zero. *)
Definition py_int (q : Q) : Z := if Qltb q 0 then Qceiling q else Qfloor q.

(** ** numpy scalars that may leave the rationals

    Dividing a numpy float by a zero Python float does not raise: it gives
    an infinity or a nan.  The offsets of the gaze and head-pose estimates
    are such quotients. *)

Inductive npfloat : Type :=
| Fin (q : Q)
| PInf
| NInf
| NaN.

(** [a / b] where the divisor, when it is zero, is [+0.0]. *)
Definition np_div (a b : Q) : npfloat :=
  if Qeq_bool b 0 then
    if Qgtb a 0 then PInf else if Qltb a 0 then NInf else NaN
  else Fin (a / b).

(** [f * k] for a positive constant [k]. *)
Definition np_scale (f : npfloat) (k : Q) : npfloat :=
  match f with
  | Fin q => Fin (q * k)
  | other => other
  end.

Definition np_abs (f : npfloat) : npfloat :=
  match f with
  | Fin q => Fin (Qabs q)
  | PInf | NInf => PInf
  | NaN => NaN
  end.

(** [f < c] and [f > c] against a finite constant; a nan compares false. *)
Definition np_lt (f : npfloat) (c : Q) : bool :=
  match f with
  | Fin q => Qltb q c
  | NInf => true
  | PInf | NaN => false
  end.

Definition np_gt (f : npfloat) (c : Q) : bool :=
  match f with
  | Fin q => Qgtb q c
  | PInf => true
  | NInf | NaN => false
  end.

(** ** Exceptions *)

Definition exc (A : Type) : Type := option A.

Definition bind {A B : Type} (m : exc A) (k : A -> exc B) : exc B :=
  match m with
  | Some a => k a
  | None => None
  end.

Notation "x <- m ;; k" := (bind m (fun x => k))
  (at level 61, m at next level, right associativity).

(** [d[k]]: an absent key raises. *)
Definition key {A : Type} (field : option A) : exc A := field.

(** [d.get(k, default)]. *)
Definition get {A : Type} (field : option A) (default : A) : A :=
  match field with
  | Some a => a
  | None => default
  end.

(** ** Sequences *)

(** [l[-n:]] for a positive [n]. *)
Definition last_n {A : Type} (n : nat) (l : list A) : list A :=
  skipn (length l - n) l.

(** [deque.append] on a deque created with [maxlen]. *)
Definition deque_append {A : Type} (maxlen : nat) (x : A) (d : list A) : list A :=
  let d' := d ++ [x] in
  if (maxlen <? length d')%nat then tl d' else d'.

(** Python's [all(p(x) for x in l)]. *)
Definition all {A : Type} (p : A -> bool) (l : list A) : bool := forallb p l.

(** [l[-k]] for [1 <= k]; [None] is [IndexError]. *)
Definition from_end {A : Type} (k : nat) (l : list A) : exc A :=
  if (length l <? k)%nat then None else nth_error l (length l - k).

(** Length of [a[start:stop]] on an axis of [n] entries. *)
Definition clamp_index (n i : Z) : Z :=
  if (i <? 0)%Z then Z.max 0 (i + n) else Z.min i n.

Definition slice_len (n start stop : Z) : Z :=
  Z.max 0 (clamp_index n stop - clamp_index n start).

Definition sumZ (l : list Z) : Z := fold_right Z.add 0%Z l.
Definition sumQ (l : list Q) : Q := fold_right Qplus 0 l.

(** ** Data model *)

(** A bounding box [(x, y, w, h)] as the cascades return it. *)
Definition box : Type := (Z * Z * Z * Z)%type.

Definition box_x (b : box) : Z := let '(x, _, _, _) := b in x.
Definition box_y (b : box) : Z := let '(_, y, _, _) := b in y.
Definition box_w (b : box) : Z := let '(_, _, w, _) := b in w.
Definition box_h (b : box) : Z := let '(_, _, _, h) := b in h.

(** One entry of [emotions_data]. *)
Record emotion_record : Type := {
  emotion : option string;
  confidence : option Q;
  bbox : option box
}.

(** The dictionary built by [detect_eyes_detailed].  The values of
    ['left_eye'] and ['right_eye'] are a box or Python's [None]. *)
Record eyes_data : Type := {
  left_eye : option (option box);
  right_eye : option (option box);
  left_ear : option Q;
  right_ear : option Q;
  left_open : option bool;
  right_open : option bool;
  avg_ear : option Q;
  gaze_direction : option string;
  eyes_detected : option Z
}.

Record head_pose : Type := {
  pitch : option npfloat;
  yaw : option npfloat;
  roll : option npfloat
}.

Record face_quality : Type := {
  score : Q;
  brightness : option Q;
  contrast : option Q;
  sharpness : option Q
}.

Record eye_gaze : Type := {
  direction : string;
  gaze_left_open : bool;
  gaze_right_open : bool;
  gaze_left_ear : option Q;
  gaze_right_ear : option Q
}.

(** The attention dictionary returned by [detect_emotion_and_attention];
    the short forms (no face, error) leave three keys out. *)
Record attention_data : Type := {
  face_detected : bool;
  attention_score : Q;
  status : string;
  att_head_pose : head_pose;
  att_eye_gaze : eye_gaze;
  blink_rate : Q;
  blink_detected : option bool;
  yawn_detected : bool;
  yawn_intensity : option Q;
  att_face_quality : face_quality
}.

(** The mutable attributes of an [AdvancedAttentionDetector]. *)
Record detector : Type := {
  blink_history : list Z;
  eye_aspect_ratio_history : list Q;
  head_pose_history : list head_pose;
  mouth_history : list Q;
  emotion_history : list string
}.

(** Capacities given to [deque(maxlen=...)] in [__init__]. *)
Definition BLINK_MAXLEN : nat := 30.
Definition EAR_MAXLEN : nat := 30.
Definition HEAD_POSE_MAXLEN : nat := 60.
Definition MOUTH_MAXLEN : nat := 30.
Definition EMOTION_MAXLEN : nat := 90.

(** The detector as [__init__] leaves it. *)
Definition init : detector := {|
  blink_history := [];
  eye_aspect_ratio_history := [];
  head_pose_history := [];
  mouth_history := [];
  emotion_history := []
|}.

Definition EAR_THRESHOLD : Q := 1 # 4.
Definition EAR_CONSEC_FRAMES : nat := 3.
Definition BLINK_RATE_THRESHOLD : Q := 1 # 2.
Definition YAWN_THRESHOLD : Q := 3 # 5.
Definition YAWN_CONSEC_FRAMES : nat := 10.
Definition HEAD_YAW_THRESHOLD : Q := 25.
Definition HEAD_PITCH_DOWN_THRESHOLD : Q := 15.
Definition HEAD_PITCH_UP_THRESHOLD : Q := - (10).
Definition GAZE_CENTER_THRESHOLD : Q := 3 # 10.

Definition set_blink_history (st : detector) (v : list Z) : detector := {|
  blink_history := v;
  eye_aspect_ratio_history := eye_aspect_ratio_history st;
  head_pose_history := head_pose_history st;
  mouth_history := mouth_history st;
  emotion_history := emotion_history st
|}.

Definition set_eye_aspect_ratio_history (st : detector) (v : list Q) : detector := {|
  blink_history := blink_history st;
  eye_aspect_ratio_history := v;
  head_pose_history := head_pose_history st;
  mouth_history := mouth_history st;
  emotion_history := emotion_history st
|}.

Definition set_head_pose_history (st : detector) (v : list head_pose) : detector := {|
  blink_history := blink_history st;
  eye_aspect_ratio_history := eye_aspect_ratio_history st;
  head_pose_history := v;
  mouth_history := mouth_history st;
  emotion_history := emotion_history st
|}.

Definition set_mouth_history (st : detector) (v : list Q) : detector := {|
  blink_history := blink_history st;
  eye_aspect_ratio_history := eye_aspect_ratio_history st;
  head_pose_history := head_pose_history st;
  mouth_history := v;
  emotion_history := emotion_history st
|}.

Definition set_emotion_history (st : detector) (v : list string) : detector := {|
  blink_history := blink_history st;
  eye_aspect_ratio_history := eye_aspect_ratio_history st;
  head_pose_history := head_pose_history st;
  mouth_history := mouth_history st;
  emotion_history := v
|}.

(** ** [detect_eyes_detailed] *)

(** [sorted(eyes, key=lambda x: x[0])]: a stable sort on the x coordinate. *)
Fixpoint insert_by_x (e : box) (l : list box) : list box :=
  match l with
  | [] => [e]
  | e' :: l' =>
      if (box_x e <=? box_x e')%Z then e :: l else e' :: insert_by_x e l'
  end.

Definition sorted_by_x (eyes : list box) : list box :=
  fold_right insert_by_x [] eyes.

(** [min(h / (w * 2.0), 0.4)], the bounding-box aspect ratio. *)
Definition bbox_ear (w h : Z) : Q :=
  py_min (inject_Z h / (inject_Z w * 2)) (2 # 5).

(** The eye boxes and ratios chosen from the detections. *)
Definition assign_eyes (w : Z) (eyes : list box)
  : option box * option box * Q * Q :=
  match eyes with
  | _ :: _ :: _ =>
      match sorted_by_x eyes with
      | l :: r :: _ =>
          let left_ear :=
            if (0 <? box_w l)%Z && (0 <? box_h l)%Z
            then bbox_ear (box_w l) (box_h l) else 3 # 10 in
          let right_ear :=
            if (0 <? box_w r)%Z && (0 <? box_h r)%Z
            then bbox_ear (box_w r) (box_h r) else 3 # 10 in
          (Some l, Some r, left_ear, right_ear)
      | _ => (None, None, 3 # 10, 3 # 10)
      end
  | [e] =>
      let ear := if (0 <? box_w e)%Z then bbox_ear (box_w e) (box_h e)
                 else 3 # 10 in
      if Qltb (inject_Z (box_x e)) (inject_Z w / 2)
      then (Some e, None, ear, 3 # 10)
      else (None, Some e, 3 # 10, ear)
  | [] => (None, None, 3 # 10, 3 # 10)
  end.

(** Gaze from the eye centres against the centre of the face. *)
Definition gaze_of (w : Z) (l r : box) : string :=
  let left_center_x := (box_x l + box_w l / 2)%Z in
  let right_center_x := (box_x r + box_w r / 2)%Z in
  let eye_center_x := inject_Z (left_center_x + right_center_x) / 2 in
  let face_center_x := inject_Z w / 2 in
  let offset_ratio := np_div (eye_center_x - face_center_x) face_center_x in
  if np_gt offset_ratio GAZE_CENTER_THRESHOLD then "right"%string
  else if np_lt offset_ratio (- GAZE_CENTER_THRESHOLD) then "left"%string
  else "center"%string.

(** The dictionary of the [except] branch. *)
Definition eyes_on_error : eyes_data := {|
  left_eye := Some None;
  right_eye := Some None;
  left_ear := Some (3 # 20);
  right_ear := Some (3 # 20);
  left_open := Some false;
  right_open := Some false;
  avg_ear := Some (3 # 20);
  gaze_direction := Some "unknown"%string;
  eyes_detected := Some 0%Z
|}.

(** The body of the [try] once the detections [eyes] are known. *)
Definition eyes_from_detections (w : Z) (eyes : list box) : eyes_data :=
  let '(l_eye, r_eye, l_ear, r_ear) := assign_eyes w eyes in
  let n := length eyes in
  let eye_open_threshold := EAR_THRESHOLD * (6 # 5) in
  let l_open := Qgtb l_ear eye_open_threshold in
  let r_open := Qgtb r_ear eye_open_threshold in
  let very_low :=
    (1 <=? n)%nat && (Qltb l_ear (3 # 20) || Qltb r_ear (3 # 20)) in
  let l_open := if very_low then false else l_open in
  let r_open := if very_low then false else r_open in
  let avg := if (2 <=? n)%nat then (l_ear + r_ear) / 2
             else py_max l_ear r_ear in
  let l_open := if (n =? 0)%nat then false else l_open in
  let r_open := if (n =? 0)%nat then false else r_open in
  let avg := if (n =? 0)%nat then 3 # 20 else avg in
  let gaze := match l_eye, r_eye with
              | Some l, Some r => gaze_of w l r
              | _, _ => "center"%string
              end in
  {| left_eye := Some l_eye;
     right_eye := Some r_eye;
     left_ear := Some l_ear;
     right_ear := Some r_ear;
     left_open := Some l_open;
     right_open := Some r_open;
     avg_ear := Some avg;
     gaze_direction := Some gaze;
     eyes_detected := Some (Z.of_nat n) |}.

(** [w] is the width of the face region; [strict] and [lenient] are what
    the two [detectMultiScale] calls return on it ([None] when the call
    raises).  The second call is made when the first finds fewer than two
    eyes. *)
Definition detect_eyes_detailed (w : Z) (strict lenient : exc (list box))
  : eyes_data :=
  match
    (eyes <- strict ;;
     eyes <- (if (length eyes <? 2)%nat then lenient else Some eyes) ;;
     Some (eyes_from_detections w eyes))
  with
  | Some result => result
  | None => eyes_on_error
  end.

(** ** [detect_blink] and [calculate_blink_rate] *)

Definition detect_blink (eye_data : eyes_data) (st : detector)
  : bool * detector :=
  match key (avg_ear eye_data) with
  | None => (false, st)
  | Some ear =>
      let st :=
        set_eye_aspect_ratio_history st
          (deque_append EAR_MAXLEN ear (eye_aspect_ratio_history st)) in
      let history := eye_aspect_ratio_history st in
      let recent_ears := last_n EAR_CONSEC_FRAMES history in
      (* [recent_ears[-4]] is read only behind the length test, so the
         [IndexError] of [from_end] cannot be reached *)
      let blink :=
        (EAR_CONSEC_FRAMES <=? length history)%nat
        && all (fun ear => Qltb ear EAR_THRESHOLD) (last_n 3 recent_ears)
        && (3 <? length recent_ears)%nat
        && match from_end 4 recent_ears with
           | Some before => Qgtb before EAR_THRESHOLD
           | None => false
           end in
      if blink
      then (true, set_blink_history st
                    (deque_append BLINK_MAXLEN 1%Z (blink_history st)))
      else (false, set_blink_history st
                     (deque_append BLINK_MAXLEN 0%Z (blink_history st)))
  end.

Definition calculate_blink_rate (st : detector) : Q :=
  if (length (blink_history st) <? 10)%nat then 0
  else inject_Z (sumZ (last_n 30 (blink_history st))) / 30.

(** ** [detect_yawn] *)

(** [h] and [w] are the shape of the face region. *)
Definition detect_yawn (h w : Z) (st : detector) : (bool * Q) * detector :=
  let mouth_height := slice_len h (py_int (inject_Z h * (3 # 5))) h in
  if (mouth_height * w =? 0)%Z then ((false, 0), st)
  else
    let mouth_width := w in
    if (mouth_width =? 0)%Z then ((false, 0), st)
    else
      let mar := inject_Z mouth_height / inject_Z mouth_width in
      let st :=
        set_mouth_history st (deque_append MOUTH_MAXLEN mar (mouth_history st)) in
      if (YAWN_CONSEC_FRAMES <=? length (mouth_history st))%nat
         && all (fun m => Qgtb m YAWN_THRESHOLD)
                (last_n YAWN_CONSEC_FRAMES (mouth_history st))
      then ((true, mar), st)
      else ((false, mar), st).

(** Feeds a sequence of average ratios to [detect_blink], one per call,
    and collects the returned flags. *)
Fixpoint blink_flags (ears : list Q) (st : detector) : list bool :=
  match ears with
  | [] => []
  | ear :: rest =>
      let eye_data :=
        {| left_eye := Some None; right_eye := Some None;
           left_ear := Some ear; right_ear := Some ear;
           left_open := Some true; right_open := Some true;
           avg_ear := Some ear; gaze_direction := Some "center"%string;
           eyes_detected := Some 2%Z |} in
      let '(flag, st) := detect_blink eye_data st in
      flag :: blink_flags rest st
  end.

(** Feeds a sequence of face-region shapes [(h, w)] to [detect_yawn], one
    per call, and collects the returned flags. *)
Fixpoint yawn_flags (shapes : list (Z * Z)) (st : detector) : list bool :=
  match shapes with
  | [] => []
  | (h, w) :: rest =>
      let '((flag, _), st) := detect_yawn h w st in
      flag :: yawn_flags rest st
  end.

(** ** [calculate_face_quality] *)

Definition quality_default (s : Q) : face_quality :=
  {| score := s; brightness := None; contrast := None; sharpness := None |}.

(** [size] is the number of pixels of the face region; [stats] holds the
    mean, the standard deviation and the Laplacian variance that numpy and
    OpenCV compute on it ([None] when one of them raises). *)
Definition calculate_face_quality (size : Z) (stats : exc (Q * Q * Q))
  : face_quality :=
  if (size =? 0)%Z then quality_default 0
  else
    match stats with
    | None => quality_default (1 # 2)
    | Some (mean_brightness, std_brightness, laplacian_var) =>
        let brightness_score := 1 - Qabs (mean_brightness - 128) / 128 in
        let contrast_score := py_min (std_brightness / 50) 1 in
        let sharpness_score := py_min (laplacian_var / 100) 1 in
        let quality_score :=
          brightness_score * (3 # 10) + contrast_score * (2 # 5)
          + sharpness_score * (3 # 10) in
        {| score := quality_score;
           brightness := Some brightness_score;
           contrast := Some contrast_score;
           sharpness := Some sharpness_score |}
    end.

(** ** [calculate_attention_score] *)

Definition nonempty {A : Type} (l : list A) : bool :=
  match l with
  | [] => false
  | _ :: _ => true
  end.

Definition string_eqb (a b : string) : bool := String.eqb a b.

(** Eye openness: +20, +5, or -50 floored at 0. *)
Definition eye_step (eyes : eyes_data) (base_score : Q) : exc Q :=
  lo <- key (left_open eyes) ;;
  both_open <- (if lo then key (right_open eyes) else Some lo) ;;
  let avg := get (avg_ear eyes) (3 # 10) in
  let eyes_detected_count := get (eyes_detected eyes) 0%Z in
  if both_open && Qgtb avg EAR_THRESHOLD && (2 <=? eyes_detected_count)%Z
  then Some (base_score + 20)
  else
    lo <- key (left_open eyes) ;;
    one_open <- (if lo then Some lo else key (right_open eyes)) ;;
    if one_open && Qgtb avg (EAR_THRESHOLD * (4 # 5))
    then Some (base_score + 5)
    else Some (py_max 0 (base_score - 50)).

(** Gaze direction: +15 centred, -10 left or right. *)
Definition gaze_step (eyes : eyes_data) (base_score : Q) : exc Q :=
  g <- key (gaze_direction eyes) ;;
  if string_eqb g "center" then Some (base_score + 15)
  else
    g <- key (gaze_direction eyes) ;;
    if string_eqb g "left" || string_eqb g "right"
    then Some (base_score - 10)
    else Some base_score.

(** Head pose: +15, +5, -20, or nothing. *)
Definition head_pose_step (hp : head_pose) (base_score : Q) : exc Q :=
  y <- key (yaw hp) ;;
  let yaw_abs := np_abs y in
  p <- key (pitch hp) ;;
  if np_lt yaw_abs 10 && (np_gt p (- (5)) && np_lt p 10)
  then Some (base_score + 15)
  else if np_lt yaw_abs 20 && (np_gt p (- (10)) && np_lt p 15)
  then Some (base_score + 5)
  else if np_gt yaw_abs 25 || np_lt p (- (15)) || np_gt p 20
  then Some (base_score - 20)
  else Some base_score.

(** Blink rate: -15 excessive, -5 slightly excessive. *)
Definition blink_step (rate : Q) (base_score : Q) : Q :=
  if Qgtb rate BLINK_RATE_THRESHOLD then base_score - 15
  else if Qgtb rate (BLINK_RATE_THRESHOLD * (7 # 10)) then base_score - 5
  else base_score.

Definition yawn_step (yawn : bool) (base_score : Q) : Q :=
  if yawn then base_score - 15 else base_score.

(** Emotion of the first face. *)
Definition emotion_step (emotions_data : list emotion_record) (base_score : Q)
  : exc Q :=
  match emotions_data with
  | [] => Some base_score
  | first :: _ =>
      e <- key (emotion first) ;;
      if string_eqb e "Happy" then Some (base_score + 10)
      else if string_eqb e "Neutral" then Some (base_score + 5)
      else if string_eqb e "Sad" || string_eqb e "Angry"
      then Some (base_score - 5)
      else if string_eqb e "Surprise" then Some (base_score + 3)
      else Some base_score
  end.

(** The body of the [try]. *)
Definition attention_score_body (emotions_data : list emotion_record)
  (eyes : eyes_data) (hp : head_pose) (rate : Q) (yawn : bool) : exc Q :=
  let base_score := 50 in
  let base_score :=
    if nonempty emotions_data then base_score + 20 else base_score in
  base_score <- eye_step eyes base_score ;;
  base_score <- gaze_step eyes base_score ;;
  base_score <- head_pose_step hp base_score ;;
  let base_score := blink_step rate base_score in
  let base_score := yawn_step yawn base_score in
  base_score <- emotion_step emotions_data base_score ;;
  Some (py_max 0 (py_min 100 base_score)).

Definition calculate_attention_score (emotions_data : list emotion_record)
  (eyes : eyes_data) (hp : head_pose) (rate : Q) (yawn : bool) : Q :=
  match attention_score_body emotions_data eyes hp rate yawn with
  | Some attention_score => attention_score
  | None => 50
  end.

(** ** [determine_attention_status] *)

Definition attention_status_body (attention_score : Q) (eyes : eyes_data)
  (hp : head_pose) (yawn : bool) : exc string :=
  lo <- key (left_open eyes) ;;
  both_eyes_closed <-
    (if negb lo then (ro <- key (right_open eyes) ;; Some (negb ro))
     else Some false) ;;
  let avg := get (avg_ear eyes) (3 # 10) in
  let eyes_likely_closed := Qltb avg EAR_THRESHOLD in
  closed <-
    (if both_eyes_closed then Some true
     else n <- key (eyes_detected eyes) ;;
          Some ((n <? 2)%Z && eyes_likely_closed)) ;;
  if closed then Some "Distracted (Eyes Closed)"%string
  else if yawn then Some "Drowsy / Fatigued"%string
  else
    y <- key (yaw hp) ;;
    let yaw_abs := np_abs y in
    p <- key (pitch hp) ;;
    if np_gt yaw_abs 30 || np_lt p (- (20))
    then Some "Inattentive (Looking Away)"%string
    else
      lo <- key (left_open eyes) ;;
      an_eye_closed <-
        (if negb lo then Some true
         else ro <- key (right_open eyes) ;; Some (negb ro)) ;;
      let attention_score :=
        if an_eye_closed && Qgtb attention_score 30 then 25
        else attention_score in
      if Qle_bool 75 attention_score then Some "Attentive"%string
      else if Qle_bool 50 attention_score then Some "Partially Attentive"%string
      else if Qle_bool 30 attention_score then Some "Distracted"%string
      else Some "Inattentive"%string.

Definition determine_attention_status (attention_score : Q) (eyes : eyes_data)
  (hp : head_pose) (yawn : bool) : string :=
  match attention_status_body attention_score eyes hp yawn with
  | Some s => s
  | None => "Unknown"%string
  end.

(** ** [estimate_head_pose_advanced] and [detect_emotion_and_attention] *)

Definition zero_pose : head_pose :=
  {| pitch := Some (Fin 0); yaw := Some (Fin 0); roll := Some (Fin 0) |}.

Definition short_attention (st : string) : attention_data := {|
  face_detected := false;
  attention_score := 0;
  status := st;
  att_head_pose := zero_pose;
  att_eye_gaze := {| direction := "unknown"; gaze_left_open := false;
                     gaze_right_open := false; gaze_left_ear := None;
                     gaze_right_ear := None |};
  blink_rate := 0;
  blink_detected := None;
  yawn_detected := false;
  yawn_intensity := None;
  att_face_quality := quality_default 0
|}.

(** What one call receives from outside the class: the result of
    [detect_emotion], the shape of the grayscale frame, the two eye-cascade
    results on the face region and the image statistics of that region. *)
Record frame_input : Type := {
  emotions : list emotion_record;
  gray_h : Z;
  gray_w : Z;
  eyes_strict : exc (list box);
  eyes_lenient : exc (list box);
  roi_stats : exc (Q * Q * Q)
}.

Section Detector.

(** [math.degrees(math.atan2(dy, dx))]. *)
Variable atan2_degrees : Z -> Z -> Q.

Definition head_pose_body (h w : Z) (eyes : eyes_data) : exc head_pose :=
  let face_center_x := inject_Z w / 2 in
  let face_center_y := inject_Z h / 2 in
  l <- key (left_eye eyes) ;;
  r <- (match l with
        | Some _ => key (right_eye eyes)
        | None => Some None
        end) ;;
  match l, r with
  | Some _, Some _ =>
      l <- key (left_eye eyes) ;;
      r <- key (right_eye eyes) ;;
      match l, r with
      | Some l, Some r =>
          let left_eye_y := (box_y l + box_h l / 2)%Z in
          let right_eye_y := (box_y r + box_h r / 2)%Z in
          let eye_dy := (right_eye_y - left_eye_y)%Z in
          let eye_dx :=
            ((box_x r + box_w r / 2) - (box_x l + box_w l / 2))%Z in
          let roll := if (eye_dx =? 0)%Z then 0
                      else atan2_degrees eye_dy eye_dx in
          let eye_center_x :=
            inject_Z ((box_x l + box_w l / 2) + (box_x r + box_w r / 2)) / 2 in
          let eye_offset :=
            np_div (eye_center_x - face_center_x) face_center_x in
          let yaw := np_scale eye_offset 45 in
          let eye_center_y := inject_Z (left_eye_y + right_eye_y) / 2 in
          let vertical_offset :=
            np_div (eye_center_y - face_center_y) face_center_y in
          let pitch := np_scale vertical_offset 30 in
          Some {| pitch := Some pitch; yaw := Some yaw;
                  roll := Some (Fin roll) |}
      | _, _ => None
      end
  | _, _ => Some zero_pose
  end.

Definition estimate_head_pose_advanced (h w : Z) (eyes : eyes_data)
  (st : detector) : head_pose * detector :=
  match head_pose_body h w eyes with
  | Some hp =>
      (hp, set_head_pose_history st
             (deque_append HEAD_POSE_MAXLEN hp (head_pose_history st)))
  | None => (zero_pose, st)
  end.

Definition detect_emotion_and_attention (frame : frame_input) (st : detector)
  : (list emotion_record * attention_data) * detector :=
  let emotions_data := emotions frame in
  match emotions_data with
  | [] => ((emotions_data, short_attention "Absent / Disengaged"), st)
  | first :: _ =>
      let '(x, y, w, h) := get (bbox first) (0, 0, 0, 0)%Z in
      let roi_h := slice_len (gray_h frame) y (y + h) in
      let roi_w := slice_len (gray_w frame) x (x + w) in
      let eyes :=
        detect_eyes_detailed roi_w (eyes_strict frame) (eyes_lenient frame) in
      let '(blink, st) := detect_blink eyes st in
      let rate := calculate_blink_rate st in
      let '((yawn, intensity), st) := detect_yawn roi_h roi_w st in
      let '(hp, st) := estimate_head_pose_advanced roi_h roi_w eyes st in
      let st :=
        set_head_pose_history st
          (deque_append HEAD_POSE_MAXLEN hp (head_pose_history st)) in
      let attention_score :=
        calculate_attention_score emotions_data eyes hp rate yawn in
      let attention_status :=
        determine_attention_status attention_score eyes hp yawn in
      let quality :=
        calculate_face_quality (roi_h * roi_w) (roi_stats frame) in
      match key (emotion first) with
      | None => (([], short_attention "Error"), st)
      | Some e =>
          let st :=
            set_emotion_history st
              (deque_append EMOTION_MAXLEN e (emotion_history st)) in
          match
            (g <- key (gaze_direction eyes) ;;
             lo <- key (left_open eyes) ;;
             ro <- key (right_open eyes) ;;
             le <- key (left_ear eyes) ;;
             re <- key (right_ear eyes) ;;
             Some {| direction := g; gaze_left_open := lo;
                     gaze_right_open := ro; gaze_left_ear := Some le;
                     gaze_right_ear := Some re |})
          with
          | None => (([], short_attention "Error"), st)
          | Some gaze =>
              ((emotions_data,
                {| face_detected := true;
                   attention_score := attention_score;
                   status := attention_status;
                   att_head_pose := hp;
                   att_eye_gaze := gaze;
                   blink_rate := rate;
                   blink_detected := Some blink;
                   yawn_detected := yawn;
                   yawn_intensity := Some intensity;
                   att_face_quality := quality |}), st)
          end
      end
  end.

(** The detector after a sequence of frames, oldest first. *)
Definition run_frames (frames : list frame_input) (st : detector) : detector :=
  fold_left (fun st frame => snd (detect_emotion_and_attention frame st))
            frames st.

End Detector.

(** ** [AudioProcessor] *)

Record audio_processor : Type := {
  audio_history : list Q;
  voice_frames : Z;
  silence_frames : Z
}.

Definition silence_threshold : Q := 1 # 200.
Definition noise_threshold : Q := 2 # 25.
Definition voice_threshold : Q := 3 # 200.

(** The processor as [__init__] leaves it. *)
Definition fresh : audio_processor :=
  {| audio_history := []; voice_frames := 0; silence_frames := 0 |}.

Definition mean (l : list Q) : Q := sumQ l / inject_Z (Z.of_nat (length l)).

Definition np_max (l : list Q) : Q :=
  match l with
  | [] => 0
  | x :: xs => fold_left (fun acc y => if Qltb acc y then y else acc) xs x
  end.

Definition np_min (l : list Q) : Q :=
  match l with
  | [] => 0
  | x :: xs => fold_left (fun acc y => if Qltb y acc then y else acc) xs x
  end.

(** A square root that is exact on squares of rationals, to run the
    processor on concrete chunks. *)
Definition sqrt_exact (q : Q) : Q := Z.sqrt (Qnum q) # Pos.sqrt (Qden q).

Section Audio.

(** [np.sqrt]. *)
Variable np_sqrt : Q -> Q.

(** [0.7 * rms + 0.3 * peak] of a non-empty chunk. *)
Definition combined_level (samples : list Q) : Q :=
  let audio_array :=
    if Qgtb (np_max samples) 1 || Qltb (np_min samples) (- (1))
    then map (fun s => s / 32768) samples
    else samples in
  let rms := np_sqrt (mean (map (fun s => s * s) audio_array)) in
  let peak := np_max (map Qabs audio_array) in
  rms * (7 # 10) + peak * (3 # 10).

(** The level of a chunk; [None] or an empty chunk has none. *)
Definition chunk_level (audio_data : option (list Q)) : option Q :=
  match audio_data with
  | None | Some [] => None
  | Some samples => Some (combined_level samples)
  end.

(** Returns [((voice_active, noise_level), combined_level)]. *)
Definition process_audio_chunk (audio_data : option (list Q))
  (st : audio_processor) : (bool * Q * Q) * audio_processor :=
  match audio_data with
  | None | Some [] => ((false, 0, 0), st)
  | Some samples =>
      let level := combined_level samples in
      let history := audio_history st ++ [level] in
      let history :=
        if (30 <? length history)%nat then tl history else history in
      let avg_level := if nonempty history then mean history else 0 in
      let noise_level := py_min (avg_level * 20) 1 in
      if Qgtb level voice_threshold then
        let voice := (voice_frames st + 1)%Z in
        ((2 <=? voice)%Z, noise_level, level,
         {| audio_history := history; voice_frames := voice;
            silence_frames := 0 |})
      else
        let silence := (silence_frames st + 1)%Z in
        (false, noise_level, level,
         {| audio_history := history;
            voice_frames := if (5 <=? silence)%Z then 0 else voice_frames st;
            silence_frames := silence |})
  end.

Definition voice_active (r : (bool * Q * Q) * audio_processor) : bool :=
  fst (fst (fst r)).

(** The processor after a sequence of chunks, oldest first. *)
Definition run_audio (chunks : list (option (list Q))) (st : audio_processor)
  : audio_processor :=
  fold_left (fun st chunk => snd (process_audio_chunk chunk st)) chunks st.

(** The levels of the chunks that carry data, in arrival order. *)
Definition levels (chunks : list (option (list Q))) : list Q :=
  flat_map (fun chunk => match chunk_level chunk with
                         | Some l => [l]
                         | None => []
                         end) chunks.

End Audio.

Definition is_noisy_environment (noise_level : Q) : bool :=
  Qgtb noise_level noise_threshold.

Definition get_voice_activity_status (voice : bool) (noise_level : Q) : string :=
  if voice then "Speaking"
  else if Qgtb noise_level noise_threshold then "Noisy Environment"
  else if Qltb noise_level silence_threshold then "Silent"
  else "Background Noise".

(** Some adjacent pair of levels is above the voice threshold. *)
Fixpoint two_consecutive_above (ls : list Q) : bool :=
  match ls with
  | x :: ((y :: _) as rest) =>
      (Qgtb x voice_threshold && Qgtb y voice_threshold)
      || two_consecutive_above rest
  | _ => false
  end.

(** ** [calculate_eye_aspect_ratio]: the landmark formula

    Landmarks are points of the plane with real coordinates; the Euclidean
    norm is [np.linalg.norm]. *)

Definition point : Type := (R * R)%type.

Definition point_sub (p q : point) : point :=
  (fst p - fst q, snd p - snd q)%R.

Definition norm (p : point) : R :=
  sqrt (fst p * fst p + snd p * snd p)%R.

Definition calculate_eye_aspect_ratio (eye_points : list point) : R :=
  match eye_points with
  | p0 :: p1 :: p2 :: p3 :: p4 :: p5 :: _ =>
      let vertical_1 := norm (point_sub p1 p5) in
      let vertical_2 := norm (point_sub p2 p4) in
      let horizontal := norm (point_sub p0 p3) in
      if Req_dec_T horizontal 0 then (3 / 10)%R
      else ((vertical_1 + vertical_2) / (2 * horizontal))%R
  | _ => (3 / 10)%R
  end.

(** ** Predicates used in the statements *)

Definition positive_box (b : box) : Prop := (0 < box_w b)%Z /\ (0 < box_h b)%Z.

Definition positive_boxes (detections : exc (list box)) : Prop :=
  match detections with
  | Some eyes => Forall positive_box eyes
  | None => True
  end.

Definition ear_in_range (q : Q) : Prop := 0 <= q <= 2 # 5.




(** Finite angles that match none of the three tests of the scorer. *)
Definition in_no_band (y p : Q) : Prop :=
  ~ (Qabs y < 10 /\ - (5) < p /\ p < 10)
  /\ ~ (Qabs y < 20 /\ - (10) < p /\ p < 15)
  /\ ~ (25 < Qabs y \/ p < - (15) \/ 20 < p).

(** Number of levels at or below the voice threshold at the head of a
    list given most recent first. *)
Fixpoint quiet_run (recent_first : list Q) : nat :=
  match recent_first with
  | [] => 0
  | l :: older => if Qgtb l voice_threshold then 0 else S (quiet_run older)
  end.

Definition trailing_quiet (ls : list Q) : nat := quiet_run (rev ls).

(** The most recent level above the voice threshold is followed by fewer
    than 5 levels, all at or below it. *)
Definition recent_voice (ls : list Q) : Prop :=
  exists older l quiet,
    ls = older ++ l :: quiet
    /\ voice_threshold < l
    /\ Forall (fun q => q <= voice_threshold) quiet
    /\ (length quiet < 5)%nat.

(** What the counters hold after the chunks processed so far. *)
Definition counters_track (ls : list Q) (st : audio_processor) : Prop :=
  silence_frames st = Z.of_nat (trailing_quiet ls)
  /\ (0 <= voice_frames st)%Z
  /\ ((1 <= voice_frames st)%Z <-> recent_voice ls).

(** ** The face region of a frame, as [detect_emotion_and_attention] takes it *)

Definition face_box (first : emotion_record) : box :=
  get (bbox first) (0, 0, 0, 0)%Z.

Definition face_roi_h (frame : frame_input) (first : emotion_record) : Z :=
  slice_len (gray_h frame) (box_y (face_box first))
            (box_y (face_box first) + box_h (face_box first)).

Definition face_roi_w (frame : frame_input) (first : emotion_record) : Z :=
  slice_len (gray_w frame) (box_x (face_box first))
            (box_x (face_box first) + box_w (face_box first)).

Definition frame_eyes (frame : frame_input) (first : emotion_record) : eyes_data :=
  detect_eyes_detailed (face_roi_w frame first)
                       (eyes_strict frame) (eyes_lenient frame).

(** Neither cascade call yields an eye: the first raises, or finds fewer
    than two eyes and the second raises or finds none. *)
Definition no_eyes_found (strict lenient : exc (list box)) : bool :=
  match strict with
  | None => true
  | Some eyes =>
      (length eyes <? 2)%nat
      && match lenient with
         | None => true
         | Some eyes' => (length eyes' =? 0)%nat
         end
  end.

(** Every entry of the blink history is 0. *)
Definition no_blink_recorded (st : detector) : Prop :=
  Forall (fun flag => flag = 0%Z) (blink_history st).

(** The eye record with its two open flags replaced. *)
Definition set_open_flags (eyes : eyes_data) (l_open r_open : bool) : eyes_data := {|
  left_eye := left_eye eyes;
  right_eye := right_eye eyes;
  left_ear := left_ear eyes;
  right_ear := right_ear eyes;
  left_open := Some l_open;
  right_open := Some r_open;
  avg_ear := avg_ear eyes;
  gaze_direction := gaze_direction eyes;
  eyes_detected := eyes_detected eyes
|}.

(** Both computations raise, or both return and the first result is at
    most the second. *)
Definition exc_le (a b : exc Q) : Prop :=
  match a, b with
  | Some x, Some y => x <= y
  | None, None => True
  | _, _ => False
  end.

(** The box lies inside a region of width [w] and height [h]. *)
Definition box_inside (w h : Z) (b : box) : Prop :=
  (0 <= box_x b)%Z /\ (0 <= box_w b)%Z /\ (box_x b + box_w b <= w)%Z
  /\ (0 <= box_y b)%Z /\ (0 <= box_h b)%Z /\ (box_y b + box_h b <= h)%Z.

(** The two numbers returned by [process_audio_chunk] beside the flag. *)
Definition noise_level_of (r : (bool * Q * Q) * audio_processor) : Q :=
  snd (fst (fst r)).

Definition level_of (r : (bool * Q * Q) * audio_processor) : Q :=
  snd (fst r).

(** ** [SimpleEmotionDetector]: [get_engagement_score] and [detect_emotion] *)

(** [emotion_weights.get(emotion, 0.5)]. *)
Definition emotion_weight (e : string) : Q :=
  if string_eqb e "Happy" then 1
  else if string_eqb e "Surprise" then 4 # 5
  else if string_eqb e "Neutral" then 1 # 2
  else if string_eqb e "Sad" then 1 # 5
  else if string_eqb e "Angry" then 1 # 10
  else if string_eqb e "Fear" then 1 # 10
  else if string_eqb e "Disgust" then 1 # 10
  else 1 # 2.

(** The arithmetic of [get_engagement_score] is floating point: every
    product, sum and quotient is rounded, and so are the decimal literals
    of the weight table.  [fl] is that rounding, from the exact result to
    the float that stands for it. *)
Section Engagement.

Variable fl : Q -> Q.

(** The loop of [get_engagement_score]: the two running totals. *)
Fixpoint engagement_totals (emotions_data : list emotion_record)
  (total_score total_confidence : Q) : exc (Q * Q) :=
  match emotions_data with
  | [] => Some (total_score, total_confidence)
  | emotion_data :: rest =>
      e <- key (emotion emotion_data) ;;
      c <- key (confidence emotion_data) ;;
      let weight := fl (emotion_weight e) in
      engagement_totals rest (fl (total_score + fl (weight * c)))
                        (fl (total_confidence + c))
  end.

(** The method has no [try]: an absent key raises to the caller. *)
Definition get_engagement_score (emotions_data : list emotion_record) : exc Q :=
  if nonempty emotions_data then
    totals <- engagement_totals emotions_data 0 0 ;;
    let '(total_score, total_confidence) := totals in
    if Qgtb total_confidence 0 then Some (fl (total_score / total_confidence))
    else Some 0
  else Some 0.

End Engagement.

(** A rounding to try the definitions on: to the nearest multiple of
    1/1024, halves upwards. *)
Definition round_fixed (q : Q) : Q :=
  inject_Z (Qfloor (q * 1024 + (1 # 2))) / 1024.

(** What the statement about the engagement score asks of a rounding: it
    keeps the order, and 0 and 1 are floats. *)
Definition rounding (fl : Q -> Q) : Prop :=
  (forall x y, x <= y -> fl x <= fl y) /\ fl 0 == 0 /\ fl 1 == 1.

(** A face of [emotions_data] as [get_engagement_score] expects it: a
    label and a confidence between 0 and 1 that is a float. *)
Definition scored_face (fl : Q -> Q) (d : emotion_record) : Prop :=
  exists e c, emotion d = Some e /\ confidence d = Some c
              /\ 0 <= c <= 1 /\ fl c == c.

(** The inner loop of [detect_emotion] over the parameter presets of one
    cascade: the first call that finds a face ends it.  Each element is
    what one [detectMultiScale] call returns, [None] when it raises. *)
Fixpoint try_presets (results : list (exc (list box))) : exc (list box) :=
  match results with
  | [] => Some []
  | result :: rest =>
      current_faces <- result ;;
      if nonempty current_faces then Some current_faces else try_presets rest
  end.

(** The outer loop over the cascades. *)
Fixpoint try_cascades (cascades : list (list (exc (list box))))
  : exc (list box) :=
  match cascades with
  | [] => Some []
  | presets :: rest =>
      faces <- try_presets presets ;;
      if nonempty faces then Some faces else try_cascades rest
  end.

(** Detections of the upscaled image mapped back: [int(v / scale_up)]. *)
Definition map_back (b : box) : box :=
  let '(x, y, w, h) := b in
  (py_int (inject_Z x / 2), py_int (inject_Z y / 2),
   py_int (inject_Z w / 2), py_int (inject_Z h / 2)).

(** The padded face box, cut at the right and bottom edges of the frame. *)
Definition pad_face (frame_h frame_w : Z) (b : box) : box :=
  let '(x, y, w, h) := b in
  let padding := py_int ((1 # 10) * inject_Z w) in
  let x := Z.max 0 (x - padding) in
  let y := Z.max 0 (y - padding) in
  let w := Z.min (frame_w - x) (w + 2 * padding) in
  let h := Z.min (frame_h - y) (h + 2 * padding) in
  (x, y, w, h).

Section EmotionDetector.

(** [simple_emotion_detection] on the region of the padded box. *)
Variable classify_region : box -> string * Q.

(** [frame_shape] is [None] for a missing frame, else its height and
    width; the frame has three channels.  [cascades] holds, for each
    loaded cascade, the results of its calls in preset order. *)
Definition detect_emotion (frame_shape : option (Z * Z))
  (cascades : list (list (exc (list box)))) : list emotion_record :=
  match frame_shape with
  | None => []
  | Some (h0, w0) =>
      if (h0 * w0 * 3 =? 0)%Z then []
      else
        match try_cascades cascades with
        | None => []
        | Some faces =>
            let upscaled := (Z.max w0 h0 <? 500)%Z in
            let faces :=
              if upscaled && nonempty faces then map map_back faces
              else faces in
            map (fun face =>
                   let padded := pad_face h0 w0 face in
                   let '(e, c) := classify_region padded in
                   {| emotion := Some e; confidence := Some c;
                      bbox := Some padded |})
                faces
        end
  end.

End EmotionDetector.

(** The size of the image the cascades scan: the frame, doubled when its
    larger side is below 500. *)
Definition scanned_h (h0 w0 : Z) : Z :=
  if (Z.max w0 h0 <? 500)%Z then py_int (inject_Z h0 * 2) else h0.

Definition scanned_w (h0 w0 : Z) : Z :=
  if (Z.max w0 h0 <? 500)%Z then py_int (inject_Z w0 * 2) else w0.

(** Every detection of every call lies inside the scanned image. *)
Definition detections_inside (h0 w0 : Z)
  (cascades : list (list (exc (list box)))) : Prop :=
  Forall (Forall (fun result =>
                    match result with
                    | Some faces =>
                        Forall (box_inside (scanned_w h0 w0) (scanned_h h0 w0))
                               faces
                    | None => True
                    end))
         cascades.

(** [outer] covers [inner]. *)
Definition box_covers (outer inner : box) : Prop :=
  (box_x outer <= box_x inner)%Z
  /\ (box_x inner + box_w inner <= box_x outer + box_w outer)%Z
  /\ (box_y outer <= box_y inner)%Z
  /\ (box_y inner + box_h inner <= box_y outer + box_h outer)%Z.

(** The detections that [detect_emotion] keeps, in frame coordinates. *)
Definition frame_faces (h0 w0 : Z) (cascades : list (list (exc (list box))))
  : list box :=
  match try_cascades cascades with
  | None => []
  | Some faces =>
      if (Z.max w0 h0 <? 500)%Z && nonempty faces then map map_back faces
      else faces
  end.

(** Every detection of every call is a square of side 14 at least. *)
Definition detections_square (cascades : list (list (exc (list box)))) : Prop :=
  Forall (Forall (fun result =>
                    match result with
                    | Some faces =>
                        Forall (fun b => box_w b = box_h b /\ (14 <= box_w b)%Z)
                               faces
                    | None => True
                    end))
         cascades.

(** ** [SimpleEmotionDetector.simple_emotion_detection] *)

(** What numpy and OpenCV measure on the resized face. *)
Record face_features : Type := {
  mean_intensity : Q;
  std_intensity : Q;
  edge_density : Q;
  eye_mean : Q;
  mouth_mean : Q;
  forehead_mean : Q;
  symmetry_score : Q
}.

(** The dictionary [emotion_scores], in insertion order. *)
Definition emotion_scores (f : face_features) : list (string * Q) :=
  let normalized_std := py_min (std_intensity f / 50) 1 in
  let normalized_edge := py_min (edge_density f * 10) 1 in
  let eye_diff := (eye_mean f - mean_intensity f) / 255 in
  let forehead_diff := (forehead_mean f - mean_intensity f) / 255 in
  let mouth_curvature := (mouth_mean f - mean_intensity f) / 255 in
  let eyebrow_tension := Qabs forehead_diff in
  let eye_aperture := Qabs eye_diff in
  let symmetry := symmetry_score f in
  [ ("Happy"%string,
     if Qgtb mouth_curvature (1 # 10) && Qgtb normalized_edge (3 # 25)
        && Qgtb symmetry (9 # 20) && Qltb eye_aperture (1 # 10)
     then py_max 0 (mouth_curvature * 3 + normalized_edge * (4 # 5)
                    + symmetry * (2 # 5))
     else 0);
    ("Sad"%string,
     if Qltb mouth_curvature (- (3 # 50))
        && (Qltb eye_diff 0 || Qgtb eyebrow_tension (1 # 20))
     then py_max 0 (Qabs mouth_curvature * 2 + (1 - symmetry) * (1 # 2)
                    + eye_aperture * (3 # 5))
     else 0);
    ("Surprise"%string,
     if Qgtb normalized_std (7 # 25) && Qgtb eye_aperture (2 # 25)
        && Qgtb mouth_curvature (- (1 # 20))
     then py_max 0 (normalized_std * 1 + eye_aperture * (4 # 5)
                    + normalized_edge * (2 # 5))
     else 0);
    ("Neutral"%string,
     if Qltb (Qabs mouth_curvature) (1 # 20) && Qltb normalized_std (11 # 50)
        && Qgtb symmetry (2 # 5)
     then py_max 0 (symmetry * (4 # 5) + (1 - normalized_std * 2) * (2 # 5)
                    + (1 - Qabs mouth_curvature * 5) * (3 # 10))
     else 0);
    ("Angry"%string,
     if Qltb forehead_diff (- (3 # 50)) && Qltb mouth_curvature 0
        && Qltb symmetry (7 # 10)
     then py_max 0 ((1 - symmetry) * (4 # 5) + eyebrow_tension * (3 # 5)
                    + Qabs mouth_curvature * (2 # 5))
     else 0);
    ("Fear"%string,
     if Qgtb normalized_std (11 # 50) && Qgtb eye_aperture (3 # 50)
        && Qltb mouth_curvature (- (3 # 100))
     then py_max 0 (normalized_std * (3 # 5) + eye_aperture * (1 # 2)
                    + Qabs mouth_curvature * (3 # 10))
     else 0);
    ("Disgust"%string,
     if Qltb mouth_curvature (- (1 # 25)) && Qltb forehead_diff (- (3 # 100))
        && Qltb symmetry (3 # 4)
     then py_max 0 ((1 - symmetry) * (3 # 5) + Qabs mouth_curvature * (1 # 2)
                    + eyebrow_tension * (3 # 10))
     else 0) ].

(** [max(items, key=lambda x: x[1])]: the first item of maximal score. *)
Fixpoint max_by_score (best : string * Q) (items : list (string * Q))
  : string * Q :=
  match items with
  | [] => best
  | item :: rest =>
      max_by_score (if Qgtb (snd item) (snd best) then item else best) rest
  end.

(** [sorted(values, reverse=True)]. *)
Fixpoint insert_desc (x : Q) (l : list Q) : list Q :=
  match l with
  | [] => [x]
  | y :: rest => if Qle_bool y x then x :: l else y :: insert_desc x rest
  end.

Definition sorted_desc (values : list Q) : list Q :=
  fold_right insert_desc [] values.

(** [face] is [None] for a missing or empty region, [Some None] when a
    measurement raises. *)
Definition simple_emotion_detection (face : option (exc face_features))
  : string * Q :=
  match face with
  | None => ("Unknown"%string, 0)
  | Some None => ("Neutral"%string, 1 # 2)
  | Some (Some f) =>
      match emotion_scores f with
      | [] => ("Neutral"%string, 1 # 2)
      | first :: others =>
          let '(emotion, score) := max_by_score first others in
          let sorted_scores := sorted_desc (map snd (first :: others)) in
          let top := nth 0 sorted_scores 0 in
          let second := nth 1 sorted_scores 0 in
          let confidence :=
            if (1 <? length sorted_scores)%nat && Qgtb top 0
            then (1 # 2) + py_min ((top - second) * 2) (1 # 2)
            else 3 # 5 in
          let confidence := py_min (9 # 10) (py_max (1 # 2) confidence) in
          if Qltb score (9 # 50)
             || ((1 <? length sorted_scores)%nat
                 && Qltb (top - second) (1 # 20))
          then ("Neutral"%string, 13 # 20)
          else (emotion, confidence)
      end
  end.

(** The seven labels of the score table, in its order. *)
Definition score_table_labels : list string :=
  ["Happy"; "Sad"; "Surprise"; "Neutral"; "Angry"; "Fear"; "Disgust"]%string.

(** A key that [calculate_attention_score] reads on every path is absent. *)
Definition score_key_missing (emotions_data : list emotion_record)
  (eyes : eyes_data) (hp : head_pose) : Prop :=
  left_open eyes = None \/ right_open eyes = None
  \/ gaze_direction eyes = None
  \/ yaw hp = None \/ pitch hp = None
  \/ (exists first rest, emotions_data = first :: rest /\ emotion first = None).

(** * Properties *)

(** ** Comparisons, minimum and maximum *)

Lemma Qltb_lt (x y : Q) : Qltb x y = true <-> x < y.
Proof.
  unfold Qltb. rewrite negb_true_iff.
  split; intro H.
  - apply Qnot_le_lt. intro Hle. apply Qle_bool_iff in Hle. congruence.
  - destruct (Qle_bool y x) eqn:E; [|reflexivity].
    apply Qle_bool_iff in E. exfalso. apply (Qlt_not_le _ _ H E).
Qed.

Lemma Qltb_ge (x y : Q) : Qltb x y = false <-> y <= x.
Proof.
  unfold Qltb. rewrite negb_false_iff. apply Qle_bool_iff.
Qed.

Lemma Qgtb_gt (x y : Q) : Qgtb x y = true <-> y < x.
Proof. apply Qltb_lt. Qed.

Lemma Qgtb_le (x y : Q) : Qgtb x y = false <-> x <= y.
Proof. apply Qltb_ge. Qed.

Lemma py_max_lub (a b : Q) : a <= py_max a b /\ b <= py_max a b.
Proof.
  unfold py_max. destruct (Qgtb b a) eqn:E.
  - apply Qgtb_gt in E. split; [apply Qlt_le_weak; exact E | apply Qle_refl].
  - apply Qgtb_le in E. split; [apply Qle_refl | exact E].
Qed.

Lemma py_min_glb (a b : Q) : py_min a b <= a /\ py_min a b <= b.
Proof.
  unfold py_min. destruct (Qltb b a) eqn:E.
  - apply Qltb_lt in E. split; [apply Qlt_le_weak; exact E | apply Qle_refl].
  - apply Qltb_ge in E. split; [apply Qle_refl | exact E].
Qed.

Lemma py_max_cases (a b : Q) : py_max a b = a \/ py_max a b = b.
Proof. unfold py_max. destruct (Qgtb b a); auto. Qed.

Lemma py_min_cases (a b : Q) : py_min a b = a \/ py_min a b = b.
Proof. unfold py_min. destruct (Qltb b a); auto. Qed.

(** The final clamp of the scorer. *)
Lemma clamp_range (b : Q) : 0 <= py_max 0 (py_min 100 b) <= 100.
Proof.
  split.
  - apply py_max_lub.
  - destruct (py_max_cases 0 (py_min 100 b)) as [E | E]; rewrite E.
    + discriminate.
    + apply py_min_glb.
Qed.

(** ** Slices and bounded deques *)

Lemma last_n_length {A : Type} (n : nat) (l : list A) :
  length (last_n n l) = Nat.min n (length l).
Proof. unfold last_n. rewrite length_skipn. lia. Qed.

Lemma last_n_all {A : Type} (n : nat) (l : list A) :
  (length l <= n)%nat -> last_n n l = l.
Proof.
  intro H. unfold last_n. replace (length l - n)%nat with 0%nat by lia.
  reflexivity.
Qed.

Lemma last_n_app {A : Type} (n : nat) (l1 l2 : list A) :
  (n <= length l2)%nat -> last_n n (l1 ++ l2) = last_n n l2.
Proof.
  intro H. unfold last_n. rewrite length_app, skipn_app.
  replace (length l1 + length l2 - n - length l1)%nat
    with (length l2 - n)%nat by lia.
  rewrite skipn_all2 by lia. reflexivity.
Qed.

Lemma last_n_snoc {A : Type} (n : nat) (l : list A) (x : A) :
  last_n (S n) (l ++ [x]) = last_n n l ++ [x].
Proof.
  unfold last_n. rewrite length_app, skipn_app. simpl.
  replace (length l + 1 - S n)%nat with (length l - n)%nat by lia.
  replace (length l - n - length l)%nat with 0%nat by lia.
  reflexivity.
Qed.

(** Trimming twice to the same bound keeps the most recent entries. *)
Lemma last_n_app_last_n {A : Type} (n : nat) (l1 l2 : list A) :
  last_n n (last_n n l1 ++ l2) = last_n n (l1 ++ l2).
Proof.
  unfold last_n. rewrite !length_app, length_skipn, !skipn_app, length_skipn.
  rewrite skipn_skipn. f_equal; f_equal; lia.
Qed.

Lemma deque_append_last_n {A : Type} (maxlen : nat) (x : A) (d : list A) :
  (length d <= maxlen)%nat ->
  deque_append maxlen x d = last_n maxlen (d ++ [x]).
Proof.
  intro H. unfold deque_append. cbv zeta.
  destruct (Nat.ltb_spec maxlen (length (d ++ [x]))) as [Hlt | Hge].
  - rewrite length_app in Hlt. simpl in Hlt.
    unfold last_n. rewrite length_app. simpl.
    replace (length d + 1 - maxlen)%nat with 1%nat by lia.
    reflexivity.
  - symmetry. apply last_n_all. exact Hge.
Qed.

Lemma deque_append_length {A : Type} (maxlen : nat) (x : A) (d : list A) :
  (length d <= maxlen)%nat ->
  (length (deque_append maxlen x d) <= maxlen)%nat.
Proof.
  intro H. rewrite deque_append_last_n by exact H.
  rewrite last_n_length. lia.
Qed.

(** ** The attention score *)

(** C1.  Whatever the emotion list, the eye record, the head pose, the
    blink rate and the yawn flag are (absent keys, infinite or nan angles
    included), [calculate_attention_score] returns a value between 0 and
    100. *)
Theorem calculate_attention_score_range
  (emotions_data : list emotion_record) (eyes : eyes_data) (hp : head_pose)
  (rate : Q) (yawn : bool) :
  0 <= calculate_attention_score emotions_data eyes hp rate yawn <= 100.
Proof.
  unfold calculate_attention_score, attention_score_body.
  destruct (eye_step eyes _) as [b1 |]; simpl; [| split; discriminate].
  destruct (gaze_step eyes b1) as [b2 |]; simpl; [| split; discriminate].
  destruct (head_pose_step hp b2) as [b3 |]; simpl; [| split; discriminate].
  destruct (emotion_step emotions_data _) as [b4 |]; simpl;
    [| split; discriminate].
  apply clamp_range.
Qed.

(** The clamp is reached from both sides: a happy, attentive face scores
    100 and closed eyes with every penalty score 0. *)
Example score_ceiling_reached :
  calculate_attention_score
    [{| emotion := Some "Happy"%string; confidence := None; bbox := None |}]
    {| left_eye := Some None; right_eye := Some None;
       left_ear := Some (7 # 20); right_ear := Some (7 # 20);
       left_open := Some true; right_open := Some true;
       avg_ear := Some (7 # 20); gaze_direction := Some "center"%string;
       eyes_detected := Some 2%Z |}
    zero_pose 0 false = 100.
Proof. reflexivity. Qed.

Example score_floor_reached :
  calculate_attention_score []
    {| left_eye := Some None; right_eye := Some None;
       left_ear := Some (3 # 20); right_ear := Some (3 # 20);
       left_open := Some false; right_open := Some false;
       avg_ear := Some (3 # 20); gaze_direction := Some "left"%string;
       eyes_detected := Some 0%Z |}
    {| pitch := Some (Fin 0); yaw := Some (Fin 40); roll := Some (Fin 0) |}
    1 true == 0.
Proof. vm_compute. reflexivity. Qed.

(** ** Blink detection *)

(** The slice [recent_ears] holds at most [EAR_CONSEC_FRAMES] = 3 entries,
    so the test [len(recent_ears) > 3] that guards the falling edge fails
    on every call. *)
Lemma detect_blink_never_fires (eye_data : eyes_data) (st : detector) :
  fst (detect_blink eye_data st) = false.
Proof.
  unfold detect_blink.
  destruct (key (avg_ear eye_data)) as [ear |]; [| reflexivity].
  cbv zeta.
  set (history := eye_aspect_ratio_history _).
  assert (Hlen : (3 <? length (last_n EAR_CONSEC_FRAMES history))%nat = false).
  { apply Nat.ltb_ge. rewrite last_n_length. unfold EAR_CONSEC_FRAMES. lia. }
  rewrite Hlen, andb_false_r. reflexivity.
Qed.

(** C2.  On the sequence 0.35, 0.35, 0.35, 0.35, 0.10, 0.10, 0.10 fed to a
    detector with an empty history, [detect_blink] returns [False] on every
    call: the blink at the seventh sample, where the last three ratios are
    below 0.25 and the fourth-previous one is above it, is not reported. *)
Theorem detect_blink_misses_falling_edge :
  blink_flags [7 # 20; 7 # 20; 7 # 20; 7 # 20; 1 # 10; 1 # 10; 1 # 10] init
  = [false; false; false; false; false; false; false].
Proof. vm_compute. reflexivity. Qed.

(** ** The attention status *)

(** C3.  When both eye flags are false, or when fewer than two eyes were
    located and the average ratio is below the closed threshold,
    [determine_attention_status] answers "Distracted (Eyes Closed)",
    whatever the score, the head pose and the yawn flag. *)
Theorem eyes_closed_preempts_score
  (attention_score : Q) (eyes : eyes_data) (hp : head_pose) (yawn : bool)
  (Hclosed :
     (left_open eyes = Some false /\ right_open eyes = Some false)
     \/ (exists lo ro n ear,
           left_open eyes = Some lo /\ right_open eyes = Some ro
           /\ eyes_detected eyes = Some n /\ (n < 2)%Z
           /\ avg_ear eyes = Some ear /\ ear < EAR_THRESHOLD)) :
  determine_attention_status attention_score eyes hp yawn
  = "Distracted (Eyes Closed)"%string.
Proof.
  unfold determine_attention_status, attention_status_body, key.
  destruct Hclosed as [[Hl Hr] | (lo & ro & n & ear & Hl & Hr & Hn & Hlt & Ha & He)].
  - rewrite Hl, Hr. reflexivity.
  - rewrite Hl, Hr, Hn, Ha. simpl.
    apply Qltb_lt in He. apply Z.ltb_lt in Hlt.
    destruct lo, ro; simpl; rewrite ?Hlt, ?He; reflexivity.
Qed.

Lemma eyes_closed_preempts_score_witness :
  determine_attention_status 90
    {| left_eye := Some None; right_eye := Some None;
       left_ear := Some (3 # 20); right_ear := Some (3 # 20);
       left_open := Some false; right_open := Some false;
       avg_ear := Some (3 # 20); gaze_direction := Some "center"%string;
       eyes_detected := Some 2%Z |}
    zero_pose false
  = "Distracted (Eyes Closed)"%string.
Proof.
  apply eyes_closed_preempts_score. left. split; reflexivity.
Defined.

(** ** Eye aspect ratios *)

Lemma bbox_ear_range (w h : Z) :
  (0 < w)%Z -> (0 <= h)%Z -> ear_in_range (bbox_ear w h).
Proof.
  intros Hw Hh. unfold ear_in_range, bbox_ear. split.
  - destruct (py_min_cases (inject_Z h / (inject_Z w * 2)) (2 # 5)) as [E | E];
      rewrite E; [| discriminate].
    apply Qle_shift_div_l.
    + unfold Qlt. simpl. lia.
    + unfold Qle. simpl. lia.
  - apply py_min_glb.
Qed.

Lemma default_ear_range : ear_in_range (3 # 10).
Proof. split; discriminate. Qed.

Lemma closed_ear_range : ear_in_range (3 # 20).
Proof. split; discriminate. Qed.

Lemma insert_by_x_Forall (P : box -> Prop) (e : box) (l : list box) :
  P e -> Forall P l -> Forall P (insert_by_x e l).
Proof.
  intros He Hl. induction Hl as [| e' l' He' Hl' IH]; simpl.
  - constructor; [exact He | constructor].
  - destruct (box_x e <=? box_x e')%Z.
    + constructor; [exact He | constructor; assumption].
    + constructor; assumption.
Qed.

Lemma sorted_by_x_Forall (P : box -> Prop) (l : list box) :
  Forall P l -> Forall P (sorted_by_x l).
Proof.
  unfold sorted_by_x. induction 1 as [| e l He Hl IH]; simpl.
  - constructor.
  - apply insert_by_x_Forall; assumption.
Qed.

Lemma assign_eyes_range (w : Z) (eyes : list box) :
  Forall positive_box eyes ->
  let '(_, _, l_ear, r_ear) := assign_eyes w eyes in
  ear_in_range l_ear /\ ear_in_range r_ear.
Proof.
  intro Hpos. unfold assign_eyes.
  destruct eyes as [| e1 [| e2 rest]].
  - split; apply default_ear_range.
  - inversion Hpos as [| ? ? [Hw Hh] _]; subst.
    apply Z.ltb_lt in Hw as Hwb. rewrite Hwb.
    destruct (Qltb _ _); split;
      solve [apply default_ear_range | apply bbox_ear_range; lia].
  - apply (sorted_by_x_Forall positive_box) in Hpos.
    destruct (sorted_by_x (e1 :: e2 :: rest)) as [| l [| r tl]].
    + split; apply default_ear_range.
    + split; apply default_ear_range.
    + inversion Hpos as [| ? ? [Hlw Hlh] Hpos']; subst.
      inversion Hpos' as [| ? ? [Hrw Hrh] _]; subst.
      apply Z.ltb_lt in Hlw as Hlwb, Hlh as Hlhb, Hrw as Hrwb, Hrh as Hrhb.
      rewrite Hlwb, Hlhb, Hrwb, Hrhb. simpl.
      split; apply bbox_ear_range; lia.
Qed.

Lemma average_ear_range (l r : Q) :
  ear_in_range l -> ear_in_range r -> ear_in_range ((l + r) / 2).
Proof.
  unfold ear_in_range. intros [Hl0 Hl1] [Hr0 Hr1]. split.
  - apply Qle_shift_div_l; [reflexivity | lra].
  - apply Qle_shift_div_r; [reflexivity | lra].
Qed.

Lemma py_max_ear_range (l r : Q) :
  ear_in_range l -> ear_in_range r -> ear_in_range (py_max l r).
Proof.
  intros Hl Hr. destruct (py_max_cases l r) as [E | E]; rewrite E; assumption.
Qed.

Lemma eyes_from_detections_range (w : Z) (eyes : list box) :
  Forall positive_box eyes ->
  exists l r a,
    left_ear (eyes_from_detections w eyes) = Some l
    /\ right_ear (eyes_from_detections w eyes) = Some r
    /\ avg_ear (eyes_from_detections w eyes) = Some a
    /\ ear_in_range l /\ ear_in_range r /\ ear_in_range a.
Proof.
  intro Hpos. pose proof (assign_eyes_range w eyes Hpos) as H.
  unfold eyes_from_detections.
  destruct (assign_eyes w eyes) as [[[l_eye r_eye] l_ear] r_ear].
  destruct H as [Hl Hr]. cbv zeta.
  eexists _, _, _.
  split; [reflexivity |]. split; [reflexivity |]. split; [reflexivity |].
  split; [exact Hl |]. split; [exact Hr |].
  destruct (length eyes =? 0)%nat; [apply closed_ear_range |].
  destruct (2 <=? length eyes)%nat.
  - apply average_ear_range; assumption.
  - apply py_max_ear_range; assumption.
Qed.

(** The landmark formula has no cap: six landmarks whose two vertical
    distances equal the horizontal one give the ratio 1. *)
Lemma landmark_ear_exceeds_cap :
  (4 / 10 <
   calculate_eye_aspect_ratio
     [(0, 0); (0, 1); (0, 1); (1, 0); (0, 0); (0, 0)])%R.
Proof.
  unfold calculate_eye_aspect_ratio, norm, point_sub. simpl.
  replace ((0 - 0) * (0 - 0) + (1 - 0) * (1 - 0))%R with 1%R by Lra.lra.
  replace ((0 - 1) * (0 - 1) + (0 - 0) * (0 - 0))%R with 1%R by Lra.lra.
  rewrite sqrt_1.
  destruct (Req_dec_T 1 0) as [E | _]; Lra.lra.
Qed.

Lemma landmark_ear_nonneg (eye_points : list point) :
  (0 <= calculate_eye_aspect_ratio eye_points)%R.
Proof.
  unfold calculate_eye_aspect_ratio.
  destruct eye_points as [| p0 [| p1 [| p2 [| p3 [| p4 [| p5 rest]]]]]];
    try Lra.lra.
  cbv zeta.
  destruct (Req_dec_T (norm (point_sub p0 p3)) 0) as [E | NE]; [Lra.lra |].
  pose proof (sqrt_pos (fst (point_sub p0 p3) * fst (point_sub p0 p3)
                        + snd (point_sub p0 p3) * snd (point_sub p0 p3))) as H0.
  pose proof (sqrt_pos (fst (point_sub p1 p5) * fst (point_sub p1 p5)
                        + snd (point_sub p1 p5) * snd (point_sub p1 p5))) as H1.
  pose proof (sqrt_pos (fst (point_sub p2 p4) * fst (point_sub p2 p4)
                        + snd (point_sub p2 p4) * snd (point_sub p2 p4))) as H2.
  fold (norm (point_sub p0 p3)) in H0.
  fold (norm (point_sub p1 p5)) in H1.
  fold (norm (point_sub p2 p4)) in H2.
  apply Rmult_le_pos; [Lra.lra |].
  left. apply Rinv_0_lt_compat. Lra.lra.
Qed.

(** C4, as the code has it.  For eye boxes of positive width and height,
    the per-eye ratios and the average ratio reported by
    [detect_eyes_detailed] lie between 0 and 0.4; the landmark formula
    [calculate_eye_aspect_ratio] is non-negative and is not capped. *)
Theorem eye_aspect_ratio_range
  (w : Z) (strict lenient : exc (list box)) (eye_points : list point)
  (Hstrict : positive_boxes strict) (Hlenient : positive_boxes lenient) :
  (exists l r a,
     left_ear (detect_eyes_detailed w strict lenient) = Some l
     /\ right_ear (detect_eyes_detailed w strict lenient) = Some r
     /\ avg_ear (detect_eyes_detailed w strict lenient) = Some a
     /\ ear_in_range l /\ ear_in_range r /\ ear_in_range a)
  /\ (0 <= calculate_eye_aspect_ratio eye_points)%R.
Proof.
  split; [| apply landmark_ear_nonneg].
  assert (Herr : exists l r a,
             left_ear eyes_on_error = Some l
             /\ right_ear eyes_on_error = Some r
             /\ avg_ear eyes_on_error = Some a
             /\ ear_in_range l /\ ear_in_range r /\ ear_in_range a).
  { exists (3 # 20), (3 # 20), (3 # 20).
    repeat split; try reflexivity; discriminate. }
  unfold detect_eyes_detailed.
  destruct strict as [eyes |]; simpl; [| exact Herr].
  destruct (length eyes <? 2)%nat.
  - destruct lenient as [eyes' |]; simpl; [| exact Herr].
    apply eyes_from_detections_range. exact Hlenient.
  - simpl. apply eyes_from_detections_range. exact Hstrict.
Qed.

Lemma eye_aspect_ratio_range_witness :
  (exists l r a,
     left_ear (detect_eyes_detailed 100
                 (Some [(60, 30, 20, 30); (15, 30, 20, 8)]%Z) None) = Some l
     /\ right_ear (detect_eyes_detailed 100
                 (Some [(60, 30, 20, 30); (15, 30, 20, 8)]%Z) None) = Some r
     /\ avg_ear (detect_eyes_detailed 100
                 (Some [(60, 30, 20, 30); (15, 30, 20, 8)]%Z) None) = Some a
     /\ ear_in_range l /\ ear_in_range r /\ ear_in_range a)
  /\ (0 <= calculate_eye_aspect_ratio
             [(0, 0); (0, 1); (0, 1); (1, 0); (0, 0); (0, 0)])%R.
Proof.
  apply eye_aspect_ratio_range.
  - simpl. repeat constructor.
  - simpl. exact I.
Defined.

(** C10.  When [detect_eyes_detailed] reports at least one eye and one of
    the two per-eye ratios is below 0.15, it reports both eyes closed,
    whatever the other ratio is. *)
Theorem very_low_ear_closes_both_eyes
  (w : Z) (strict lenient : exc (list box)) (n : Z) (l r : Q)
  (Hn : eyes_detected (detect_eyes_detailed w strict lenient) = Some n)
  (Hone : (1 <= n)%Z)
  (Hl : left_ear (detect_eyes_detailed w strict lenient) = Some l)
  (Hr : right_ear (detect_eyes_detailed w strict lenient) = Some r)
  (Hlow : l < 3 # 20 \/ r < 3 # 20) :
  left_open (detect_eyes_detailed w strict lenient) = Some false
  /\ right_open (detect_eyes_detailed w strict lenient) = Some false.
Proof.
  assert (Hmain : forall eyes,
             eyes_detected (eyes_from_detections w eyes) = Some n ->
             left_ear (eyes_from_detections w eyes) = Some l ->
             right_ear (eyes_from_detections w eyes) = Some r ->
             left_open (eyes_from_detections w eyes) = Some false
             /\ right_open (eyes_from_detections w eyes) = Some false).
  { intros eyes. unfold eyes_from_detections.
    destruct (assign_eyes w eyes) as [[[l_eye r_eye] l_ear] r_ear].
    cbv zeta. cbn [eyes_detected left_ear right_ear left_open right_open].
    intros En El Er.
    injection En as En. injection El as El. injection Er as Er. subst.
    assert (Hlen : (1 <=? length eyes)%nat = true) by (apply Nat.leb_le; lia).
    assert (Hor : Qltb l (3 # 20) || Qltb r (3 # 20) = true).
    { apply orb_true_iff.
      destruct Hlow as [H | H]; [left | right]; apply Qltb_lt; exact H. }
    rewrite Hlen, Hor. cbn [andb].
    destruct (length eyes =? 0)%nat; split; reflexivity. }
  revert Hn Hl Hr. unfold detect_eyes_detailed.
  destruct strict as [eyes |]; simpl.
  - destruct (length eyes <? 2)%nat.
    + destruct lenient as [eyes' |]; simpl; [apply Hmain |].
      intros Hn. injection Hn as Hn. lia.
    + simpl. apply Hmain.
  - intros Hn. injection Hn as Hn. lia.
Qed.

(** Two eyes found; the left box is flat (ratio 0.1), the right one is
    wide open (ratio 0.4, above the open threshold 0.3). *)
Lemma very_low_ear_closes_both_eyes_witness :
  left_open (detect_eyes_detailed 100
               (Some [(10, 10, 20, 4); (60, 10, 20, 16)]%Z) None) = Some false
  /\ right_open (detect_eyes_detailed 100
               (Some [(10, 10, 20, 4); (60, 10, 20, 16)]%Z) None) = Some false.
Proof.
  apply (very_low_ear_closes_both_eyes 100
           (Some [(10, 10, 20, 4); (60, 10, 20, 16)]%Z) None
           2 (bbox_ear 20 4) (bbox_ear 20 16)).
  - reflexivity.
  - lia.
  - reflexivity.
  - reflexivity.
  - left. vm_compute. reflexivity.
Defined.

Example right_ratio_above_open_threshold :
  EAR_THRESHOLD * (6 # 5) < bbox_ear 20 16.
Proof. vm_compute. reflexivity. Qed.

(** ** The yawn detector *)

Lemma all_Forall {A : Type} (p : A -> bool) (l : list A) :
  all p l = true <-> Forall (fun x => p x = true) l.
Proof. unfold all. rewrite forallb_forall, Forall_forall. reflexivity. Qed.

Lemma detect_yawn_nonempty (h w : Z) (st : detector) :
  (slice_len h (py_int (inject_Z h * (3 # 5))) h * w <> 0)%Z ->
  let mar := inject_Z (slice_len h (py_int (inject_Z h * (3 # 5))) h)
             / inject_Z w in
  let history := deque_append MOUTH_MAXLEN mar (mouth_history st) in
  detect_yawn h w st
  = (((YAWN_CONSEC_FRAMES <=? length history)%nat
      && all (fun m => Qgtb m YAWN_THRESHOLD)
             (last_n YAWN_CONSEC_FRAMES history), mar),
     set_mouth_history st history).
Proof.
  intro Hsize. cbv zeta. unfold detect_yawn. cbv zeta.
  apply Z.eqb_neq in Hsize as Hb. rewrite Hb.
  assert (Hw : (w =? 0)%Z = false) by (apply Z.eqb_neq; lia).
  rewrite Hw. simpl mouth_history.
  destruct (_ && _); reflexivity.
Qed.

Lemma all_above_iff (l : list Q) :
  all (fun m => Qgtb m YAWN_THRESHOLD) l = true
  <-> Forall (fun m => YAWN_THRESHOLD < m) l.
Proof.
  rewrite all_Forall. split; apply Forall_impl; intros m; apply Qgtb_gt.
Qed.

Lemma last_n_tl {A : Type} (n : nat) (l : list A) :
  (n < length l)%nat -> last_n n (tl l) = last_n n l.
Proof.
  destruct l as [| a l]; simpl; [lia |]. intro H. unfold last_n. simpl length.
  replace (S (length l) - n)%nat with (S (length l - n)) by lia.
  reflexivity.
Qed.

(** The most recent entries of a deque after an append, whatever was
    dropped at the other end. *)
Lemma deque_append_recent {A : Type} (n maxlen : nat) (x : A) (d : list A) :
  (n <= maxlen)%nat ->
  last_n n (deque_append maxlen x d) = last_n n (d ++ [x])
  /\ (Nat.min (length d + 1) maxlen <= length (deque_append maxlen x d))%nat.
Proof.
  intro H. unfold deque_append. cbv zeta.
  destruct (Nat.ltb_spec maxlen (length (d ++ [x]))) as [Hlt | Hge].
  - split; [apply last_n_tl; lia |].
    assert (Htl : length (tl (d ++ [x])) = (length (d ++ [x]) - 1)%nat)
      by (destruct (d ++ [x]); simpl; lia).
    rewrite Htl. rewrite length_app in *. cbn [length] in *. lia.
  - split; [reflexivity |]. rewrite length_app. simpl. lia.
Qed.

(** C6.  On a face region of height [h] and width [w] with a non-empty
    mouth region, [detect_yawn] computes the mouth ratio
    [(h - int(0.6 h)) / w], returns it, appends it to the mouth history
    and changes nothing else.  It declares a yawn exactly when the history
    then holds at least 10 samples and its 10 most recent samples all
    exceed 0.6.  So 9 samples above the threshold that follow one at or
    below it do not make a yawn and 10 samples above it do, both when
    read on the history after the call and when read on the history
    before the call together with the ratio of the current frame. *)
Theorem yawn_needs_sustained_frames (h w : Z) (st : detector)
  (Hface : (slice_len h (py_int (inject_Z h * (3 # 5))) h * w <> 0)%Z) :
  let mar := inject_Z (slice_len h (py_int (inject_Z h * (3 # 5))) h)
             / inject_Z w in
  let '((yawn, intensity), st') := detect_yawn h w st in
  intensity = mar
  /\ st' = set_mouth_history st
             (deque_append MOUTH_MAXLEN mar (mouth_history st))
  /\ (yawn = true <->
      (YAWN_CONSEC_FRAMES <= length (mouth_history st'))%nat
      /\ Forall (fun m => YAWN_THRESHOLD < m)
                (last_n YAWN_CONSEC_FRAMES (mouth_history st')))
  /\ (forall older below run,
        mouth_history st' = older ++ below :: run ->
        length run = (YAWN_CONSEC_FRAMES - 1)%nat ->
        below <= YAWN_THRESHOLD ->
        Forall (fun m => YAWN_THRESHOLD < m) run ->
        yawn = false)
  /\ (forall older run,
        mouth_history st' = older ++ run ->
        length run = YAWN_CONSEC_FRAMES ->
        Forall (fun m => YAWN_THRESHOLD < m) run ->
        yawn = true)
  /\ (forall older below run,
        mouth_history st = older ++ below :: run ->
        length run = (YAWN_CONSEC_FRAMES - 2)%nat ->
        below <= YAWN_THRESHOLD ->
        Forall (fun m => YAWN_THRESHOLD < m) run ->
        yawn = false)
  /\ (forall older run,
        mouth_history st = older ++ run ->
        length run = (YAWN_CONSEC_FRAMES - 1)%nat ->
        Forall (fun m => YAWN_THRESHOLD < m) run ->
        YAWN_THRESHOLD < mar ->
        yawn = true).
Proof.
  cbv zeta. rewrite (detect_yawn_nonempty h w st Hface). cbv zeta.
  cbn [mouth_history set_mouth_history].
  set (mar := inject_Z _ / inject_Z w).
  set (history := deque_append MOUTH_MAXLEN mar (mouth_history st)).
  split; [reflexivity |]. split; [reflexivity |].
  split; [| split; [| split; [| split]]].
  - rewrite andb_true_iff, Nat.leb_le, all_above_iff. reflexivity.
  - intros older below run Hhist Hrun Hbelow _.
    apply andb_false_iff. right.
    rewrite Hhist, (last_n_app _ older (below :: run))
      by (simpl; rewrite Hrun; unfold YAWN_CONSEC_FRAMES; lia).
    rewrite last_n_all
      by (simpl; rewrite Hrun; unfold YAWN_CONSEC_FRAMES; lia).
    simpl. apply Qgtb_le in Hbelow. rewrite Hbelow. reflexivity.
  - intros older run Hhist Hrun Habove.
    apply andb_true_iff. split.
    + apply Nat.leb_le. rewrite Hhist, length_app. lia.
    + rewrite Hhist, (last_n_app _ older run) by lia.
      rewrite last_n_all by lia.
      apply all_above_iff. exact Habove.
  - intros older below run Hhist Hrun Hbelow _.
    apply andb_false_iff. right.
    destruct (deque_append_recent YAWN_CONSEC_FRAMES MOUTH_MAXLEN mar
                (mouth_history st)) as [Hrecent _];
      [unfold YAWN_CONSEC_FRAMES, MOUTH_MAXLEN; lia |].
    fold history in Hrecent. rewrite Hrecent, Hhist.
    replace ((older ++ below :: run) ++ [mar])
      with (older ++ (below :: run ++ [mar]))
      by (rewrite <- app_assoc; reflexivity).
    rewrite last_n_app
      by (simpl; rewrite length_app, Hrun; unfold YAWN_CONSEC_FRAMES;
          simpl; lia).
    rewrite last_n_all
      by (simpl; rewrite length_app, Hrun; unfold YAWN_CONSEC_FRAMES;
          simpl; lia).
    simpl. apply Qgtb_le in Hbelow. rewrite Hbelow. reflexivity.
  - intros older run Hhist Hrun Habove Hmar.
    destruct (deque_append_recent YAWN_CONSEC_FRAMES MOUTH_MAXLEN mar
                (mouth_history st)) as [Hrecent Hlen];
      [unfold YAWN_CONSEC_FRAMES, MOUTH_MAXLEN; lia |].
    fold history in Hrecent, Hlen.
    apply andb_true_iff. split.
    + apply Nat.leb_le. rewrite Hhist, length_app, Hrun in Hlen.
      unfold YAWN_CONSEC_FRAMES, MOUTH_MAXLEN in *. lia.
    + rewrite Hrecent, Hhist, <- app_assoc.
      rewrite last_n_app
        by (rewrite length_app, Hrun; unfold YAWN_CONSEC_FRAMES; simpl; lia).
      rewrite last_n_all
        by (rewrite length_app, Hrun; unfold YAWN_CONSEC_FRAMES; simpl; lia).
      apply all_above_iff. apply Forall_app. split; [exact Habove |].
      constructor; [exact Hmar | constructor].
Qed.

(** A region of shape 10 x 4 has mouth ratio (10 - 6) / 4 = 1; after one
    sample at 0.4 and nine at 1, this tenth sample above the threshold
    raises the flag. *)
Lemma yawn_needs_sustained_frames_witness :
  let st := set_mouth_history init [2 # 5; 1; 1; 1; 1; 1; 1; 1; 1; 1] in
  let mar := inject_Z (slice_len 10 (py_int (inject_Z 10 * (3 # 5))) 10)
             / inject_Z 4 in
  let '((yawn, intensity), st') := detect_yawn 10 4 st in
  intensity = mar
  /\ st' = set_mouth_history st
             (deque_append MOUTH_MAXLEN mar (mouth_history st))
  /\ (yawn = true <->
      (YAWN_CONSEC_FRAMES <= length (mouth_history st'))%nat
      /\ Forall (fun m => YAWN_THRESHOLD < m)
                (last_n YAWN_CONSEC_FRAMES (mouth_history st')))
  /\ (forall older below run,
        mouth_history st' = older ++ below :: run ->
        length run = (YAWN_CONSEC_FRAMES - 1)%nat ->
        below <= YAWN_THRESHOLD ->
        Forall (fun m => YAWN_THRESHOLD < m) run ->
        yawn = false)
  /\ (forall older run,
        mouth_history st' = older ++ run ->
        length run = YAWN_CONSEC_FRAMES ->
        Forall (fun m => YAWN_THRESHOLD < m) run ->
        yawn = true)
  /\ (forall older below run,
        mouth_history st = older ++ below :: run ->
        length run = (YAWN_CONSEC_FRAMES - 2)%nat ->
        below <= YAWN_THRESHOLD ->
        Forall (fun m => YAWN_THRESHOLD < m) run ->
        yawn = false)
  /\ (forall older run,
        mouth_history st = older ++ run ->
        length run = (YAWN_CONSEC_FRAMES - 1)%nat ->
        Forall (fun m => YAWN_THRESHOLD < m) run ->
        YAWN_THRESHOLD < mar ->
        yawn = true).
Proof.
  apply (yawn_needs_sustained_frames 10 4
           (set_mouth_history init [2 # 5; 1; 1; 1; 1; 1; 1; 1; 1; 1])).
  vm_compute. discriminate.
Defined.

(** The flag and the ratio on the state of the witness, and on the frame
    before it, where the sample at 0.4 is still among the last ten. *)
Example yawn_flag_at_witness :
  fst (detect_yawn 10 4
         (set_mouth_history init [2 # 5; 1; 1; 1; 1; 1; 1; 1; 1; 1]))
  = (true, 4 # 4)
  /\ fst (detect_yawn 10 4
            (set_mouth_history init [2 # 5; 1; 1; 1; 1; 1; 1; 1; 1]))
     = (false, 4 # 4).
Proof. vm_compute. split; reflexivity. Qed.

(** A face of shape 10 x 10 has mouth ratio 0.4 and one of shape 10 x 4
    has ratio 1: one frame of the first kind followed by ten of the second
    raises the yawn flag on the last frame only. *)
Example yawn_on_tenth_open_frame :
  yawn_flags
    [(10, 10); (10, 4); (10, 4); (10, 4); (10, 4); (10, 4);
     (10, 4); (10, 4); (10, 4); (10, 4); (10, 4)]%Z init
  = [false; false; false; false; false; false;
     false; false; false; false; true].
Proof. vm_compute. reflexivity. Qed.

(** ** The no-face path *)

(** C5.  When [detect_emotion] finds no face, [detect_emotion_and_attention]
    returns the short record: no face, score 0, status
    "Absent / Disengaged", blink rate 0, no yawn.  No per-face signal is
    computed: the record has no blink flag and no yawn intensity, and the
    histories of the detector are left as they were. *)
Theorem no_face_short_circuit
  (atan2_degrees : Z -> Z -> Q) (frame : frame_input) (st : detector)
  (Hnone : emotions frame = []) :
  let '((emotions_data, att), st') :=
    detect_emotion_and_attention atan2_degrees frame st in
  emotions_data = []
  /\ face_detected att = false
  /\ attention_score att = 0
  /\ status att = "Absent / Disengaged"%string
  /\ blink_rate att = 0
  /\ yawn_detected att = false
  /\ blink_detected att = None
  /\ yawn_intensity att = None
  /\ st' = st.
Proof.
  unfold detect_emotion_and_attention. rewrite Hnone. cbv zeta.
  repeat split; reflexivity.
Qed.

Lemma no_face_short_circuit_witness :
  let frame := {| emotions := []; gray_h := 480; gray_w := 640;
                  eyes_strict := None; eyes_lenient := None;
                  roi_stats := None |} in
  let '((emotions_data, att), st') :=
    detect_emotion_and_attention (fun _ _ => 0) frame init in
  emotions_data = []
  /\ face_detected att = false
  /\ attention_score att = 0
  /\ status att = "Absent / Disengaged"%string
  /\ blink_rate att = 0
  /\ yawn_detected att = false
  /\ blink_detected att = None
  /\ yawn_intensity att = None
  /\ st' = init.
Proof.
  apply (no_face_short_circuit (fun _ _ => 0)
           {| emotions := []; gray_h := 480; gray_w := 640;
              eyes_strict := None; eyes_lenient := None;
              roi_stats := None |} init).
  reflexivity.
Defined.

(** ** History windows *)















Lemma run_frames_snoc (atan2_degrees : Z -> Z -> Q)
  (frames : list frame_input) (frame : frame_input) (st : detector) :
  run_frames atan2_degrees (frames ++ [frame]) st
  = snd (detect_emotion_and_attention atan2_degrees frame
           (run_frames atan2_degrees frames st)).
Proof. unfold run_frames. rewrite fold_left_app. reflexivity. Qed.


(** ** The audio window *)

Lemma process_audio_chunk_no_data (np_sqrt : Q -> Q)
  (audio_data : option (list Q)) (st : audio_processor) :
  chunk_level np_sqrt audio_data = None ->
  process_audio_chunk np_sqrt audio_data st = ((false, 0, 0), st).
Proof.
  destruct audio_data as [[| s samples] |]; simpl; intro H;
    [reflexivity | discriminate | reflexivity].
Qed.

Lemma process_audio_chunk_history (np_sqrt : Q -> Q)
  (audio_data : option (list Q)) (st : audio_processor) (level : Q) :
  chunk_level np_sqrt audio_data = Some level ->
  audio_history (snd (process_audio_chunk np_sqrt audio_data st))
  = deque_append 30 level (audio_history st).
Proof.
  destruct audio_data as [[| s samples] |]; simpl; intro H;
    try discriminate.
  injection H as H. rewrite H. unfold deque_append. cbv zeta.
  destruct (Qgtb level voice_threshold); reflexivity.
Qed.

Lemma run_audio_snoc (np_sqrt : Q -> Q) (chunks : list (option (list Q)))
  (chunk : option (list Q)) (st : audio_processor) :
  run_audio np_sqrt (chunks ++ [chunk]) st
  = snd (process_audio_chunk np_sqrt chunk (run_audio np_sqrt chunks st)).
Proof. unfold run_audio. rewrite fold_left_app. reflexivity. Qed.

Lemma levels_snoc (np_sqrt : Q -> Q) (chunks : list (option (list Q)))
  (chunk : option (list Q)) :
  levels np_sqrt (chunks ++ [chunk])
  = levels np_sqrt chunks
    ++ match chunk_level np_sqrt chunk with
       | Some l => [l]
       | None => []
       end.
Proof.
  unfold levels. rewrite flat_map_app. simpl. rewrite app_nil_r. reflexivity.
Qed.

Lemma run_audio_history (np_sqrt : Q -> Q) (chunks : list (option (list Q))) :
  audio_history (run_audio np_sqrt chunks fresh)
  = last_n 30 (levels np_sqrt chunks).
Proof.
  induction chunks as [| chunk chunks IH] using rev_ind.
  - reflexivity.
  - rewrite run_audio_snoc, levels_snoc.
    destruct (chunk_level np_sqrt chunk) as [level |] eqn:E.
    + rewrite (process_audio_chunk_history _ _ _ _ E).
      rewrite deque_append_last_n
        by (rewrite IH, last_n_length; apply Nat.le_min_l).
      rewrite IH. apply last_n_app_last_n.
    + rewrite (process_audio_chunk_no_data _ _ _ E). cbn [snd].
      rewrite app_nil_r. exact IH.
Qed.


Example head_pose_window_saturates :
  let frame :=
    {| emotions := [{| emotion := Some "Neutral"%string; confidence := None;
                       bbox := Some (100, 80, 200, 200)%Z |}];
       gray_h := 480; gray_w := 640;
       eyes_strict := Some [(30, 50, 50, 30); (120, 50, 50, 30)]%Z;
       eyes_lenient := None; roi_stats := None |} in
  let st := run_frames (fun _ _ => 0) (repeat frame 40) init in
  (length (head_pose_history st), length (eye_aspect_ratio_history st),
   length (emotion_history st))
  = (60, 30, 40)%nat.
Proof. vm_compute. reflexivity. Qed.

(** ** The head-pose bands of the scorer *)

Lemma gap_between_20_and_25 (y p : Q) :
  20 <= Qabs y <= 25 -> - (15) <= p <= 20 -> in_no_band y p.
Proof.
  unfold in_no_band. set (a := Qabs y). intros [H1 H2] [H3 H4].
  repeat split; intro H; lra.
Qed.

Lemma head_pose_step_gap (hp : head_pose) (y p base_score : Q) :
  yaw hp = Some (Fin y) -> pitch hp = Some (Fin p) -> in_no_band y p ->
  head_pose_step hp base_score = Some base_score.
Proof.
  intros Hy Hp (N1 & N2 & N3).
  unfold head_pose_step, key. rewrite Hy, Hp. cbn [bind np_abs np_lt np_gt].
  destruct (Qltb (Qabs y) 10) eqn:A10;
  destruct (Qltb (Qabs y) 20) eqn:A20;
  destruct (Qgtb (Qabs y) 25) eqn:A25;
  destruct (Qgtb p (- (5))) eqn:P5;
  destruct (Qltb p 10) eqn:P10;
  destruct (Qgtb p (- (10))) eqn:P10';
  destruct (Qltb p 15) eqn:P15;
  destruct (Qltb p (- (15))) eqn:P15';
  destruct (Qgtb p 20) eqn:P20;
  cbn [andb orb]; try reflexivity; exfalso;
  rewrite ?Qltb_lt, ?Qgtb_gt, ?Qltb_ge, ?Qgtb_le in *;
  solve [apply N1; auto | apply N2; auto | apply N3; auto].
Qed.

(** C9.  A head pose whose yaw and pitch match none of the three tests of
    the scorer leaves the running score as it is: the head-pose step adds
    nothing, and the score is what the other steps alone produce. *)
Theorem head_pose_gap_no_adjustment
  (emotions_data : list emotion_record) (eyes : eyes_data) (hp : head_pose)
  (rate : Q) (yawn : bool) (y p : Q)
  (Hyaw : yaw hp = Some (Fin y)) (Hpitch : pitch hp = Some (Fin p))
  (Hgap : in_no_band y p) :
  (forall base_score, head_pose_step hp base_score = Some base_score)
  /\ attention_score_body emotions_data eyes hp rate yawn
     = (base_score <- eye_step eyes
                        (if nonempty emotions_data then 50 + 20 else 50) ;;
        base_score <- gaze_step eyes base_score ;;
        base_score <- emotion_step emotions_data
                        (yawn_step yawn (blink_step rate base_score)) ;;
        Some (py_max 0 (py_min 100 base_score))).
Proof.
  assert (Hstep : forall b, head_pose_step hp b = Some b)
    by (intro b; eapply head_pose_step_gap; eassumption).
  split; [exact Hstep |].
  unfold attention_score_body. cbv zeta.
  destruct (eye_step eyes _) as [b1 |]; [| reflexivity]. cbn [bind].
  destruct (gaze_step eyes b1) as [b2 |]; [| reflexivity]. cbn [bind].
  rewrite Hstep. reflexivity.
Qed.

(** Yaw 22 degrees, pitch 0: between the "slightly off" and the "looking
    away" bands. *)
Lemma head_pose_gap_no_adjustment_witness :
  let hp := {| pitch := Some (Fin 0); yaw := Some (Fin 22);
               roll := Some (Fin 0) |} in
  (forall base_score, head_pose_step hp base_score = Some base_score)
  /\ attention_score_body [] eyes_on_error hp 0 false
     = (base_score <- eye_step eyes_on_error
                        (if nonempty (@nil emotion_record)
                         then 50 + 20 else 50) ;;
        base_score <- gaze_step eyes_on_error base_score ;;
        base_score <- emotion_step []
                        (yawn_step false (blink_step 0 base_score)) ;;
        Some (py_max 0 (py_min 100 base_score))).
Proof.
  apply (head_pose_gap_no_adjustment [] eyes_on_error
           {| pitch := Some (Fin 0); yaw := Some (Fin 22);
              roll := Some (Fin 0) |} 0 false 22 0).
  - reflexivity.
  - reflexivity.
  - apply gap_between_20_and_25; split; discriminate.
Defined.

(** ** Voice activity *)

Lemma trailing_quiet_snoc (ls : list Q) (l : Q) :
  trailing_quiet (ls ++ [l])
  = if Qgtb l voice_threshold then 0%nat else S (trailing_quiet ls).
Proof. unfold trailing_quiet. rewrite rev_unit. reflexivity. Qed.

Lemma trailing_quiet_decomp (older quiet : list Q) (l : Q) :
  voice_threshold < l ->
  Forall (fun q => q <= voice_threshold) quiet ->
  trailing_quiet (older ++ l :: quiet) = length quiet.
Proof.
  intros Hl Hq. induction quiet as [| q quiet IH] using rev_ind.
  - rewrite trailing_quiet_snoc.
    apply Qgtb_gt in Hl. rewrite Hl. reflexivity.
  - apply Forall_app in Hq as [Hq Hlast].
    inversion Hlast as [| ? ? Hqle _]; subst.
    replace (older ++ l :: quiet ++ [q]) with ((older ++ l :: quiet) ++ [q])
      by (rewrite <- app_assoc; reflexivity).
    rewrite trailing_quiet_snoc.
    apply Qgtb_le in Hqle. rewrite Hqle, (IH Hq), length_app. simpl. lia.
Qed.

Lemma quiet_run_firstn (n : nat) (recent_first : list Q) :
  (n <= quiet_run recent_first)%nat ->
  length (firstn n recent_first) = n
  /\ Forall (fun q => q <= voice_threshold) (firstn n recent_first).
Proof.
  revert n. induction recent_first as [| l older IH]; intros n Hn.
  - simpl in Hn. replace n with 0%nat by lia. split; [reflexivity | constructor].
  - destruct n as [| n]; [split; [reflexivity | constructor] |].
    simpl in Hn. destruct (Qgtb l voice_threshold) eqn:E; [lia |].
    destruct (IH n ltac:(lia)) as [Hlen Hall].
    simpl. split; [now rewrite Hlen |].
    constructor; [apply Qgtb_le; exact E | exact Hall].
Qed.

Lemma trailing_quiet_run (n : nat) (ls : list Q) :
  (n <= trailing_quiet ls)%nat ->
  exists older run,
    ls = older ++ run /\ length run = n
    /\ Forall (fun q => q <= voice_threshold) run.
Proof.
  intro Hn. unfold trailing_quiet in Hn.
  destruct (quiet_run_firstn n (rev ls) Hn) as [Hlen Hall].
  exists (rev (skipn n (rev ls))), (rev (firstn n (rev ls))).
  split; [| split].
  - rewrite <- rev_app_distr, firstn_skipn, rev_involutive. reflexivity.
  - rewrite length_rev. exact Hlen.
  - apply Forall_rev. exact Hall.
Qed.

Lemma recent_voice_snoc_voice (ls : list Q) (l : Q) :
  voice_threshold < l -> recent_voice (ls ++ [l]).
Proof.
  intro H. exists ls, l, []. repeat split; [exact H | constructor | simpl; lia].
Qed.

Lemma recent_voice_snoc_quiet (ls : list Q) (l : Q) :
  l <= voice_threshold ->
  recent_voice (ls ++ [l])
  <-> recent_voice ls /\ (S (trailing_quiet ls) < 5)%nat.
Proof.
  intro Hl. split.
  - intros (older & v & quiet & Heq & Hv & Hq & Hlen).
    destruct quiet as [| q quiet _] using rev_ind.
    + apply app_inj_tail in Heq as [_ Heq]. subst v.
      exfalso. apply (Qlt_not_le _ _ Hv Hl).
    + replace (older ++ v :: quiet ++ [q]) with ((older ++ v :: quiet) ++ [q])
        in Heq by (rewrite <- app_assoc; reflexivity).
      apply app_inj_tail in Heq as [Heq Hql]. subst q.
      apply Forall_app in Hq as [Hq _].
      rewrite length_app in Hlen. simpl in Hlen.
      rewrite Heq, (trailing_quiet_decomp older quiet v Hv Hq).
      split; [| lia].
      exists older, v, quiet. repeat split; [assumption | assumption | lia].
  - intros [(older & v & quiet & Heq & Hv & Hq & _) Hlen].
    rewrite Heq, (trailing_quiet_decomp older quiet v Hv Hq) in Hlen.
    exists older, v, (quiet ++ [l]). repeat split.
    + rewrite Heq, <- app_assoc. reflexivity.
    + exact Hv.
    + apply Forall_app. split; [exact Hq | constructor; [exact Hl | constructor]].
    + rewrite length_app. simpl. lia.
Qed.

Lemma process_audio_chunk_voice (np_sqrt : Q -> Q)
  (audio_data : option (list Q)) (st : audio_processor) (l : Q) :
  chunk_level np_sqrt audio_data = Some l ->
  voice_threshold < l ->
  voice_active (process_audio_chunk np_sqrt audio_data st)
  = (2 <=? voice_frames st + 1)%Z
  /\ voice_frames (snd (process_audio_chunk np_sqrt audio_data st))
     = (voice_frames st + 1)%Z
  /\ silence_frames (snd (process_audio_chunk np_sqrt audio_data st)) = 0%Z.
Proof.
  destruct audio_data as [[| s samples] |]; simpl; intros H Hl;
    try discriminate.
  injection H as H. apply Qgtb_gt in Hl. rewrite H, Hl.
  repeat split; reflexivity.
Qed.

Lemma process_audio_chunk_quiet (np_sqrt : Q -> Q)
  (audio_data : option (list Q)) (st : audio_processor) (l : Q) :
  chunk_level np_sqrt audio_data = Some l ->
  l <= voice_threshold ->
  voice_active (process_audio_chunk np_sqrt audio_data st) = false
  /\ voice_frames (snd (process_audio_chunk np_sqrt audio_data st))
     = (if (5 <=? silence_frames st + 1)%Z then 0 else voice_frames st)%Z
  /\ silence_frames (snd (process_audio_chunk np_sqrt audio_data st))
     = (silence_frames st + 1)%Z.
Proof.
  destruct audio_data as [[| s samples] |]; simpl; intros H Hl;
    try discriminate.
  injection H as H. apply Qgtb_le in Hl. rewrite H, Hl.
  repeat split; reflexivity.
Qed.

Lemma level_cases (l : Q) : voice_threshold < l \/ l <= voice_threshold.
Proof. destruct (Qlt_le_dec voice_threshold l); auto. Qed.

Lemma run_audio_counters (np_sqrt : Q -> Q) (chunks : list (option (list Q))) :
  counters_track (levels np_sqrt chunks) (run_audio np_sqrt chunks fresh).
Proof.
  induction chunks as [| chunk chunks IH] using rev_ind.
  - repeat split; simpl; try lia.
    intros (older & l & quiet & Heq & _).
    destruct older; discriminate.
  - rewrite run_audio_snoc, levels_snoc.
    destruct IH as (Hs & Hv0 & Hv).
    set (st := run_audio np_sqrt chunks fresh) in *.
    set (ls := levels np_sqrt chunks) in *.
    destruct (chunk_level np_sqrt chunk) as [l |] eqn:E.
    + destruct (level_cases l) as [Hl | Hl].
      * destruct (process_audio_chunk_voice np_sqrt chunk st l E Hl)
          as (_ & Hvf & Hsf).
        unfold counters_track. rewrite Hvf, Hsf, trailing_quiet_snoc.
        apply Qgtb_gt in Hl as Hb. rewrite Hb.
        repeat split; try lia.
        intros _. apply recent_voice_snoc_voice. exact Hl.
      * destruct (process_audio_chunk_quiet np_sqrt chunk st l E Hl)
          as (_ & Hvf & Hsf).
        unfold counters_track. rewrite Hvf, Hsf, trailing_quiet_snoc.
        apply Qgtb_le in Hl as Hb. rewrite Hb.
        rewrite (recent_voice_snoc_quiet ls l Hl), Hs.
        destruct (Z.leb_spec 5 (Z.of_nat (trailing_quiet ls) + 1)) as [H5 | H5].
        -- split; [lia | split; [lia | split; [lia | intros [_ H]; lia]]].
        -- split; [lia | split; [lia | split]].
           ++ intro H. split; [apply Hv; exact H | lia].
           ++ intros [H _]. apply Hv. exact H.
    + rewrite (process_audio_chunk_no_data _ _ _ E). cbn [snd].
      rewrite app_nil_r. repeat split; assumption || apply Hv.
Qed.

(** A level above the threshold, one quiet chunk, a level above the
    threshold again: the third call reports voice although no two
    consecutive chunks were above the threshold. *)
Lemma voice_active_without_consecutive_chunks :
  let chunks := [Some [1 # 10]; Some [0]; Some [1 # 10]] in
  map (fun l => Qgtb l voice_threshold) (levels sqrt_exact chunks)
  = [true; false; true]
  /\ two_consecutive_above (levels sqrt_exact chunks) = false
  /\ voice_active
       (process_audio_chunk sqrt_exact (Some [1 # 10])
          (run_audio sqrt_exact [Some [1 # 10]; Some [0]] fresh))
     = true.
Proof. vm_compute. repeat split; reflexivity. Qed.

(** C7, as the code has it.  Chunks without data are skipped.  From a new
    processor, [voice_active] is true exactly on a chunk whose level is
    above the voice threshold while the previous level above the threshold
    lies fewer than 5 quiet chunks back (the two need not be adjacent);
    the first chunk never reports voice; and the consecutive-active
    counter goes from non-zero to zero only on a chunk that completes 5
    consecutive levels at or below the threshold. *)
Theorem voice_activity_hysteresis :
  (forall np_sqrt chunks chunk,
     voice_active
       (process_audio_chunk np_sqrt chunk (run_audio np_sqrt chunks fresh))
     = true
     <-> exists l,
           chunk_level np_sqrt chunk = Some l
           /\ voice_threshold < l
           /\ recent_voice (levels np_sqrt chunks))
  /\ (forall np_sqrt chunk,
        voice_active (process_audio_chunk np_sqrt chunk fresh) = false)
  /\ (forall np_sqrt chunks chunk,
        (0 < voice_frames (run_audio np_sqrt chunks fresh))%Z ->
        voice_frames (run_audio np_sqrt (chunks ++ [chunk]) fresh) = 0%Z ->
        exists older run,
          levels np_sqrt (chunks ++ [chunk]) = older ++ run
          /\ length run = 5%nat
          /\ Forall (fun q => q <= voice_threshold) run).
Proof.
  split; [| split].
  - intros np_sqrt chunks chunk.
    destruct (run_audio_counters np_sqrt chunks) as (Hs & Hv0 & Hv).
    destruct (chunk_level np_sqrt chunk) as [l |] eqn:E.
    + destruct (level_cases l) as [Hl | Hl].
      * destruct (process_audio_chunk_voice np_sqrt chunk
                    (run_audio np_sqrt chunks fresh) l E Hl) as (Ha & _).
        rewrite Ha, Z.leb_le. split.
        -- intro H. exists l. repeat split; [exact Hl | apply Hv; lia].
        -- intros (l' & _ & _ & H). apply Hv in H. lia.
      * destruct (process_audio_chunk_quiet np_sqrt chunk
                    (run_audio np_sqrt chunks fresh) l E Hl) as (Ha & _).
        rewrite Ha. split; [discriminate |].
        intros (l' & El & Hl' & _). injection El as El. subst l'.
        exfalso. apply (Qlt_not_le _ _ Hl' Hl).
    + rewrite (process_audio_chunk_no_data _ _ _ E).
      split; [discriminate | intros (l & El & _); discriminate].
  - intros np_sqrt chunk.
    destruct chunk as [[| s samples] |]; simpl; try reflexivity.
    destruct (Qgtb _ _); reflexivity.
  - intros np_sqrt chunks chunk Hpos Hzero.
    destruct (run_audio_counters np_sqrt chunks) as (Hs & Hv0 & Hv).
    rewrite run_audio_snoc in Hzero. rewrite levels_snoc.
    destruct (chunk_level np_sqrt chunk) as [l |] eqn:E.
    + destruct (level_cases l) as [Hl | Hl].
      * destruct (process_audio_chunk_voice np_sqrt chunk
                    (run_audio np_sqrt chunks fresh) l E Hl) as (_ & Hvf & _).
        lia.
      * destruct (process_audio_chunk_quiet np_sqrt chunk
                    (run_audio np_sqrt chunks fresh) l E Hl) as (_ & Hvf & _).
        rewrite Hvf in Hzero.
        destruct (Z.leb_spec 5
                    (silence_frames (run_audio np_sqrt chunks fresh) + 1))
          as [H5 | H5]; [| lia].
        apply trailing_quiet_run. rewrite trailing_quiet_snoc.
        apply Qgtb_le in Hl. rewrite Hl. lia.
    + rewrite (process_audio_chunk_no_data _ _ _ E) in Hzero.
      cbn [snd] in Hzero. lia.
Qed.

(** Five quiet chunks after two loud ones reset the counter; four do
    not. *)
Example counter_reset_after_five_quiet_chunks :
  voice_frames
    (run_audio sqrt_exact
       [Some [1 # 10]; Some [1 # 10];
        Some [0]; Some [0]; Some [0]; Some [0]] fresh) = 2%Z
  /\ voice_frames
       (run_audio sqrt_exact
          [Some [1 # 10]; Some [1 # 10];
           Some [0]; Some [0]; Some [0]; Some [0]; Some [0]] fresh) = 0%Z.
Proof. vm_compute. split; reflexivity. Qed.

(** * Further properties of the detector *)

(** ** What each operation leaves untouched *)

Lemma detect_blink_result (eye_data : eyes_data) (st : detector) :
  detect_blink eye_data st
  = match key (avg_ear eye_data) with
    | None => (false, st)
    | Some ear =>
        (false,
         set_blink_history
           (set_eye_aspect_ratio_history st
              (deque_append EAR_MAXLEN ear (eye_aspect_ratio_history st)))
           (deque_append BLINK_MAXLEN 0%Z (blink_history st)))
    end.
Proof.
  unfold detect_blink.
  destruct (key (avg_ear eye_data)) as [ear |]; [| reflexivity].
  cbv zeta.
  set (history := eye_aspect_ratio_history _).
  assert (Hlen : (3 <? length (last_n EAR_CONSEC_FRAMES history))%nat = false).
  { apply Nat.ltb_ge. rewrite last_n_length. unfold EAR_CONSEC_FRAMES. lia. }
  rewrite Hlen, andb_false_r. reflexivity.
Qed.

Lemma detect_blink_keeps (eye_data : eyes_data) (st : detector) :
  head_pose_history (snd (detect_blink eye_data st)) = head_pose_history st
  /\ mouth_history (snd (detect_blink eye_data st)) = mouth_history st
  /\ emotion_history (snd (detect_blink eye_data st)) = emotion_history st.
Proof.
  rewrite detect_blink_result.
  destruct (key (avg_ear eye_data)); repeat split; reflexivity.
Qed.

Lemma detect_yawn_keeps (h w : Z) (st : detector) :
  blink_history (snd (detect_yawn h w st)) = blink_history st
  /\ eye_aspect_ratio_history (snd (detect_yawn h w st))
     = eye_aspect_ratio_history st
  /\ head_pose_history (snd (detect_yawn h w st)) = head_pose_history st
  /\ emotion_history (snd (detect_yawn h w st)) = emotion_history st.
Proof.
  unfold detect_yawn. cbv zeta.
  destruct (_ =? 0)%Z; [repeat split; reflexivity |].
  destruct (w =? 0)%Z; [repeat split; reflexivity |].
  destruct (_ && _); repeat split; reflexivity.
Qed.

Lemma estimate_head_pose_keeps (atan2_degrees : Z -> Z -> Q) (h w : Z)
  (eyes : eyes_data) (st : detector) :
  let st' := snd (estimate_head_pose_advanced atan2_degrees h w eyes st) in
  blink_history st' = blink_history st
  /\ eye_aspect_ratio_history st' = eye_aspect_ratio_history st
  /\ mouth_history st' = mouth_history st
  /\ emotion_history st' = emotion_history st.
Proof.
  unfold estimate_head_pose_advanced.
  destruct (head_pose_body _ _ _ _); repeat split; reflexivity.
Qed.

(** ** The eye record always carries its nine keys *)

Lemma detect_eyes_detailed_keys (w : Z) (strict lenient : exc (list box)) :
  exists l_eye r_eye l_ear r_ear l_open r_open avg gaze n,
    detect_eyes_detailed w strict lenient
    = {| left_eye := Some l_eye; right_eye := Some r_eye;
         left_ear := Some l_ear; right_ear := Some r_ear;
         left_open := Some l_open; right_open := Some r_open;
         avg_ear := Some avg; gaze_direction := Some gaze;
         eyes_detected := Some n |}.
Proof.
  assert (Hmain : forall eyes,
             exists l_eye r_eye l_ear r_ear l_open r_open avg gaze n,
               eyes_from_detections w eyes
               = {| left_eye := Some l_eye; right_eye := Some r_eye;
                    left_ear := Some l_ear; right_ear := Some r_ear;
                    left_open := Some l_open; right_open := Some r_open;
                    avg_ear := Some avg; gaze_direction := Some gaze;
                    eyes_detected := Some n |}).
  { intro eyes. unfold eyes_from_detections.
    destruct (assign_eyes w eyes) as [[[l_eye r_eye] l_ear] r_ear].
    cbv zeta. do 9 eexists. reflexivity. }
  assert (Herr : exists l_eye r_eye l_ear r_ear l_open r_open avg gaze n,
             eyes_on_error
             = {| left_eye := Some l_eye; right_eye := Some r_eye;
                  left_ear := Some l_ear; right_ear := Some r_ear;
                  left_open := Some l_open; right_open := Some r_open;
                  avg_ear := Some avg; gaze_direction := Some gaze;
                  eyes_detected := Some n |})
    by (do 9 eexists; reflexivity).
  unfold detect_eyes_detailed.
  destruct strict as [eyes |]; simpl; [| exact Herr].
  destruct (length eyes <? 2)%nat; simpl; [| apply Hmain].
  destruct lenient as [eyes' |]; simpl; [apply Hmain | exact Herr].
Qed.

Lemma head_pose_body_succeeds (atan2_degrees : Z -> Z -> Q) (h w : Z)
  (eyes : eyes_data) (l r : option box) :
  left_eye eyes = Some l -> right_eye eyes = Some r ->
  exists hp, head_pose_body atan2_degrees h w eyes = Some hp.
Proof.
  intros Hl Hr. unfold head_pose_body, key. rewrite Hl, Hr. cbv zeta.
  destruct l as [l |], r as [r |]; simpl; eexists; reflexivity.
Qed.

(** ** One call on a frame with a face *)

(** The result of [detect_emotion_and_attention] when the first face
    carries its emotion label, written with the intermediate results. *)
Lemma detect_emotion_and_attention_face (atan2_degrees : Z -> Z -> Q)
  (frame : frame_input) (st : detector) (first : emotion_record)
  (rest : list emotion_record) (e : string) :
  emotions frame = first :: rest ->
  emotion first = Some e ->
  let roi_h := face_roi_h frame first in
  let roi_w := face_roi_w frame first in
  let eyes := frame_eyes frame first in
  let b := detect_blink eyes st in
  let yw := detect_yawn roi_h roi_w (snd b) in
  let pr := estimate_head_pose_advanced atan2_degrees roi_h roi_w eyes (snd yw) in
  let hp := fst pr in
  let st4 := set_head_pose_history (snd pr)
               (deque_append HEAD_POSE_MAXLEN hp (head_pose_history (snd pr))) in
  let yawn := fst (fst yw) in
  let rate := calculate_blink_rate (snd b) in
  let score := calculate_attention_score (emotions frame) eyes hp rate yawn in
  detect_emotion_and_attention atan2_degrees frame st
  = ((emotions frame,
      {| face_detected := true;
         attention_score := score;
         status := determine_attention_status score eyes hp yawn;
         att_head_pose := hp;
         att_eye_gaze :=
           {| direction := get (gaze_direction eyes) EmptyString;
              gaze_left_open := get (left_open eyes) false;
              gaze_right_open := get (right_open eyes) false;
              gaze_left_ear := left_ear eyes;
              gaze_right_ear := right_ear eyes |};
         blink_rate := rate;
         blink_detected := Some (fst b);
         yawn_detected := yawn;
         yawn_intensity := Some (snd (fst yw));
         att_face_quality :=
           calculate_face_quality (roi_h * roi_w) (roi_stats frame) |}),
     set_emotion_history st4
       (deque_append EMOTION_MAXLEN e (emotion_history st4))).
Proof.
  intros Hem He. cbv zeta.
  unfold detect_emotion_and_attention, frame_eyes, face_roi_h, face_roi_w,
    face_box.
  rewrite Hem. cbv zeta.
  destruct (get (bbox first) _) as [[[x y] w] h]. cbn [box_x box_y box_w box_h].
  set (roi_h := slice_len (gray_h frame) y (y + h)).
  set (roi_w := slice_len (gray_w frame) x (x + w)).
  destruct (detect_eyes_detailed_keys roi_w (eyes_strict frame)
              (eyes_lenient frame))
    as (l_eye & r_eye & l_ear & r_ear & l_open & r_open & avg & gaze & n & Heyes).
  rewrite Heyes.
  set (eyes := {| left_eye := Some l_eye; right_eye := Some r_eye;
                  left_ear := Some l_ear; right_ear := Some r_ear;
                  left_open := Some l_open; right_open := Some r_open;
                  avg_ear := Some avg; gaze_direction := Some gaze;
                  eyes_detected := Some n |}).
  destruct (detect_blink eyes st) as [blink st1]. cbn [fst snd].
  destruct (detect_yawn roi_h roi_w st1) as [[yawn intensity] st2].
  cbn [fst snd].
  destruct (estimate_head_pose_advanced atan2_degrees roi_h roi_w eyes st2)
    as [hp st3].
  cbn [fst snd]. unfold key. rewrite He. reflexivity.
Qed.

(** The call on a frame whose first face has no emotion label ends in the
    [except] branch. *)
Lemma detect_emotion_and_attention_no_label (atan2_degrees : Z -> Z -> Q)
  (frame : frame_input) (st : detector) (first : emotion_record)
  (rest : list emotion_record) :
  emotions frame = first :: rest ->
  emotion first = None ->
  fst (detect_emotion_and_attention atan2_degrees frame st)
  = ([], short_attention "Error").
Proof.
  intros Hem He. unfold detect_emotion_and_attention. rewrite Hem. cbv zeta.
  destruct (get (bbox first) _) as [[[x y] w] h].
  destruct (detect_blink _ st) as [blink st1].
  destruct (detect_yawn _ _ st1) as [[yawn intensity] st2].
  destruct (estimate_head_pose_advanced _ _ _ _ st2) as [hp st3].
  unfold key. rewrite He. reflexivity.
Qed.

(** ** Blinks are never reported *)

Lemma Forall_last_n {A : Type} (P : A -> Prop) (n : nat) (l : list A) :
  Forall P l -> Forall P (last_n n l).
Proof.
  intro H. unfold last_n.
  rewrite <- (firstn_skipn (length l - n) l) in H.
  apply Forall_app in H. apply H.
Qed.

Lemma deque_append_Forall {A : Type} (P : A -> Prop) (maxlen : nat) (x : A)
  (d : list A) :
  Forall P d -> P x -> Forall P (deque_append maxlen x d).
Proof.
  intros Hd Hx. unfold deque_append. cbv zeta.
  assert (H : Forall P (d ++ [x]))
    by (apply Forall_app; split; [exact Hd | constructor; [exact Hx | constructor]]).
  destruct (maxlen <? length (d ++ [x]))%nat; [| exact H].
  destruct (d ++ [x]); [constructor | inversion H; assumption].
Qed.

Lemma sumZ_zero (l : list Z) : Forall (fun flag => flag = 0%Z) l -> sumZ l = 0%Z.
Proof.
  induction 1 as [| x l Hx Hl IH]; simpl; [reflexivity | lia].
Qed.

Lemma calculate_blink_rate_zero (st : detector) :
  no_blink_recorded st -> calculate_blink_rate st == 0.
Proof.
  intro H. unfold calculate_blink_rate.
  destruct (length (blink_history st) <? 10)%nat; [reflexivity |].
  rewrite (sumZ_zero _ (Forall_last_n _ 30 _ H)). reflexivity.
Qed.

Lemma detect_blink_no_blink (eye_data : eyes_data) (st : detector) :
  no_blink_recorded st -> no_blink_recorded (snd (detect_blink eye_data st)).
Proof.
  intro H. rewrite detect_blink_result.
  destruct (key (avg_ear eye_data)) as [ear |]; [| exact H].
  unfold no_blink_recorded. cbn.
  apply deque_append_Forall; [exact H | reflexivity].
Qed.

Lemma detect_emotion_and_attention_blink_history
  (atan2_degrees : Z -> Z -> Q) (frame : frame_input) (st : detector) :
  blink_history (snd (detect_emotion_and_attention atan2_degrees frame st))
  = match emotions frame with
    | [] => blink_history st
    | first :: _ =>
        blink_history (snd (detect_blink (frame_eyes frame first) st))
    end.
Proof.
  unfold detect_emotion_and_attention, frame_eyes, face_roi_w, face_box.
  destruct (emotions frame) as [| first rest]; [reflexivity |].
  cbv zeta.
  destruct (get (bbox first) _) as [[[x y] w] h]. cbn [box_x box_y box_w box_h].
  set (roi_h := slice_len (gray_h frame) y (y + h)).
  set (roi_w := slice_len (gray_w frame) x (x + w)).
  set (eyes := detect_eyes_detailed roi_w _ _).
  destruct (detect_blink eyes st) as [blink st1]. cbn [snd].
  pose proof (detect_yawn_keeps roi_h roi_w st1) as (Hy & _).
  destruct (detect_yawn roi_h roi_w st1) as [[yawn intensity] st2].
  cbn [snd] in Hy.
  pose proof (estimate_head_pose_keeps atan2_degrees roi_h roi_w eyes st2)
    as (Hp & _).
  destruct (estimate_head_pose_advanced atan2_degrees roi_h roi_w eyes st2)
    as [hp st3].
  cbn [snd] in Hp.
  destruct (key (emotion first)) as [e |]; [| cbn; congruence].
  destruct (bind _ _); cbn; congruence.
Qed.

Lemma run_frames_no_blink (atan2_degrees : Z -> Z -> Q)
  (frames : list frame_input) :
  no_blink_recorded (run_frames atan2_degrees frames init).
Proof.
  induction frames as [| frame frames IH] using rev_ind.
  - constructor.
  - rewrite run_frames_snoc. unfold no_blink_recorded.
    rewrite detect_emotion_and_attention_blink_history.
    destruct (emotions frame) as [| first rest]; [exact IH |].
    apply detect_blink_no_blink. exact IH.
Qed.

(** X1.  From a new detector, whatever frames are processed, every call of
    [detect_emotion_and_attention] reports a blink rate of 0 and never
    reports a detected blink, and [calculate_blink_rate] stays at 0. *)
Theorem blink_never_reported (atan2_degrees : Z -> Z -> Q)
  (frames : list frame_input) (frame : frame_input) :
  let st := run_frames atan2_degrees frames init in
  let att := snd (fst (detect_emotion_and_attention atan2_degrees frame st)) in
  blink_rate att == 0
  /\ blink_detected att <> Some true
  /\ calculate_blink_rate st == 0.
Proof.
  cbv zeta.
  pose proof (run_frames_no_blink atan2_degrees frames) as Hzero.
  set (st := run_frames atan2_degrees frames init) in *.
  split; [| split]; [| | apply calculate_blink_rate_zero; exact Hzero].
  - destruct (emotions frame) as [| first rest] eqn:Hem.
    + unfold detect_emotion_and_attention. rewrite Hem. reflexivity.
    + destruct (emotion first) as [e |] eqn:He.
      * rewrite (detect_emotion_and_attention_face _ _ _ _ _ _ Hem He).
        cbn [fst snd blink_rate].
        apply calculate_blink_rate_zero, detect_blink_no_blink. exact Hzero.
      * rewrite (detect_emotion_and_attention_no_label _ _ _ _ _ Hem He).
        reflexivity.
  - destruct (emotions frame) as [| first rest] eqn:Hem.
    + unfold detect_emotion_and_attention. rewrite Hem. discriminate.
    + destruct (emotion first) as [e |] eqn:He.
      * rewrite (detect_emotion_and_attention_face _ _ _ _ _ _ Hem He).
        cbn [fst snd blink_detected].
        rewrite detect_blink_result.
        destruct (key (avg_ear _)); discriminate.
      * rewrite (detect_emotion_and_attention_no_label _ _ _ _ _ Hem He).
        discriminate.
Qed.

(** ** How far each step of the scorer moves the score *)

Lemma gaze_step_bounds (eyes : eyes_data) (b b' : Q) :
  gaze_step eyes b = Some b' -> b - 10 <= b' <= b + 15.
Proof.
  unfold gaze_step, key. destruct (gaze_direction eyes) as [g |]; simpl;
    [| discriminate].
  destruct (string_eqb g "center"); [| destruct (_ || _)];
    intro H; injection H as H; subst b'; split; lra.
Qed.

Lemma head_pose_step_bounds (hp : head_pose) (b b' : Q) :
  head_pose_step hp b = Some b' -> b - 20 <= b' <= b + 15.
Proof.
  unfold head_pose_step, key.
  destruct (yaw hp) as [y |]; simpl; [| discriminate].
  destruct (pitch hp) as [p |]; simpl; [| discriminate].
  destruct (_ && _); [| destruct (_ && _); [| destruct (_ || _)]];
    intro H; injection H as H; subst b'; split; lra.
Qed.

Lemma blink_step_bounds (rate b : Q) :
  b - 15 <= blink_step rate b <= b.
Proof.
  unfold blink_step. destruct (Qgtb rate _); [| destruct (Qgtb rate _)];
    split; lra.
Qed.

Lemma yawn_step_bounds (yawn : bool) (b : Q) :
  b - 15 <= yawn_step yawn b <= b.
Proof. unfold yawn_step. destruct yawn; split; lra. Qed.

Lemma emotion_step_bounds (emotions_data : list emotion_record) (b b' : Q) :
  emotion_step emotions_data b = Some b' -> b - 5 <= b' <= b + 10.
Proof.
  unfold emotion_step, key. destruct emotions_data as [| first rest].
  - intro H; injection H as H; subst b'; split; lra.
  - destruct (emotion first) as [e |]; simpl; [| discriminate].
    destruct (string_eqb e "Happy");
      [| destruct (string_eqb e "Neutral");
         [| destruct (_ || _); [| destruct (string_eqb e "Surprise")]]];
      intro H; injection H as H; subst b'; split; lra.
Qed.

Lemma clamp_le (b c : Q) : 0 <= c -> b <= c -> py_max 0 (py_min 100 b) <= c.
Proof.
  intros Hc Hb.
  destruct (py_max_cases 0 (py_min 100 b)) as [E | E]; rewrite E.
  - exact Hc.
  - eapply Qle_trans; [apply py_min_glb | exact Hb].
Qed.

Lemma py_min_mono (a b c : Q) : b <= c -> py_min a b <= py_min a c.
Proof.
  intro H. unfold py_min.
  destruct (Qltb b a) eqn:Eb, (Qltb c a) eqn:Ec;
    rewrite ?Qltb_lt, ?Qltb_ge in *; lra.
Qed.

Lemma py_max_mono (a b c : Q) : b <= c -> py_max a b <= py_max a c.
Proof.
  intro H. unfold py_max.
  destruct (Qgtb b a) eqn:Eb, (Qgtb c a) eqn:Ec;
    rewrite ?Qgtb_gt, ?Qgtb_le in *; lra.
Qed.

Lemma clamp_mono (b c : Q) :
  b <= c -> py_max 0 (py_min 100 b) <= py_max 0 (py_min 100 c).
Proof. intro H. apply py_max_mono, py_min_mono, H. Qed.

(** With both flags false the eye step floors the score at 0 after
    taking 50 away. *)
Lemma eye_step_closed (eyes : eyes_data) (b : Q) :
  left_open eyes = Some false -> right_open eyes = Some false ->
  eye_step eyes b = Some (py_max 0 (b - 50)).
Proof.
  intros Hl Hr. unfold eye_step, key. rewrite Hl, Hr. reflexivity.
Qed.

Lemma status_both_closed (attention_score : Q) (eyes : eyes_data)
  (hp : head_pose) (yawn : bool) :
  left_open eyes = Some false -> right_open eyes = Some false ->
  determine_attention_status attention_score eyes hp yawn
  = "Distracted (Eyes Closed)"%string.
Proof.
  intros Hl Hr.
  unfold determine_attention_status, attention_status_body, key.
  rewrite Hl, Hr. reflexivity.
Qed.

Lemma closed_eyes_body_cap
  (emotions_data : list emotion_record) (eyes : eyes_data) (hp : head_pose)
  (rate : Q) (yawn : bool) (s : Q) :
  left_open eyes = Some false -> right_open eyes = Some false ->
  attention_score_body emotions_data eyes hp rate yawn = Some s ->
  s <= 60.
Proof.
  intros Hleft Hright.
  unfold attention_score_body. cbv zeta.
  rewrite (eye_step_closed eyes _ Hleft Hright). cbn [bind].
  set (b1 := py_max 0 _).
  assert (H1 : b1 <= 20).
  { unfold b1. destruct (nonempty emotions_data);
      destruct (py_max_cases 0 (50 + 20 - 50)) as [E | E];
      destruct (py_max_cases 0 (50 - 50)) as [E' | E'];
      rewrite ?E, ?E'; lra. }
  destruct (gaze_step eyes b1) as [b2 |] eqn:E2; cbn [bind]; [| discriminate].
  apply gaze_step_bounds in E2.
  destruct (head_pose_step hp b2) as [b3 |] eqn:E3; cbn [bind];
    [| discriminate].
  apply head_pose_step_bounds in E3.
  destruct (emotion_step emotions_data _) as [b4 |] eqn:E4; cbn [bind];
    [| discriminate].
  apply emotion_step_bounds in E4.
  pose proof (blink_step_bounds rate b3) as H5.
  pose proof (yawn_step_bounds yawn (blink_step rate b3)) as H6.
  intro Hs. injection Hs as Hs. subst s.
  apply clamp_le; [discriminate | lra].
Qed.

(** X2.  With both eye flags false, [calculate_attention_score] is at most
    60, whatever the other signals are: 60 at most when the body of the
    scorer returns, 50 when it raises. *)
Theorem closed_eyes_cap_score
  (emotions_data : list emotion_record) (eyes : eyes_data) (hp : head_pose)
  (rate : Q) (yawn : bool)
  (Hleft : left_open eyes = Some false)
  (Hright : right_open eyes = Some false) :
  calculate_attention_score emotions_data eyes hp rate yawn <= 60.
Proof.
  unfold calculate_attention_score.
  destruct (attention_score_body emotions_data eyes hp rate yawn) as [s |] eqn:E.
  - eapply closed_eyes_body_cap; eassumption.
  - discriminate.
Qed.

Lemma closed_eyes_cap_score_witness :
  calculate_attention_score
    [{| emotion := Some "Happy"%string; confidence := None; bbox := None |}]
    eyes_on_error zero_pose 0 false <= 60.
Proof.
  apply closed_eyes_cap_score; reflexivity.
Defined.

(** The cap is reached: no eyes found, head forward, a happy face. *)
Example closed_eyes_score_sixty :
  calculate_attention_score
    [{| emotion := Some "Happy"%string; confidence := None; bbox := None |}]
    (eyes_from_detections 100 []) zero_pose 0 false == 60.
Proof. vm_compute. reflexivity. Qed.

(** ** Opening the eyes never lowers the score *)

Lemma gaze_step_mono (eyes : eyes_data) (b c : Q) :
  b <= c -> exc_le (gaze_step eyes b) (gaze_step eyes c).
Proof.
  intro H. unfold gaze_step, key.
  destruct (gaze_direction eyes) as [g |]; simpl; [| exact I].
  destruct (string_eqb g "center"); [| destruct (_ || _)]; simpl; lra.
Qed.

Lemma head_pose_step_mono (hp : head_pose) (b c : Q) :
  b <= c -> exc_le (head_pose_step hp b) (head_pose_step hp c).
Proof.
  intro H. unfold head_pose_step, key.
  destruct (yaw hp) as [y |]; simpl; [| exact I].
  destruct (pitch hp) as [p |]; simpl; [| exact I].
  destruct (_ && _); [| destruct (_ && _); [| destruct (_ || _)]];
    simpl; lra.
Qed.

Lemma blink_step_mono (rate b c : Q) :
  b <= c -> blink_step rate b <= blink_step rate c.
Proof.
  intro H. unfold blink_step.
  destruct (Qgtb rate _); [| destruct (Qgtb rate _)]; lra.
Qed.

Lemma yawn_step_mono (yawn : bool) (b c : Q) :
  b <= c -> yawn_step yawn b <= yawn_step yawn c.
Proof. intro H. unfold yawn_step. destruct yawn; lra. Qed.

Lemma emotion_step_mono (emotions_data : list emotion_record) (b c : Q) :
  b <= c ->
  exc_le (emotion_step emotions_data b) (emotion_step emotions_data c).
Proof.
  intro H. unfold emotion_step, key.
  destruct emotions_data as [| first rest]; [exact H |].
  destruct (emotion first) as [e |]; simpl; [| exact I].
  destruct (string_eqb e "Happy");
    [| destruct (string_eqb e "Neutral");
       [| destruct (_ || _); [| destruct (string_eqb e "Surprise")]]];
    simpl; lra.
Qed.

(** From the gaze step on, the body of the scorer is monotone in the
    running score. *)
Lemma score_tail_mono (emotions_data : list emotion_record) (eyes : eyes_data)
  (hp : head_pose) (rate : Q) (yawn : bool) (b c : Q) :
  b <= c ->
  exc_le
    (b2 <- gaze_step eyes b ;;
     b3 <- head_pose_step hp b2 ;;
     b4 <- emotion_step emotions_data (yawn_step yawn (blink_step rate b3)) ;;
     Some (py_max 0 (py_min 100 b4)))
    (c2 <- gaze_step eyes c ;;
     c3 <- head_pose_step hp c2 ;;
     c4 <- emotion_step emotions_data (yawn_step yawn (blink_step rate c3)) ;;
     Some (py_max 0 (py_min 100 c4))).
Proof.
  intro H. pose proof (gaze_step_mono eyes b c H) as H2.
  destruct (gaze_step eyes b) as [b2 |], (gaze_step eyes c) as [c2 |];
    simpl in *; try contradiction; [| exact I].
  pose proof (head_pose_step_mono hp b2 c2 H2) as H3.
  destruct (head_pose_step hp b2) as [b3 |], (head_pose_step hp c2) as [c3 |];
    simpl in *; try contradiction; [| exact I].
  pose proof (emotion_step_mono emotions_data _ _
                (yawn_step_mono yawn _ _ (blink_step_mono rate b3 c3 H3)))
    as H4.
  destruct (emotion_step emotions_data (yawn_step yawn (blink_step rate b3)))
    as [b4 |],
    (emotion_step emotions_data (yawn_step yawn (blink_step rate c3)))
    as [c4 |];
    simpl in *; try contradiction; [| exact I].
  apply clamp_mono. exact H4.
Qed.

Lemma eye_step_flags_lower_bound (eyes : eyes_data) (l r : bool) (b : Q) :
  0 <= b ->
  exists b', eye_step (set_open_flags eyes l r) b = Some b'
             /\ py_max 0 (b - 50) <= b'.
Proof.
  intro Hb. unfold eye_step, key. cbn [left_open right_open set_open_flags bind].
  assert (H : py_max 0 (b - 50) <= b + 5).
  { destruct (py_max_cases 0 (b - 50)) as [E | E]; rewrite E; lra. }
  destruct l, r; cbn [bind andb];
    repeat match goal with
           | |- context [if ?c then _ else _] => destruct c
           end;
    eexists; (split; [reflexivity |]); try lra; apply Qle_refl.
Qed.

(** X3.  All other inputs being equal, the score computed with both eye
    flags false is at most the score computed with any other value of
    the two flags. *)
Theorem closing_eyes_never_raises_score
  (emotions_data : list emotion_record) (eyes : eyes_data) (hp : head_pose)
  (rate : Q) (yawn : bool) (l r : bool) :
  calculate_attention_score emotions_data (set_open_flags eyes false false)
                            hp rate yawn
  <= calculate_attention_score emotions_data (set_open_flags eyes l r)
                               hp rate yawn.
Proof.
  unfold calculate_attention_score, attention_score_body. cbv zeta.
  set (b0 := if nonempty emotions_data then 50 + 20 else 50).
  assert (Hb0 : 0 <= b0) by (unfold b0; destruct (nonempty _); discriminate).
  rewrite (eye_step_closed (set_open_flags eyes false false) b0)
    by reflexivity.
  destruct (eye_step_flags_lower_bound eyes l r b0 Hb0) as (b' & E & Hle).
  rewrite E. cbn [bind].
  pose proof (score_tail_mono emotions_data eyes hp rate yawn _ _ Hle) as H.
  change (gaze_step (set_open_flags eyes false false))
    with (gaze_step eyes).
  change (gaze_step (set_open_flags eyes l r)) with (gaze_step eyes).
  destruct (b2 <- gaze_step eyes (py_max 0 (b0 - 50)) ;; _) as [s1 |],
    (c2 <- gaze_step eyes b' ;; _) as [s2 |];
    simpl in H; try contradiction; [exact H | apply Qle_refl].
Qed.

(** ** A face without eyes *)

Lemma no_eyes_found_closed (w : Z) (strict lenient : exc (list box)) :
  no_eyes_found strict lenient = true ->
  left_open (detect_eyes_detailed w strict lenient) = Some false
  /\ right_open (detect_eyes_detailed w strict lenient) = Some false
  /\ eyes_detected (detect_eyes_detailed w strict lenient) = Some 0%Z.
Proof.
  unfold no_eyes_found, detect_eyes_detailed.
  destruct strict as [eyes |]; simpl; [| repeat split; reflexivity].
  destruct (length eyes <? 2)%nat; simpl; [| discriminate].
  destruct lenient as [eyes' |]; simpl; [| repeat split; reflexivity].
  destruct eyes' as [| e eyes']; simpl; [| discriminate].
  repeat split; reflexivity.
Qed.

(** X4.  On a frame with a face whose eyes the cascade does not find (no
    detection, or a failing call), [detect_emotion_and_attention] reports
    the face as detected with both eyes closed, the status
    "Distracted (Eyes Closed)" and a score of at most 60. *)
Theorem face_without_eyes_is_distracted
  (atan2_degrees : Z -> Z -> Q) (frame : frame_input) (st : detector)
  (first : emotion_record) (rest : list emotion_record) (e : string)
  (Hface : emotions frame = first :: rest)
  (Hlabel : emotion first = Some e)
  (Hnone : no_eyes_found (eyes_strict frame) (eyes_lenient frame) = true) :
  let att := snd (fst (detect_emotion_and_attention atan2_degrees frame st)) in
  face_detected att = true
  /\ status att = "Distracted (Eyes Closed)"%string
  /\ gaze_left_open (att_eye_gaze att) = false
  /\ gaze_right_open (att_eye_gaze att) = false
  /\ attention_score att <= 60.
Proof.
  cbv zeta.
  rewrite (detect_emotion_and_attention_face _ _ _ _ _ _ Hface Hlabel).
  cbn [fst snd face_detected status att_eye_gaze gaze_left_open
       gaze_right_open attention_score].
  destruct (no_eyes_found_closed (face_roi_w frame first) _ _ Hnone)
    as (Hl & Hr & _).
  fold (frame_eyes frame first) in Hl, Hr.
  split; [reflexivity |].
  split; [apply status_both_closed; assumption |].
  rewrite Hl, Hr. repeat split.
  unfold calculate_attention_score.
  destruct (attention_score_body _ _ _ _ _) as [s |] eqn:E.
  - eapply closed_eyes_body_cap; eassumption.
  - discriminate.
Qed.

Lemma face_without_eyes_is_distracted_witness :
  let frame :=
    {| emotions := [{| emotion := Some "Happy"%string; confidence := Some (9 # 10);
                       bbox := Some (100, 80, 200, 200)%Z |}];
       gray_h := 480; gray_w := 640;
       eyes_strict := Some []; eyes_lenient := Some [];
       roi_stats := None |} in
  let att := snd (fst (detect_emotion_and_attention (fun _ _ => 0) frame init)) in
  face_detected att = true
  /\ status att = "Distracted (Eyes Closed)"%string
  /\ gaze_left_open (att_eye_gaze att) = false
  /\ gaze_right_open (att_eye_gaze att) = false
  /\ attention_score att <= 60.
Proof.
  apply (face_without_eyes_is_distracted (fun _ _ => 0)
           {| emotions := [{| emotion := Some "Happy"%string;
                              confidence := Some (9 # 10);
                              bbox := Some (100, 80, 200, 200)%Z |}];
              gray_h := 480; gray_w := 640;
              eyes_strict := Some []; eyes_lenient := Some [];
              roi_stats := None |} init
           {| emotion := Some "Happy"%string; confidence := Some (9 # 10);
              bbox := Some (100, 80, 200, 200)%Z |} [] "Happy"%string);
    reflexivity.
Defined.

(** ** The head pose enters its history twice *)

Lemma deque_append_twice {A : Type} (maxlen : nat) (x y : A) (d : list A) :
  (length d <= maxlen)%nat ->
  deque_append maxlen y (deque_append maxlen x d) = last_n maxlen (d ++ [x; y]).
Proof.
  intro H.
  rewrite (deque_append_last_n maxlen y)
    by (apply deque_append_length; exact H).
  rewrite (deque_append_last_n maxlen x) by exact H.
  rewrite last_n_app_last_n, <- app_assoc. reflexivity.
Qed.

Lemma detect_emotion_and_attention_head_pose_history
  (atan2_degrees : Z -> Z -> Q) (frame : frame_input) (st : detector)
  (first : emotion_record) (rest : list emotion_record) :
  emotions frame = first :: rest ->
  let hp := fst (estimate_head_pose_advanced atan2_degrees
                   (face_roi_h frame first) (face_roi_w frame first)
                   (frame_eyes frame first) st) in
  head_pose_history (snd (detect_emotion_and_attention atan2_degrees frame st))
  = deque_append HEAD_POSE_MAXLEN hp
      (deque_append HEAD_POSE_MAXLEN hp (head_pose_history st))
  /\ (face_detected
        (snd (fst (detect_emotion_and_attention atan2_degrees frame st))) = true ->
      att_head_pose
        (snd (fst (detect_emotion_and_attention atan2_degrees frame st))) = hp).
Proof.
  intro Hem. cbv zeta.
  unfold detect_emotion_and_attention, frame_eyes, face_roi_h, face_roi_w,
    face_box.
  rewrite Hem. cbv zeta.
  destruct (get (bbox first) _) as [[[x y] w] h]. cbn [box_x box_y box_w box_h].
  set (roi_h := slice_len (gray_h frame) y (y + h)).
  set (roi_w := slice_len (gray_w frame) x (x + w)).
  set (eyes := detect_eyes_detailed roi_w _ _).
  pose proof (detect_blink_keeps eyes st) as (Hb & _).
  destruct (detect_blink eyes st) as [blink st1]. cbn [snd] in Hb.
  pose proof (detect_yawn_keeps roi_h roi_w st1) as (_ & _ & Hy & _).
  destruct (detect_yawn roi_h roi_w st1) as [[yawn intensity] st2].
  cbn [snd] in Hy.
  destruct (detect_eyes_detailed_keys roi_w (eyes_strict frame)
              (eyes_lenient frame))
    as (l_eye & r_eye & l_ear & r_ear & l_open & r_open & avg & gaze & n & Heyes).
  fold eyes in Heyes.
  destruct (head_pose_body_succeeds atan2_degrees roi_h roi_w eyes l_eye r_eye)
    as [hp Hhp]; [rewrite Heyes; reflexivity | rewrite Heyes; reflexivity |].
  unfold estimate_head_pose_advanced. rewrite Hhp. cbn [fst snd].
  rewrite <- Hb, <- Hy.
  destruct (key (emotion first)) as [e |];
    [| split; [reflexivity | discriminate]].
  destruct (bind _ _); split; try reflexivity; discriminate.
Qed.

(** X5.  On a frame with a face, [detect_emotion_and_attention] appends the
    estimated head pose to the head-pose history twice (once in
    [estimate_head_pose_advanced], once on return from it): the history
    becomes the last 60 entries of the previous one followed by two copies
    of the pose that the call reports. *)
Theorem head_pose_recorded_twice
  (atan2_degrees : Z -> Z -> Q) (frame : frame_input) (st : detector)
  (first : emotion_record) (rest : list emotion_record)
  (Hface : emotions frame = first :: rest)
  (Hcap : (length (head_pose_history st) <= HEAD_POSE_MAXLEN)%nat) :
  exists hp,
    head_pose_history (snd (detect_emotion_and_attention atan2_degrees frame st))
    = last_n HEAD_POSE_MAXLEN (head_pose_history st ++ [hp; hp])
    /\ (face_detected
          (snd (fst (detect_emotion_and_attention atan2_degrees frame st)))
        = true ->
        att_head_pose
          (snd (fst (detect_emotion_and_attention atan2_degrees frame st)))
        = hp).
Proof.
  destruct (detect_emotion_and_attention_head_pose_history
              atan2_degrees frame st first rest Hface) as [Hh Hatt].
  eexists. split; [| exact Hatt].
  rewrite Hh. apply deque_append_twice. exact Hcap.
Qed.

Lemma head_pose_recorded_twice_witness :
  let frame :=
    {| emotions := [{| emotion := Some "Neutral"%string; confidence := None;
                       bbox := Some (100, 80, 200, 200)%Z |}];
       gray_h := 480; gray_w := 640;
       eyes_strict := Some [(30, 50, 50, 30); (120, 50, 50, 30)]%Z;
       eyes_lenient := None; roi_stats := None |} in
  exists hp,
    head_pose_history (snd (detect_emotion_and_attention (fun _ _ => 0) frame init))
    = last_n HEAD_POSE_MAXLEN (head_pose_history init ++ [hp; hp])
    /\ (face_detected
          (snd (fst (detect_emotion_and_attention (fun _ _ => 0) frame init)))
        = true ->
        att_head_pose
          (snd (fst (detect_emotion_and_attention (fun _ _ => 0) frame init)))
        = hp).
Proof.
  apply (head_pose_recorded_twice (fun _ _ => 0)
           {| emotions := [{| emotion := Some "Neutral"%string; confidence := None;
                              bbox := Some (100, 80, 200, 200)%Z |}];
              gray_h := 480; gray_w := 640;
              eyes_strict := Some [(30, 50, 50, 30); (120, 50, 50, 30)]%Z;
              eyes_lenient := None; roi_stats := None |} init
           {| emotion := Some "Neutral"%string; confidence := None;
              bbox := Some (100, 80, 200, 200)%Z |} []).
  - reflexivity.
  - simpl. lia.
Defined.

(** ** What the two best labels require *)

(** X6.  [determine_attention_status] answers "Attentive" or
    "Partially Attentive" only when both eye flags are true, no yawn is
    flagged, the yaw is not beyond 30 degrees, the pitch is not below -20
    degrees and the score is at least 50; "Attentive" needs a score of at
    least 75. *)
Theorem attentive_labels_need_open_eyes
  (attention_score : Q) (eyes : eyes_data) (hp : head_pose) (yawn : bool)
  (Hlabel :
     determine_attention_status attention_score eyes hp yawn
     = "Attentive"%string
     \/ determine_attention_status attention_score eyes hp yawn
        = "Partially Attentive"%string) :
  left_open eyes = Some true
  /\ right_open eyes = Some true
  /\ yawn = false
  /\ (exists y p, yaw hp = Some y /\ pitch hp = Some p
                  /\ np_gt (np_abs y) 30 = false
                  /\ np_lt p (- (20)) = false)
  /\ 50 <= attention_score
  /\ (determine_attention_status attention_score eyes hp yawn
      = "Attentive"%string -> 75 <= attention_score).
Proof.
  revert Hlabel.
  unfold determine_attention_status, attention_status_body, key.
  destruct (left_open eyes) as [[|] |]; cbn [bind negb];
    [| | intros [H | H]; discriminate].
  - (* left eye open *)
    destruct (eyes_detected eyes) as [n |]; cbn [bind];
      [| intros [H | H]; discriminate].
    destruct ((n <? 2)%Z && _); [intros [H | H]; discriminate |].
    destruct yawn; [intros [H | H]; discriminate |].
    destruct (yaw hp) as [y |]; cbn [bind]; [| intros [H | H]; discriminate].
    destruct (pitch hp) as [p |]; cbn [bind]; [| intros [H | H]; discriminate].
    destruct (np_gt (np_abs y) 30) eqn:Ey; cbn [orb];
      [intros [H | H]; discriminate |].
    destruct (np_lt p (- (20))) eqn:Ep; [intros [H | H]; discriminate |].
    destruct (right_open eyes) as [[|] |]; cbn [bind negb andb];
      [| | intros [H | H]; discriminate].
    + destruct (Qle_bool 75 attention_score) eqn:E75.
      * intros _. apply Qle_bool_iff in E75.
        repeat split; try reflexivity; try lra.
        exists y, p. repeat split; assumption.
      * destruct (Qle_bool 50 attention_score) eqn:E50.
        -- intros _. apply Qle_bool_iff in E50.
           repeat split; try reflexivity; try exact E50; try discriminate.
           exists y, p. repeat split; assumption.
        -- destruct (Qle_bool 30 attention_score);
             intros [H | H]; discriminate.
    + destruct (Qgtb attention_score 30) eqn:E30.
      * intros [H | H]; vm_compute in H; discriminate.
      * apply Qgtb_le in E30.
        destruct (Qle_bool 75 attention_score) eqn:E75;
          [apply Qle_bool_iff in E75; lra |].
        destruct (Qle_bool 50 attention_score) eqn:E50;
          [apply Qle_bool_iff in E50; lra |].
        destruct (Qle_bool 30 attention_score);
          intros [H | H]; discriminate.
  - (* left eye closed *)
    destruct (right_open eyes) as [[|] |]; cbn [bind negb];
      [| intros [H | H]; discriminate | intros [H | H]; discriminate].
    destruct (eyes_detected eyes) as [n |]; cbn [bind];
      [| intros [H | H]; discriminate].
    destruct ((n <? 2)%Z && _); [intros [H | H]; discriminate |].
    destruct yawn; [intros [H | H]; discriminate |].
    destruct (yaw hp) as [y |]; cbn [bind]; [| intros [H | H]; discriminate].
    destruct (pitch hp) as [p |]; cbn [bind]; [| intros [H | H]; discriminate].
    destruct (_ || _); [intros [H | H]; discriminate |].
    cbn [andb].
    destruct (Qgtb attention_score 30) eqn:E30.
    + intros [H | H]; vm_compute in H; discriminate.
    + apply Qgtb_le in E30.
      destruct (Qle_bool 75 attention_score) eqn:E75;
        [apply Qle_bool_iff in E75; lra |].
      destruct (Qle_bool 50 attention_score) eqn:E50;
        [apply Qle_bool_iff in E50; lra |].
      destruct (Qle_bool 30 attention_score);
        intros [H | H]; discriminate.
Qed.

Lemma attentive_labels_need_open_eyes_witness :
  let eyes :=
    {| left_eye := Some None; right_eye := Some None;
       left_ear := Some (7 # 20); right_ear := Some (7 # 20);
       left_open := Some true; right_open := Some true;
       avg_ear := Some (7 # 20); gaze_direction := Some "center"%string;
       eyes_detected := Some 2%Z |} in
  left_open eyes = Some true
  /\ right_open eyes = Some true
  /\ false = false
  /\ (exists y p, yaw zero_pose = Some y /\ pitch zero_pose = Some p
                  /\ np_gt (np_abs y) 30 = false
                  /\ np_lt p (- (20)) = false)
  /\ 50 <= 80
  /\ (determine_attention_status 80 eyes zero_pose false
      = "Attentive"%string -> 75 <= 80).
Proof.
  apply (attentive_labels_need_open_eyes 80
           {| left_eye := Some None; right_eye := Some None;
              left_ear := Some (7 # 20); right_ear := Some (7 # 20);
              left_open := Some true; right_open := Some true;
              avg_ear := Some (7 # 20); gaze_direction := Some "center"%string;
              eyes_detected := Some 2%Z |} zero_pose false).
  left. reflexivity.
Defined.

(** ** The head pose of eyes inside the face region *)

Lemma np_div_finite (a b : Q) : ~ b == 0 -> np_div a b = Fin (a / b).
Proof.
  intro H. unfold np_div.
  destruct (Qeq_bool b 0) eqn:E; [| reflexivity].
  apply Qeq_bool_iff in E. contradiction.
Qed.

(** The offset of a centre [c / 2] from the middle of [0 .. n], relative to
    the half width, lies between -1 and 1 when [0 <= c <= 2 n]. *)
Lemma offset_bounds (c n : Z) :
  (0 < n)%Z -> (0 <= c <= 2 * n)%Z ->
  - (1) <= (inject_Z c / 2 - inject_Z n / 2) / (inject_Z n / 2) <= 1.
Proof.
  intros Hn [Hc0 Hc1].
  assert (Hn' : 0 < inject_Z n) by (unfold Qlt; simpl; lia).
  assert (H0 : 0 <= inject_Z c) by (unfold Qle; simpl; lia).
  assert (H1 : inject_Z c <= 2 * inject_Z n)
    by (unfold Qle, Qmult, inject_Z; cbn [Qnum Qden]; lia).
  generalize dependent (inject_Z c). generalize dependent (inject_Z n).
  intros N Hn' C H0 H1.
  assert (Hhalf : 0 < N / 2) by (apply Qlt_shift_div_l; lra).
  assert (Hb0 : 0 <= C / 2) by (apply Qle_shift_div_l; lra).
  assert (Hb1 : C / 2 <= N / 2 + N / 2).
  { setoid_replace (N / 2 + N / 2) with N by field.
    apply Qle_shift_div_r; lra. }
  set (a := N / 2) in *. set (b := C / 2) in *.
  split.
  - apply Qle_shift_div_l; [exact Hhalf | lra].
  - apply Qle_shift_div_r; [exact Hhalf | lra].
Qed.

(** X7.  When both eyes are found inside a face region of positive width
    and height, the estimated yaw is a finite angle between -45 and 45
    degrees and the estimated pitch a finite angle between -30 and 30
    degrees. *)
Theorem head_pose_within_range
  (atan2_degrees : Z -> Z -> Q) (h w : Z) (eyes : eyes_data) (l r : box)
  (Hleft : left_eye eyes = Some (Some l))
  (Hright : right_eye eyes = Some (Some r))
  (Hw : (0 < w)%Z) (Hh : (0 < h)%Z)
  (Hl : box_inside w h l) (Hr : box_inside w h r) :
  exists y p ro,
    head_pose_body atan2_degrees h w eyes
    = Some {| pitch := Some (Fin p); yaw := Some (Fin y);
              roll := Some (Fin ro) |}
    /\ - (45) <= y <= 45
    /\ - (30) <= p <= 30.
Proof.
  destruct Hl as (Hlx & Hlw & Hlxw & Hly & Hlh & Hlyh).
  destruct Hr as (Hrx & Hrw & Hrxw & Hry & Hrh & Hryh).
  unfold head_pose_body, key. rewrite Hleft, Hright. cbn [bind]. cbv zeta.
  assert (Hnw : ~ inject_Z w / 2 == 0).
  { intro E. assert (0 < inject_Z w / 2).
    { apply Qlt_shift_div_l; [reflexivity |]. unfold Qlt; simpl; lia. }
    lra. }
  assert (Hnh : ~ inject_Z h / 2 == 0).
  { intro E. assert (0 < inject_Z h / 2).
    { apply Qlt_shift_div_l; [reflexivity |]. unfold Qlt; simpl; lia. }
    lra. }
  rewrite (np_div_finite _ _ Hnw), (np_div_finite _ _ Hnh).
  cbn [np_scale].
  eexists _, _, _. split; [reflexivity |].
  split.
  - pose proof (offset_bounds
                  (box_x l + box_w l / 2 + (box_x r + box_w r / 2)) w Hw
                  ltac:(Z.div_mod_to_equations; lia)) as [H1 H2].
    split; lra.
  - pose proof (offset_bounds
                  (box_y l + box_h l / 2 + (box_y r + box_h r / 2)) h Hh
                  ltac:(Z.div_mod_to_equations; lia)) as [H1 H2].
    split; lra.
Qed.

Lemma head_pose_within_range_witness :
  let eyes :=
    {| left_eye := Some (Some (30, 50, 50, 30)%Z);
       right_eye := Some (Some (120, 50, 50, 30)%Z);
       left_ear := Some (3 # 10); right_ear := Some (3 # 10);
       left_open := Some false; right_open := Some false;
       avg_ear := Some (3 # 10); gaze_direction := Some "center"%string;
       eyes_detected := Some 2%Z |} in
  exists y p ro,
    head_pose_body (fun _ _ => 0) 200 200 eyes
    = Some {| pitch := Some (Fin p); yaw := Some (Fin y);
              roll := Some (Fin ro) |}
    /\ - (45) <= y <= 45
    /\ - (30) <= p <= 30.
Proof.
  apply (head_pose_within_range (fun _ _ => 0) 200 200
           {| left_eye := Some (Some (30, 50, 50, 30)%Z);
              right_eye := Some (Some (120, 50, 50, 30)%Z);
              left_ear := Some (3 # 10); right_ear := Some (3 # 10);
              left_open := Some false; right_open := Some false;
              avg_ear := Some (3 # 10); gaze_direction := Some "center"%string;
              eyes_detected := Some 2%Z |}
           (30, 50, 50, 30)%Z (120, 50, 50, 30)%Z);
    try reflexivity; unfold box_inside; simpl; lia.
Defined.

(** ** The face quality score *)

(** X8.  For image statistics of 8-bit pixels (mean between 0 and 255,
    non-negative deviation and Laplacian variance), and also for an empty
    region or failing statistics, the quality score returned by
    [calculate_face_quality] lies between 0 and 1. *)
Theorem face_quality_score_range (size : Z) (stats : exc (Q * Q * Q))
  (Hstats :
     match stats with
     | Some (mean_brightness, std_brightness, laplacian_var) =>
         0 <= mean_brightness <= 255
         /\ 0 <= std_brightness /\ 0 <= laplacian_var
     | None => True
     end) :
  0 <= score (calculate_face_quality size stats) <= 1.
Proof.
  unfold calculate_face_quality.
  destruct (size =? 0)%Z; [split; discriminate |].
  destruct stats as [[[m sd] v] |]; [| split; discriminate].
  destruct Hstats as ([Hm0 Hm1] & Hsd & Hv).
  cbn [score].
  assert (Habs : Qabs (m - 128) <= 128)
    by (apply Qabs_Qle_condition; split; lra).
  pose proof (Qabs_nonneg (m - 128)) as Habs0.
  assert (Hb : 0 <= 1 - Qabs (m - 128) / 128 <= 1).
  { assert (H1 : Qabs (m - 128) / 128 <= 1)
      by (apply Qle_shift_div_r; [reflexivity | lra]).
    assert (H0 : 0 <= Qabs (m - 128) / 128)
      by (apply Qle_shift_div_l; [reflexivity | lra]).
    split; lra. }
  assert (Hc : 0 <= py_min (sd / 50) 1 <= 1).
  { split; [| apply py_min_glb].
    destruct (py_min_cases (sd / 50) 1) as [E | E]; rewrite E;
      [| discriminate].
    apply Qle_shift_div_l; [reflexivity | lra]. }
  assert (Hs : 0 <= py_min (v / 100) 1 <= 1).
  { split; [| apply py_min_glb].
    destruct (py_min_cases (v / 100) 1) as [E | E]; rewrite E;
      [| discriminate].
    apply Qle_shift_div_l; [reflexivity | lra]. }
  set (b := 1 - Qabs (m - 128) / 128) in *.
  set (c := py_min (sd / 50) 1) in *.
  set (s := py_min (v / 100) 1) in *.
  split; lra.
Qed.

Lemma face_quality_score_range_witness :
  0 <= score (calculate_face_quality 40000 (Some (120, 40, 250))) <= 1.
Proof.
  apply (face_quality_score_range 40000 (Some (120, 40, 250))).
  repeat split; discriminate.
Defined.

(** ** The mouth ratio depends on the shape of the face region only *)

Lemma deque_append_snoc {A : Type} (maxlen : nat) (x : A) (d : list A) :
  (1 <= maxlen)%nat -> exists older, deque_append maxlen x d = older ++ [x].
Proof.
  intro H. unfold deque_append. cbv zeta.
  destruct (Nat.ltb_spec maxlen (length (d ++ [x]))) as [Hlt | Hge].
  - destruct d as [| y d]; [simpl in Hlt; lia |].
    exists d. reflexivity.
  - exists d. reflexivity.
Qed.

Lemma mouth_height_value (h : Z) :
  (0 <= h)%Z ->
  slice_len h (py_int (inject_Z h * (3 # 5))) h = (h - h * 3 / 5)%Z.
Proof.
  intro Hh.
  assert (Hint : py_int (inject_Z h * (3 # 5)) = (h * 3 / 5)%Z).
  { unfold py_int.
    assert (E : Qltb (inject_Z h * (3 # 5)) 0 = false).
    { apply Qltb_ge. unfold Qle, Qmult, inject_Z. cbn [Qnum Qden]. lia. }
    rewrite E. reflexivity. }
  rewrite Hint. unfold slice_len, clamp_index.
  assert (H1 : (0 <= h * 3 / 5 <= h)%Z) by (Z.div_mod_to_equations; lia).
  destruct (Z.ltb_spec (h * 3 / 5) 0); [lia |].
  destruct (Z.ltb_spec h 0); lia.
Qed.

Lemma mouth_ratio_wide_face (h w : Z) :
  (0 < w)%Z -> (0 <= h)%Z -> (2 * h + 4 <= 3 * w)%Z ->
  inject_Z (h - h * 3 / 5) / inject_Z w <= YAWN_THRESHOLD.
Proof.
  intros Hw Hh Hshape.
  assert (Hm : (5 * (h - h * 3 / 5) <= 2 * h + 4)%Z)
    by (Z.div_mod_to_equations; lia).
  apply Qle_shift_div_r.
  - unfold Qlt. simpl. lia.
  - unfold YAWN_THRESHOLD, Qle, Qmult, inject_Z. cbn [Qnum Qden]. lia.
Qed.

(** The sample just appended is among the last ten: a ratio at or below
    the threshold rules the yawn out. *)
Lemma current_sample_decides (mar : Q) (history : list Q) :
  mar <= YAWN_THRESHOLD ->
  all (fun m => Qgtb m YAWN_THRESHOLD)
      (last_n YAWN_CONSEC_FRAMES (deque_append MOUTH_MAXLEN mar history))
  = false.
Proof.
  intro Hmar.
  destruct (deque_append_snoc MOUTH_MAXLEN mar history)
    as [older Hsnoc]; [unfold MOUTH_MAXLEN; lia |].
  rewrite Hsnoc.
  change YAWN_CONSEC_FRAMES with (S 9). rewrite last_n_snoc.
  unfold all. rewrite forallb_app. cbn [forallb].
  apply Qgtb_le in Hmar. rewrite Hmar.
  rewrite andb_false_l, andb_false_r. reflexivity.
Qed.

(** X9.  On a face region with [2 h + 4 <= 3 w] (in particular on every
    square region at least 4 pixels wide), the mouth ratio is at most 0.6
    and [detect_yawn] returns [False], whatever the mouth history holds. *)
Theorem no_yawn_on_wide_face (h w : Z) (st : detector)
  (Hw : (0 < w)%Z) (Hh : (0 <= h)%Z) (Hshape : (2 * h + 4 <= 3 * w)%Z) :
  fst (fst (detect_yawn h w st)) = false
  /\ snd (fst (detect_yawn h w st)) <= YAWN_THRESHOLD.
Proof.
  pose proof (mouth_ratio_wide_face h w Hw Hh Hshape) as Hmar.
  unfold detect_yawn. cbv zeta.
  rewrite (mouth_height_value h Hh).
  destruct (_ * w =? 0)%Z; [split; [reflexivity | discriminate] |].
  destruct (w =? 0)%Z; [split; [reflexivity | discriminate] |].
  cbn [mouth_history set_mouth_history].
  rewrite (current_sample_decides _ _ Hmar), andb_false_r.
  split; [reflexivity | exact Hmar].
Qed.

Lemma no_yawn_on_wide_face_witness :
  fst (fst (detect_yawn 200 200
              (set_mouth_history init [1; 1; 1; 1; 1; 1; 1; 1; 1; 1])))
  = false
  /\ snd (fst (detect_yawn 200 200
                 (set_mouth_history init [1; 1; 1; 1; 1; 1; 1; 1; 1; 1])))
     <= YAWN_THRESHOLD.
Proof.
  apply (no_yawn_on_wide_face 200 200
           (set_mouth_history init [1; 1; 1; 1; 1; 1; 1; 1; 1; 1])); lia.
Defined.

(** ** Left and right eye *)

Lemma insert_by_x_perm (e : box) (l : list box) :
  Permutation (e :: l) (insert_by_x e l).
Proof.
  induction l as [| e' l IH]; simpl; [reflexivity |].
  destruct (box_x e <=? box_x e')%Z; [reflexivity |].
  rewrite perm_swap. apply perm_skip. exact IH.
Qed.

Lemma sorted_by_x_perm (l : list box) : Permutation l (sorted_by_x l).
Proof.
  unfold sorted_by_x. induction l as [| e l IH]; simpl; [constructor |].
  rewrite <- insert_by_x_perm. apply perm_skip. exact IH.
Qed.

Lemma insert_by_x_sorted (e : box) (l : list box) :
  StronglySorted (fun a b => (box_x a <= box_x b)%Z) l ->
  StronglySorted (fun a b => (box_x a <= box_x b)%Z) (insert_by_x e l).
Proof.
  induction 1 as [| e' l Hs IH Hall]; simpl.
  - constructor; constructor.
  - destruct (Z.leb_spec (box_x e) (box_x e')) as [Hle | Hgt].
    + constructor; [constructor; assumption |].
      constructor; [exact Hle |].
      eapply Forall_impl; [| exact Hall]. intros a Ha. simpl in Ha. lia.
    + constructor; [exact IH |].
      apply (Permutation_Forall (insert_by_x_perm e l)).
      constructor; [lia | exact Hall].
Qed.

Lemma sorted_by_x_sorted (l : list box) :
  StronglySorted (fun a b => (box_x a <= box_x b)%Z) (sorted_by_x l).
Proof.
  unfold sorted_by_x. induction l as [| e l IH]; simpl; [constructor |].
  apply insert_by_x_sorted. exact IH.
Qed.

(** X10.  When the first cascade call finds two eyes or more,
    [detect_eyes_detailed] reports as left eye the left-most detection and
    as right eye the next one in order of x: the detections are the two
    reported boxes and some others, none of which starts left of the
    right eye. *)
Theorem left_eye_is_leftmost (w : Z) (eyes : list box)
  (lenient : exc (list box)) (Htwo : (2 <= length eyes)%nat) :
  exists l r others,
    left_eye (detect_eyes_detailed w (Some eyes) lenient) = Some (Some l)
    /\ right_eye (detect_eyes_detailed w (Some eyes) lenient) = Some (Some r)
    /\ Permutation eyes (l :: r :: others)
    /\ (box_x l <= box_x r)%Z
    /\ Forall (fun e => (box_x r <= box_x e)%Z) others.
Proof.
  unfold detect_eyes_detailed. cbn [bind].
  assert (H2 : (length eyes <? 2)%nat = false) by (apply Nat.ltb_ge; exact Htwo).
  rewrite H2. cbn [bind].
  pose proof (sorted_by_x_perm eyes) as Hperm.
  pose proof (sorted_by_x_sorted eyes) as Hsorted.
  unfold eyes_from_detections, assign_eyes.
  destruct eyes as [| e1 [| e2 rest]]; [simpl in Htwo; lia .. |].
  destruct (sorted_by_x (e1 :: e2 :: rest)) as [| l [| r others]] eqn:Es.
  - apply Permutation_length in Hperm. discriminate.
  - apply Permutation_length in Hperm. discriminate.
  - exists l, r, others. cbv zeta. cbn [left_eye right_eye].
    split; [reflexivity |]. split; [reflexivity |].
    split; [exact Hperm |].
    inversion Hsorted as [| ? ? Hs' Hall]; subst.
    inversion Hall as [| ? ? Hlr _]; subst.
    inversion Hs' as [| ? ? _ Hall']; subst.
    split; assumption.
Qed.

Lemma left_eye_is_leftmost_witness :
  exists l r others,
    left_eye (detect_eyes_detailed 200
                (Some [(120, 50, 50, 30); (30, 50, 50, 30); (90, 10, 20, 20)]%Z)
                None) = Some (Some l)
    /\ right_eye (detect_eyes_detailed 200
                (Some [(120, 50, 50, 30); (30, 50, 50, 30); (90, 10, 20, 20)]%Z)
                None) = Some (Some r)
    /\ Permutation [(120, 50, 50, 30); (30, 50, 50, 30); (90, 10, 20, 20)]%Z
                   (l :: r :: others)
    /\ (box_x l <= box_x r)%Z
    /\ Forall (fun e => (box_x r <= box_x e)%Z) others.
Proof.
  apply (left_eye_is_leftmost 200
           [(120, 50, 50, 30); (30, 50, 50, 30); (90, 10, 20, 20)]%Z None).
  simpl. lia.
Defined.

(** ** Gaze and yaw read the same offset *)





Example gaze_right_when_eyes_sit_right :
  gaze_direction
    (detect_eyes_detailed 200
       (Some [(120, 50, 50, 30); (150, 50, 40, 30)]%Z) None)
  = Some "right"%string.
Proof. vm_compute. reflexivity. Qed.

(** ** Yawns and the shape of the face box *)

Lemma detect_yawn_flag_wide_face (h w : Z) (st : detector) :
  (0 < w)%Z -> (0 <= h)%Z -> (2 * h + 4 <= 3 * w)%Z ->
  fst (fst (detect_yawn h w st)) = false.
Proof.
  intros Hw Hh Hshape. unfold detect_yawn. cbv zeta.
  rewrite (mouth_height_value h Hh).
  destruct (_ * w =? 0)%Z; [reflexivity |].
  destruct (w =? 0)%Z; [reflexivity |].
  cbn [mouth_history set_mouth_history].
  rewrite (current_sample_decides _ _
             (mouth_ratio_wide_face h w Hw Hh Hshape)), andb_false_r.
  reflexivity.
Qed.

Lemma slice_len_inside (n start len : Z) :
  (0 <= start)%Z -> (0 <= len)%Z -> (start + len <= n)%Z ->
  slice_len n start (start + len) = len.
Proof.
  intros H0 H1 H2. unfold slice_len, clamp_index.
  destruct (Z.ltb_spec (start + len) 0); destruct (Z.ltb_spec start 0); lia.
Qed.

Lemma status_without_yawn_not_drowsy (attention_score : Q) (eyes : eyes_data)
  (hp : head_pose) :
  determine_attention_status attention_score eyes hp false
  <> "Drowsy / Fatigued"%string.
Proof.
  unfold determine_attention_status, attention_status_body, key.
  destruct (left_open eyes) as [lo |]; cbn [bind]; [| discriminate].
  destruct (if negb lo then _ else _) as [closed |]; cbn [bind];
    [| discriminate].
  destruct (if closed then _ else _) as [[|] |]; cbn [bind];
    try discriminate.
  destruct (yaw hp) as [y |]; cbn [bind]; [| discriminate].
  destruct (pitch hp) as [p |]; cbn [bind]; [| discriminate].
  destruct (_ || _); [discriminate |].
  destruct (if negb lo then _ else _) as [an_eye_closed |]; cbn [bind];
    [| discriminate].
  destruct (Qle_bool 75 _); [discriminate |].
  destruct (Qle_bool 50 _); [discriminate |].
  destruct (Qle_bool 30 _); discriminate.
Qed.

(** X12.  On a frame whose first face box lies inside the frame and
    satisfies [2 h + 4 <= 3 w] (every square box at least 4 pixels wide
    does), [detect_emotion_and_attention] never reports a yawn and never
    answers "Drowsy / Fatigued", whatever the image and the mouth history
    hold. *)
Theorem no_yawn_for_square_faces
  (atan2_degrees : Z -> Z -> Q) (frame : frame_input) (st : detector)
  (first : emotion_record) (rest : list emotion_record) (e : string)
  (x y w h : Z)
  (Hface : emotions frame = first :: rest)
  (Hlabel : emotion first = Some e)
  (Hbox : bbox first = Some (x, y, w, h))
  (Hx : (0 <= x)%Z) (Hw : (0 < w)%Z) (Hxw : (x + w <= gray_w frame)%Z)
  (Hy : (0 <= y)%Z) (Hh : (0 <= h)%Z) (Hyh : (y + h <= gray_h frame)%Z)
  (Hshape : (2 * h + 4 <= 3 * w)%Z) :
  let att := snd (fst (detect_emotion_and_attention atan2_degrees frame st)) in
  yawn_detected att = false
  /\ status att <> "Drowsy / Fatigued"%string.
Proof.
  cbv zeta.
  rewrite (detect_emotion_and_attention_face _ _ _ _ _ _ Hface Hlabel).
  cbn [fst snd yawn_detected status].
  assert (Hrh : face_roi_h frame first = h).
  { unfold face_roi_h, face_box. rewrite Hbox. cbn [get box_y box_h].
    apply slice_len_inside; assumption. }
  assert (Hrw : face_roi_w frame first = w).
  { unfold face_roi_w, face_box. rewrite Hbox. cbn [get box_x box_w].
    apply slice_len_inside; lia. }
  rewrite Hrh, Hrw.
  rewrite (detect_yawn_flag_wide_face h w _ Hw Hh Hshape).
  split; [reflexivity |].
  apply status_without_yawn_not_drowsy.
Qed.

Lemma no_yawn_for_square_faces_witness :
  let frame :=
    {| emotions := [{| emotion := Some "Neutral"%string; confidence := None;
                       bbox := Some (100, 80, 200, 200)%Z |}];
       gray_h := 480; gray_w := 640;
       eyes_strict := Some [(30, 50, 50, 30); (120, 50, 50, 30)]%Z;
       eyes_lenient := None; roi_stats := None |} in
  let att := snd (fst (detect_emotion_and_attention (fun _ _ => 0) frame init)) in
  yawn_detected att = false
  /\ status att <> "Drowsy / Fatigued"%string.
Proof.
  apply (no_yawn_for_square_faces (fun _ _ => 0)
           {| emotions := [{| emotion := Some "Neutral"%string; confidence := None;
                              bbox := Some (100, 80, 200, 200)%Z |}];
              gray_h := 480; gray_w := 640;
              eyes_strict := Some [(30, 50, 50, 30); (120, 50, 50, 30)]%Z;
              eyes_lenient := None; roi_stats := None |} init
           {| emotion := Some "Neutral"%string; confidence := None;
              bbox := Some (100, 80, 200, 200)%Z |} [] "Neutral"%string
           100 80 200 200);
    try reflexivity; simpl; lia.
Defined.

(** * Further properties of the audio processor *)

(** ** Levels are non-negative *)

Lemma fold_max_ge (xs : list Q) (acc : Q) :
  acc <= fold_left (fun a y => if Qltb a y then y else a) xs acc
  /\ Forall (fun x =>
               x <= fold_left (fun a y => if Qltb a y then y else a) xs acc)
            xs.
Proof.
  revert acc. induction xs as [| x xs IH]; intro acc; simpl.
  - split; [apply Qle_refl | constructor].
  - destruct (Qltb acc x) eqn:E.
    + apply Qltb_lt in E. destruct (IH x) as [H1 H2].
      split; [lra |]. constructor; assumption.
    + apply Qltb_ge in E. destruct (IH acc) as [H1 H2].
      split; [exact H1 |]. constructor; [lra | exact H2].
Qed.

Lemma np_max_ge (l : list Q) : Forall (fun x => x <= np_max l) l.
Proof.
  destruct l as [| x xs]; [constructor |].
  unfold np_max. destruct (fold_max_ge xs x) as [H1 H2].
  constructor; assumption.
Qed.

Lemma fold_max_le (xs : list Q) (acc bound : Q) :
  acc <= bound -> Forall (fun x => x <= bound) xs ->
  fold_left (fun a y => if Qltb a y then y else a) xs acc <= bound.
Proof.
  revert acc. induction xs as [| x xs IH]; intros acc Hacc Hall; simpl.
  - exact Hacc.
  - inversion Hall as [| ? ? Hx Hxs]; subst.
    destruct (Qltb acc x); apply IH; assumption.
Qed.

Lemma np_max_le (l : list Q) (bound : Q) :
  0 <= bound -> Forall (fun x => x <= bound) l -> np_max l <= bound.
Proof.
  intros Hb Hall. destruct l as [| x xs]; [exact Hb |].
  inversion Hall; subst. unfold np_max. apply fold_max_le; assumption.
Qed.

Lemma fold_min_ge (xs : list Q) (acc bound : Q) :
  bound <= acc -> Forall (fun x => bound <= x) xs ->
  bound <= fold_left (fun a y => if Qltb y a then y else a) xs acc.
Proof.
  revert acc. induction xs as [| x xs IH]; intros acc Hacc Hall; simpl.
  - exact Hacc.
  - inversion Hall as [| ? ? Hx Hxs]; subst.
    destruct (Qltb x acc); apply IH; assumption.
Qed.

Lemma np_min_ge (l : list Q) (bound : Q) :
  bound <= 0 -> Forall (fun x => bound <= x) l -> bound <= np_min l.
Proof.
  intros Hb Hall. destruct l as [| x xs]; [exact Hb |].
  inversion Hall; subst. unfold np_min. apply fold_min_ge; assumption.
Qed.

Lemma np_max_abs_nonneg (l : list Q) : 0 <= np_max (map Qabs l).
Proof.
  destruct l as [| x xs]; [apply Qle_refl |].
  pose proof (np_max_ge (map Qabs (x :: xs))) as H.
  inversion H as [| ? ? Hx _]; subst.
  eapply Qle_trans; [apply Qabs_nonneg | exact Hx].
Qed.

Lemma sumQ_nonneg (l : list Q) : Forall (fun x => 0 <= x) l -> 0 <= sumQ l.
Proof.
  induction 1 as [| x l Hx Hl IH]; simpl; [apply Qle_refl | lra].
Qed.

Lemma mean_nonneg (l : list Q) : Forall (fun x => 0 <= x) l -> 0 <= mean l.
Proof.
  intro H. unfold mean. destruct l as [| x xs]; [discriminate |].
  apply Qle_shift_div_l.
  - unfold Qlt. simpl. lia.
  - rewrite Qmult_0_l. apply sumQ_nonneg. exact H.
Qed.

Lemma combined_level_nonneg (np_sqrt : Q -> Q) (samples : list Q) :
  (forall q, 0 <= np_sqrt q) -> 0 <= combined_level np_sqrt samples.
Proof.
  intro Hsqrt. unfold combined_level. cbv zeta.
  set (audio_array := if (_ || _)%bool then _ else samples).
  pose proof (Hsqrt (mean (map (fun s => s * s) audio_array))) as H1.
  pose proof (np_max_abs_nonneg audio_array) as H2.
  set (rms := np_sqrt _) in *. set (peak := np_max _) in *.
  lra.
Qed.

Lemma levels_nonneg (np_sqrt : Q -> Q) (chunks : list (option (list Q))) :
  (forall q, 0 <= np_sqrt q) ->
  Forall (fun l => 0 <= l) (levels np_sqrt chunks).
Proof.
  intro Hsqrt. unfold levels. induction chunks as [| chunk chunks IH]; simpl.
  - constructor.
  - apply Forall_app. split; [| exact IH].
    destruct chunk as [[| s samples] |]; simpl; try constructor;
      [apply combined_level_nonneg; exact Hsqrt | constructor].
Qed.

Lemma sqrt_exact_nonneg (q : Q) : 0 <= sqrt_exact q.
Proof.
  unfold sqrt_exact, Qle. simpl.
  pose proof (Z.sqrt_nonneg (Qnum q)). lia.
Qed.

(** The noise level returned for a chunk that carries data. *)
Lemma process_audio_chunk_noise (np_sqrt : Q -> Q)
  (audio_data : option (list Q)) (st : audio_processor) (level : Q) :
  chunk_level np_sqrt audio_data = Some level ->
  noise_level_of (process_audio_chunk np_sqrt audio_data st)
  = py_min (mean (deque_append 30 level (audio_history st)) * 20) 1
  /\ level_of (process_audio_chunk np_sqrt audio_data st) = level.
Proof.
  destruct audio_data as [[| s samples] |]; simpl; intro H;
    try discriminate.
  injection H as H. rewrite H.
  assert (Hne : forall d : list Q,
             nonempty (if (30 <? length (d ++ [level]))%nat
                       then tl (d ++ [level]) else d ++ [level]) = true).
  { intro d. destruct (Nat.ltb_spec 30 (length (d ++ [level]))) as [Hlt | Hge].
    - destruct d as [| a [| b d]]; simpl in *; try lia; reflexivity.
    - destruct d; reflexivity. }
  unfold noise_level_of, level_of, deque_append. cbv zeta.
  destruct (Qgtb level voice_threshold); cbn [fst snd];
    rewrite Hne; split; reflexivity.
Qed.

(** X13.  With a square root that is never negative, every call of
    [process_audio_chunk] on a processor started fresh returns a noise
    level between 0 and 1 and a combined level that is not negative. *)
Theorem noise_level_range (np_sqrt : Q -> Q)
  (chunks : list (option (list Q))) (chunk : option (list Q))
  (Hsqrt : forall q, 0 <= np_sqrt q) :
  let r := process_audio_chunk np_sqrt chunk (run_audio np_sqrt chunks fresh) in
  0 <= noise_level_of r <= 1 /\ 0 <= level_of r.
Proof.
  cbv zeta.
  destruct (chunk_level np_sqrt chunk) as [level |] eqn:E.
  - destruct (process_audio_chunk_noise np_sqrt chunk
                (run_audio np_sqrt chunks fresh) level E) as [Hn Hl].
    rewrite Hn, Hl.
    assert (Hlevel : 0 <= level).
    { destruct chunk as [[| s samples] |]; simpl in E; try discriminate.
      injection E as E. subst level.
      apply combined_level_nonneg. exact Hsqrt. }
    split; [| exact Hlevel].
    split; [| apply py_min_glb].
    set (window := deque_append 30 level _).
    assert (Hwin : Forall (fun l => 0 <= l) window).
    { unfold window. apply deque_append_Forall; [| exact Hlevel].
      rewrite run_audio_history. apply Forall_last_n.
      apply levels_nonneg. exact Hsqrt. }
    pose proof (mean_nonneg window Hwin) as Hmean.
    destruct (py_min_cases (mean window * 20) 1) as [E' | E']; rewrite E';
      [lra | discriminate].
  - rewrite (process_audio_chunk_no_data _ _ _ E).
    unfold noise_level_of, level_of. cbn [fst snd].
    repeat split; discriminate.
Qed.

Lemma noise_level_range_witness :
  let r := process_audio_chunk sqrt_exact (Some [1 # 10])
             (run_audio sqrt_exact [Some [1 # 10]; Some [0]] fresh) in
  0 <= noise_level_of r <= 1 /\ 0 <= level_of r.
Proof.
  apply (noise_level_range sqrt_exact [Some [1 # 10]; Some [0]]
           (Some [1 # 10])).
  exact sqrt_exact_nonneg.
Defined.

(** X14.  The noise level returned for a chunk with data is 20 times the
    mean of the last 30 levels, the current one included, capped at 1. *)
Theorem noise_level_is_moving_average (np_sqrt : Q -> Q)
  (chunks : list (option (list Q))) (chunk : option (list Q)) (level : Q)
  (Hdata : chunk_level np_sqrt chunk = Some level) :
  noise_level_of
    (process_audio_chunk np_sqrt chunk (run_audio np_sqrt chunks fresh))
  = py_min (mean (last_n 30 (levels np_sqrt chunks ++ [level])) * 20) 1.
Proof.
  destruct (process_audio_chunk_noise np_sqrt chunk
              (run_audio np_sqrt chunks fresh) level Hdata) as [Hn _].
  rewrite Hn, run_audio_history.
  rewrite deque_append_last_n by (rewrite last_n_length; apply Nat.le_min_l).
  rewrite last_n_app_last_n. reflexivity.
Qed.

Lemma noise_level_is_moving_average_witness :
  noise_level_of
    (process_audio_chunk sqrt_exact (Some [1 # 10])
       (run_audio sqrt_exact [Some [1 # 10]; Some [0]] fresh))
  = py_min
      (mean (last_n 30 (levels sqrt_exact [Some [1 # 10]; Some [0]]
                        ++ [combined_level sqrt_exact [1 # 10]])) * 20) 1.
Proof.
  apply (noise_level_is_moving_average sqrt_exact
           [Some [1 # 10]; Some [0]] (Some [1 # 10])).
  reflexivity.
Defined.

(** ** Samples of amplitude 1 are taken at full scale *)

(** X15.  A chunk whose samples all lie between -1 and 1 is not rescaled;
    if one of them has absolute value 1 (the faintest non-zero sample of
    16-bit audio), the combined level is at least 0.3, above the voice
    threshold, for any square root that is never negative. *)
Theorem unit_samples_are_loud (np_sqrt : Q -> Q) (samples : list Q)
  (Hsqrt : forall q, 0 <= np_sqrt q)
  (Hrange : Forall (fun s => - (1) <= s /\ s <= 1) samples)
  (Hone : Exists (fun s => 1 <= Qabs s) samples) :
  3 # 10 <= combined_level np_sqrt samples
  /\ voice_threshold < combined_level np_sqrt samples.
Proof.
  assert (Hlevel : 3 # 10 <= combined_level np_sqrt samples).
  { unfold combined_level. cbv zeta.
    assert (Hmax : Qgtb (np_max samples) 1 = false).
    { apply Qgtb_le. apply np_max_le; [discriminate |].
      eapply Forall_impl; [| exact Hrange]. intros s [_ H]. exact H. }
    assert (Hmin : Qltb (np_min samples) (- (1)) = false).
    { apply Qltb_ge. apply np_min_ge; [discriminate |].
      eapply Forall_impl; [| exact Hrange]. intros s [H _]. exact H. }
    rewrite Hmax, Hmin. cbn [orb].
    apply Exists_exists in Hone as (s & Hin & Hs).
    pose proof (np_max_ge (map Qabs samples)) as Hge.
    rewrite Forall_forall in Hge.
    pose proof (Hge (Qabs s) (in_map Qabs samples s Hin)) as Hpeak.
    pose proof (Hsqrt (mean (map (fun s => s * s) samples))) as Hrms.
    set (rms := np_sqrt _) in *. set (peak := np_max _) in *.
    lra. }
  split; [exact Hlevel |].
  unfold voice_threshold. lra.
Qed.

Lemma unit_samples_are_loud_witness :
  3 # 10 <= combined_level sqrt_exact [0; 1; 0; - (1)]
  /\ voice_threshold < combined_level sqrt_exact [0; 1; 0; - (1)].
Proof.
  apply (unit_samples_are_loud sqrt_exact [0; 1; 0; - (1)]).
  - exact sqrt_exact_nonneg.
  - repeat constructor; discriminate.
  - apply Exists_cons_tl. apply Exists_cons_hd. discriminate.
Defined.

(** Samples of amplitude 2 are rescaled by 32768 and fall far below the
    threshold that samples of amplitude 1 exceed. *)
Example amplitude_two_is_quieter_than_one :
  Qgtb (combined_level sqrt_exact [1; - (1)]) voice_threshold = true
  /\ Qgtb (combined_level sqrt_exact [2; - (2)]) voice_threshold = false.
Proof. vm_compute. split; reflexivity. Qed.

(** * Properties of [SimpleEmotionDetector] *)

(** ** The engagement score *)

Lemma emotion_weight_range (e : string) : 1 # 10 <= emotion_weight e <= 1.
Proof.
  unfold emotion_weight.
  repeat match goal with
         | |- context [if ?c then _ else _] => destruct c
         end; split; discriminate.
Qed.

Lemma round_fixed_rounding : rounding round_fixed.
Proof.
  split; [| split; reflexivity].
  intros x y Hxy. unfold round_fixed.
  apply Qmult_le_compat_r; [| discriminate].
  rewrite <- Zle_Qle. apply Qfloor_resp_le. lra.
Qed.

Lemma rounding_unit_interval (fl : Q -> Q) (x : Q) :
  rounding fl -> 0 <= x <= 1 -> 0 <= fl x <= 1.
Proof.
  intros (Hmono & H0 & H1) [Hx0 Hx1]. split.
  - rewrite <- H0. apply Hmono. exact Hx0.
  - rewrite <- H1. apply Hmono. exact Hx1.
Qed.

(** Through the loop the rounded score total stays between 0 and the
    rounded confidence total. *)
Lemma engagement_totals_range (fl : Q -> Q)
  (emotions_data : list emotion_record) (ts tc : Q) :
  rounding fl ->
  Forall (scored_face fl) emotions_data ->
  0 <= ts -> ts <= tc ->
  exists ts' tc',
    engagement_totals fl emotions_data ts tc = Some (ts', tc')
    /\ 0 <= ts' /\ ts' <= tc'.
Proof.
  intros Hfl Hall. revert ts tc.
  induction Hall as [| d rest (e & c & He & Hc & [Hc0 Hc1] & Hfloat) _ IH];
    intros ts tc H1 H2; simpl.
  - exists ts, tc. repeat split; assumption.
  - unfold key. rewrite He, Hc. cbn [bind]. cbv zeta.
    assert (Hw : 0 <= fl (emotion_weight e) <= 1).
    { apply rounding_unit_interval; [exact Hfl |].
      pose proof (emotion_weight_range e). lra. }
    destruct Hw as [Hw0 Hw1].
    set (wt := fl (emotion_weight e)) in *.
    assert (Hlo : 0 <= wt * c) by (apply Qmult_le_0_compat; assumption).
    assert (Hhi : wt * c <= c).
    { setoid_replace c with (1 * c) at 2 by ring.
      apply Qmult_le_compat_r; assumption. }
    destruct Hfl as (Hmono & Hzero & Hone).
    assert (Hlo' : 0 <= fl (wt * c)).
    { rewrite <- Hzero. apply Hmono. exact Hlo. }
    assert (Hhi' : fl (wt * c) <= c).
    { apply Qle_trans with (fl c); [apply Hmono; exact Hhi |].
      rewrite Hfloat. apply Qle_refl. }
    set (wc := fl (wt * c)) in *.
    apply IH.
    + rewrite <- Hzero. apply Hmono. lra.
    + apply Hmono. lra.
Qed.

(** X16.  In floating-point arithmetic whose rounding keeps the order and
    has 0 and 1 among its floats, for faces that all carry a label and a
    confidence that is a float between 0 and 1, [get_engagement_score]
    does not raise and returns a value between 0 and 1, and 0 when there
    is no face. *)
Theorem engagement_score_range (fl : Q -> Q)
  (emotions_data : list emotion_record)
  (Hfl : rounding fl)
  (Hkeys : Forall (scored_face fl) emotions_data) :
  exists s,
    get_engagement_score fl emotions_data = Some s
    /\ 0 <= s <= 1
    /\ (emotions_data = [] -> s = 0).
Proof.
  unfold get_engagement_score.
  destruct emotions_data as [| d rest] eqn:Edata;
    [exists 0; split; [reflexivity |]; split; [split; discriminate |];
     reflexivity |].
  rewrite <- Edata in *. assert (Hne : emotions_data <> []) by (subst; discriminate).
  replace (nonempty emotions_data) with true by (subst; reflexivity).
  destruct (engagement_totals_range fl emotions_data 0 0 Hfl Hkeys)
    as (ts & tc & E & H1 & H2); try apply Qle_refl.
  rewrite E. cbn [bind].
  destruct (Qgtb tc 0) eqn:Etc.
  - apply Qgtb_gt in Etc. eexists. split; [reflexivity |].
    split; [| intro; contradiction].
    apply rounding_unit_interval; [exact Hfl |]. split.
    + apply Qle_shift_div_l; [exact Etc | lra].
    + apply Qle_shift_div_r; [exact Etc | lra].
  - exists 0. split; [reflexivity |]. split; [split; discriminate |].
    intro; contradiction.
Qed.

Lemma engagement_score_range_witness :
  exists s,
    get_engagement_score round_fixed
      [{| emotion := Some "Happy"%string; confidence := Some (3 # 4);
          bbox := None |};
       {| emotion := Some "Sad"%string; confidence := Some (1 # 2);
          bbox := None |}] = Some s
    /\ 0 <= s <= 1
    /\ ([{| emotion := Some "Happy"%string; confidence := Some (3 # 4);
           bbox := None |};
        {| emotion := Some "Sad"%string; confidence := Some (1 # 2);
           bbox := None |}] = [] -> s = 0).
Proof.
  apply (engagement_score_range round_fixed
           [{| emotion := Some "Happy"%string; confidence := Some (3 # 4);
               bbox := None |};
            {| emotion := Some "Sad"%string; confidence := Some (1 # 2);
               bbox := None |}]).
  - exact round_fixed_rounding.
  - apply Forall_cons; [| apply Forall_cons; [| apply Forall_nil]].
    + exists "Happy"%string, (3 # 4).
      split; [reflexivity |]. split; [reflexivity |].
      split; [split; discriminate | reflexivity].
    + exists "Sad"%string, (1 # 2).
      split; [reflexivity |]. split; [reflexivity |].
      split; [split; discriminate | reflexivity].
Defined.

(** The score of the two faces of the witness under [round_fixed]: the
    weight 0.2 is held as 205/1024, and the quotient 871/1280 is returned
    as 697/1024. *)
Example engagement_score_two_faces :
  option_map Qred
    (get_engagement_score round_fixed
       [{| emotion := Some "Happy"%string; confidence := Some (3 # 4);
           bbox := None |};
        {| emotion := Some "Sad"%string; confidence := Some (1 # 2);
           bbox := None |}])
  = Some (697 # 1024).
Proof. vm_compute. reflexivity. Qed.

(** ** Face boxes of [detect_emotion] *)

Lemma py_int_half (z : Z) : (0 <= z)%Z -> py_int (inject_Z z / 2) = (z / 2)%Z.
Proof.
  intro Hz. unfold py_int.
  assert (E : Qltb (inject_Z z / 2) 0 = false).
  { apply Qltb_ge. apply Qle_shift_div_l; [reflexivity |].
    unfold Qle. simpl. lia. }
  rewrite E. unfold Qdiv, Qmult, Qinv, inject_Z, Qfloor. cbn [Qnum Qden].
  rewrite Z.mul_1_r. reflexivity.
Qed.

Lemma py_int_tenth (z : Z) :
  (0 <= z)%Z -> py_int ((1 # 10) * inject_Z z) = (z / 10)%Z.
Proof.
  intro Hz. unfold py_int.
  assert (E : Qltb ((1 # 10) * inject_Z z) 0 = false).
  { apply Qltb_ge. unfold Qle, Qmult, inject_Z. cbn [Qnum Qden]. lia. }
  rewrite E. unfold Qmult, inject_Z, Qfloor. cbn [Qnum Qden].
  rewrite Z.mul_1_l. reflexivity.
Qed.

Lemma py_int_double (z : Z) : py_int (inject_Z z * 2) = (z * 2)%Z.
Proof.
  unfold py_int. destruct (Qltb (inject_Z z * 2) 0).
  - unfold Qceiling, Qfloor, Qopp, Qmult, inject_Z. cbn [Qnum Qden].
    rewrite Z.div_1_r. lia.
  - unfold Qfloor, Qmult, inject_Z. cbn [Qnum Qden].
    rewrite Z.div_1_r. reflexivity.
Qed.

Lemma try_presets_Forall (P : box -> Prop) (results : list (exc (list box)))
  (faces : list box) :
  Forall (fun result => match result with
                        | Some fs => Forall P fs
                        | None => True
                        end) results ->
  try_presets results = Some faces -> Forall P faces.
Proof.
  induction 1 as [| result rest Hr _ IH]; simpl.
  - intro H. injection H as H. subst. constructor.
  - destruct result as [current |]; simpl; [| discriminate].
    destruct (nonempty current); [| exact IH].
    intro H. injection H as H. subst. exact Hr.
Qed.

Lemma try_cascades_Forall (P : box -> Prop)
  (cascades : list (list (exc (list box)))) (faces : list box) :
  Forall (Forall (fun result => match result with
                                | Some fs => Forall P fs
                                | None => True
                                end)) cascades ->
  try_cascades cascades = Some faces -> Forall P faces.
Proof.
  induction 1 as [| presets rest Hp _ IH]; simpl.
  - intro H. injection H as H. subst. constructor.
  - destruct (try_presets presets) as [fs |] eqn:E; simpl; [| discriminate].
    destruct (nonempty fs); [| exact IH].
    intro H. injection H as H. subst.
    eapply try_presets_Forall; eassumption.
Qed.

(** The nested loops are one search over the calls in order. *)
Lemma try_cascades_concat (cascades : list (list (exc (list box)))) :
  try_cascades cascades = try_presets (concat cascades).
Proof.
  induction cascades as [| presets rest IH]; simpl; [reflexivity |].
  induction presets as [| result presets IHp]; simpl; [exact IH |].
  destruct result as [current |]; simpl; [| reflexivity].
  destruct (nonempty current) eqn:E; [cbn [bind]; rewrite E; reflexivity | exact IHp].
Qed.

Lemma map_back_inside (w0 h0 : Z) (b : box) :
  box_inside (w0 * 2) (h0 * 2) b -> box_inside w0 h0 (map_back b).
Proof.
  destruct b as [[[x y] w] h]. unfold box_inside, map_back.
  cbn [box_x box_y box_w box_h].
  intros (Hx & Hw & Hxw & Hy & Hh & Hyh).
  rewrite !py_int_half by assumption.
  repeat split; Z.div_mod_to_equations; lia.
Qed.

Lemma frame_faces_inside (h0 w0 : Z) (cascades : list (list (exc (list box)))) :
  detections_inside h0 w0 cascades ->
  Forall (box_inside w0 h0) (frame_faces h0 w0 cascades).
Proof.
  intro Hdet. unfold frame_faces.
  destruct (try_cascades cascades) as [faces |] eqn:E; [| constructor].
  pose proof (try_cascades_Forall _ _ _ Hdet E) as Hin.
  unfold scanned_w, scanned_h in Hin.
  destruct (Z.max w0 h0 <? 500)%Z; cbn [andb]; [| exact Hin].
  rewrite !py_int_double in Hin.
  destruct faces as [| face faces]; [constructor |]. cbn [nonempty].
  apply Forall_map. eapply Forall_impl; [| exact Hin].
  intros b Hb. apply map_back_inside. exact Hb.
Qed.

Lemma pad_face_inside (h0 w0 : Z) (b : box) :
  box_inside w0 h0 b ->
  box_inside w0 h0 (pad_face h0 w0 b) /\ box_covers (pad_face h0 w0 b) b.
Proof.
  destruct b as [[[x y] w] h]. unfold box_inside, box_covers, pad_face.
  cbn [box_x box_y box_w box_h].
  intros (Hx & Hw & Hxw & Hy & Hh & Hyh).
  rewrite py_int_tenth by assumption.
  cbv zeta. cbn [box_x box_y box_w box_h].
  assert (Hp : (0 <= w / 10)%Z) by (Z.div_mod_to_equations; lia).
  set (p := (w / 10)%Z) in *.
  repeat split; lia.
Qed.

Lemma detect_emotion_faces (classify_region : box -> string * Q)
  (h0 w0 : Z) (cascades : list (list (exc (list box)))) :
  detect_emotion classify_region (Some (h0, w0)) cascades
  = if (h0 * w0 * 3 =? 0)%Z then []
    else map (fun face =>
                {| emotion := Some (fst (classify_region (pad_face h0 w0 face)));
                   confidence :=
                     Some (snd (classify_region (pad_face h0 w0 face)));
                   bbox := Some (pad_face h0 w0 face) |})
             (frame_faces h0 w0 cascades).
Proof.
  unfold detect_emotion, frame_faces.
  destruct (h0 * w0 * 3 =? 0)%Z; [reflexivity |].
  destruct (try_cascades cascades) as [faces |]; [| reflexivity].
  cbv zeta. apply map_ext. intro face.
  destruct (classify_region (pad_face h0 w0 face)); reflexivity.
Qed.

(** X17.  When the cascades return boxes inside the image they scan, every
    face record returned by [detect_emotion] carries a label, a
    confidence and a box; the box lies inside the frame and covers the
    detection it was padded from. *)
Theorem detected_faces_inside_frame
  (classify_region : box -> string * Q) (h0 w0 : Z)
  (cascades : list (list (exc (list box))))
  (Hdet : detections_inside h0 w0 cascades) :
  let emotions_data := detect_emotion classify_region (Some (h0, w0)) cascades in
  Forall (fun d => exists e c b,
                     emotion d = Some e /\ confidence d = Some c
                     /\ bbox d = Some b /\ box_inside w0 h0 b)
         emotions_data
  /\ (emotions_data = [] \/
      Forall2 (fun face d => exists b, bbox d = Some b /\ box_covers b face)
              (frame_faces h0 w0 cascades) emotions_data).
Proof.
  cbv zeta. rewrite detect_emotion_faces.
  pose proof (frame_faces_inside h0 w0 cascades Hdet) as Hin.
  destruct (h0 * w0 * 3 =? 0)%Z; [split; [constructor | left; reflexivity] |].
  split.
  - apply Forall_map. eapply Forall_impl; [| exact Hin].
    intros face Hface. cbn [emotion confidence bbox].
    eexists _, _, _.
    split; [reflexivity |]. split; [reflexivity |]. split; [reflexivity |].
    apply pad_face_inside. exact Hface.
  - right. induction Hin as [| face faces Hface _ IH]; simpl; constructor.
    + eexists. split; [reflexivity |]. apply pad_face_inside. exact Hface.
    + exact IH.
Qed.

Lemma detected_faces_inside_frame_witness :
  let emotions_data :=
    detect_emotion (fun _ => ("Neutral"%string, 13 # 20)) (Some (480, 640)%Z)
      [[Some []; Some [(500, 100, 140, 140)%Z]]] in
  Forall (fun d => exists e c b,
                     emotion d = Some e /\ confidence d = Some c
                     /\ bbox d = Some b /\ box_inside 640 480 b)
         emotions_data
  /\ (emotions_data = [] \/
      Forall2 (fun face d => exists b, bbox d = Some b /\ box_covers b face)
              (frame_faces 480 640 [[Some []; Some [(500, 100, 140, 140)%Z]]])
              emotions_data).
Proof.
  apply (detected_faces_inside_frame
           (fun _ => ("Neutral"%string, 13 # 20)) 480 640
           [[Some []; Some [(500, 100, 140, 140)%Z]]]).
  unfold detections_inside.
  apply Forall_cons; [| apply Forall_nil].
  apply Forall_cons; [apply Forall_nil |].
  apply Forall_cons; [| apply Forall_nil].
  apply Forall_cons; [| apply Forall_nil].
  unfold box_inside. vm_compute. repeat split; discriminate.
Defined.

(** The padded box of the witness is cut at the right edge of the frame. *)
Example padded_box_cut_at_frame_edge :
  map bbox
    (detect_emotion (fun _ => ("Neutral"%string, 13 # 20)) (Some (480, 640)%Z)
       [[Some []; Some [(500, 100, 140, 140)%Z]]])
  = [Some (486, 86, 154, 168)%Z].
Proof. vm_compute. reflexivity. Qed.

(** ** From [detect_emotion] to [detect_emotion_and_attention] *)

Lemma face_roi_shape (frame : frame_input) (first : emotion_record) (b : box) :
  bbox first = Some b ->
  box_inside (gray_w frame) (gray_h frame) b ->
  face_roi_h frame first = box_h b /\ face_roi_w frame first = box_w b.
Proof.
  intros Hb (Hx & Hw & Hxw & Hy & Hh & Hyh).
  unfold face_roi_h, face_roi_w, face_box. rewrite Hb. cbn [get].
  split; apply slice_len_inside; assumption.
Qed.

Lemma frame_faces_square (h0 w0 : Z) (cascades : list (list (exc (list box)))) :
  detections_square cascades ->
  Forall (fun b => box_w b = box_h b /\ (7 <= box_w b)%Z)
         (frame_faces h0 w0 cascades).
Proof.
  intro Hsq. unfold frame_faces.
  destruct (try_cascades cascades) as [faces |] eqn:E; [| constructor].
  pose proof (try_cascades_Forall _ _ _ Hsq E) as Hin.
  destruct ((Z.max w0 h0 <? 500)%Z && nonempty faces).
  - apply Forall_map. eapply Forall_impl; [| exact Hin].
    intros [[[x y] w] h]. unfold map_back. cbn [box_w box_h].
    intros [Heq Hw]. subst h. rewrite !py_int_half by lia.
    split; [reflexivity | Z.div_mod_to_equations; lia].
  - eapply Forall_impl; [| exact Hin]. intros b [Heq Hw]. split; [exact Heq | lia].
Qed.

Lemma pad_face_shape (h0 w0 : Z) (b : box) :
  box_inside w0 h0 b -> box_w b = box_h b -> (7 <= box_w b)%Z ->
  (0 < box_w (pad_face h0 w0 b))%Z
  /\ (2 * box_h (pad_face h0 w0 b) + 4 <= 3 * box_w (pad_face h0 w0 b))%Z.
Proof.
  destruct b as [[[x y] w] h]. unfold box_inside, pad_face.
  cbn [box_x box_y box_w box_h].
  intros (Hx & Hw & Hxw & Hy & Hh & Hyh) Heq H7. subst h.
  rewrite py_int_tenth by assumption.
  cbv zeta. cbn [box_x box_y box_w box_h].
  assert (Hp : (0 <= w / 10 /\ 10 * (w / 10) <= w)%Z)
    by (Z.div_mod_to_equations; lia).
  set (p := (w / 10)%Z) in *.
  split; lia.
Qed.

Lemma detect_emotion_first_face (classify_region : box -> string * Q)
  (h0 w0 : Z) (cascades : list (list (exc (list box))))
  (first : emotion_record) (rest : list emotion_record) :
  detect_emotion classify_region (Some (h0, w0)) cascades = first :: rest ->
  exists face faces,
    frame_faces h0 w0 cascades = face :: faces
    /\ emotion first = Some (fst (classify_region (pad_face h0 w0 face)))
    /\ bbox first = Some (pad_face h0 w0 face).
Proof.
  rewrite detect_emotion_faces.
  destruct (h0 * w0 * 3 =? 0)%Z; [discriminate |].
  destruct (frame_faces h0 w0 cascades) as [| face faces]; [discriminate |].
  intro H. injection H as H _. subst first.
  exists face, faces. repeat split.
Qed.

(** X18.  Feeding [detect_emotion_and_attention] with the faces found by
    [detect_emotion] on the same frame, the region cut out for the first
    face has exactly the height and width of its box: the box lies inside
    the frame, so the slice clips nothing. *)
Theorem face_region_has_box_shape
  (classify_region : box -> string * Q) (h0 w0 : Z)
  (cascades : list (list (exc (list box))))
  (strict lenient : exc (list box)) (stats : exc (Q * Q * Q))
  (first : emotion_record) (rest : list emotion_record) (b : box)
  (Hdet : detections_inside h0 w0 cascades)
  (Hfirst : detect_emotion classify_region (Some (h0, w0)) cascades
            = first :: rest)
  (Hbox : bbox first = Some b) :
  let frame :=
    {| emotions := detect_emotion classify_region (Some (h0, w0)) cascades;
       gray_h := h0; gray_w := w0;
       eyes_strict := strict; eyes_lenient := lenient; roi_stats := stats |} in
  face_roi_h frame first = box_h b /\ face_roi_w frame first = box_w b.
Proof.
  cbv zeta.
  destruct (detect_emotion_first_face _ _ _ _ _ _ Hfirst)
    as (face & faces & Hfaces & _ & Hb).
  rewrite Hbox in Hb. injection Hb as Hb. subst b.
  apply face_roi_shape; [exact Hbox |]. cbn [gray_w gray_h].
  pose proof (frame_faces_inside h0 w0 cascades Hdet) as Hin.
  rewrite Hfaces in Hin. apply Forall_inv in Hin.
  apply pad_face_inside. exact Hin.
Qed.

Lemma face_region_has_box_shape_witness :
  let first :=
    {| emotion := Some "Neutral"%string; confidence := Some (13 # 20);
       bbox := Some (486, 86, 154, 168)%Z |} in
  let frame :=
    {| emotions :=
         detect_emotion (fun _ => ("Neutral"%string, 13 # 20))
           (Some (480, 640)%Z) [[Some []; Some [(500, 100, 140, 140)%Z]]];
       gray_h := 480; gray_w := 640;
       eyes_strict := Some []; eyes_lenient := None; roi_stats := None |} in
  face_roi_h frame first = box_h (486, 86, 154, 168)%Z
  /\ face_roi_w frame first = box_w (486, 86, 154, 168)%Z.
Proof.
  apply (face_region_has_box_shape
           (fun _ => ("Neutral"%string, 13 # 20)) 480 640
           [[Some []; Some [(500, 100, 140, 140)%Z]]]
           (Some []) None None
           {| emotion := Some "Neutral"%string; confidence := Some (13 # 20);
              bbox := Some (486, 86, 154, 168)%Z |} []
           (486, 86, 154, 168)%Z).
  - unfold detections_inside.
    apply Forall_cons; [| apply Forall_nil].
    apply Forall_cons; [apply Forall_nil |].
    apply Forall_cons; [| apply Forall_nil].
    apply Forall_cons; [| apply Forall_nil].
    unfold box_inside. vm_compute. repeat split; discriminate.
  - vm_compute. reflexivity.
  - reflexivity.
Defined.

(** X19.  When the cascades return squares of side 14 at least, inside the
    image they scan, [detect_emotion_and_attention] fed with the faces of
    [detect_emotion] never reports a yawn and never answers
    "Drowsy / Fatigued", whatever the frames show. *)
Theorem yawn_never_detected_on_cascade_faces
  (classify_region : box -> string * Q) (atan2_degrees : Z -> Z -> Q)
  (h0 w0 : Z) (cascades : list (list (exc (list box))))
  (strict lenient : exc (list box)) (stats : exc (Q * Q * Q)) (st : detector)
  (Hdet : detections_inside h0 w0 cascades)
  (Hsq : detections_square cascades) :
  let frame :=
    {| emotions := detect_emotion classify_region (Some (h0, w0)) cascades;
       gray_h := h0; gray_w := w0;
       eyes_strict := strict; eyes_lenient := lenient; roi_stats := stats |} in
  let att := snd (fst (detect_emotion_and_attention atan2_degrees frame st)) in
  yawn_detected att = false /\ status att <> "Drowsy / Fatigued"%string.
Proof.
  cbv zeta.
  pose proof (frame_faces_inside h0 w0 cascades Hdet) as Hin.
  pose proof (frame_faces_square h0 w0 cascades Hsq) as Hsquare.
  set (frame := {| emotions := _ |}).
  destruct (emotions frame) as [| first rest] eqn:Hfirst.
  - unfold detect_emotion_and_attention. rewrite Hfirst.
    split; [reflexivity | discriminate].
  - destruct (detect_emotion_first_face _ _ _ _ _ _ Hfirst)
      as (face & faces & Hfaces & Hlabel & Hbox).
    rewrite Hfaces in Hin, Hsquare.
    apply Forall_inv in Hin. apply Forall_inv in Hsquare as [Heq H7].
    destruct (pad_face_inside h0 w0 face Hin) as [Hpad _].
    destruct (pad_face_shape h0 w0 face Hin Heq H7) as [Hpos Hshape].
    rewrite (detect_emotion_and_attention_face atan2_degrees frame st first
               rest _ Hfirst Hlabel).
    cbn [fst snd yawn_detected status].
    destruct (face_roi_shape frame first (pad_face h0 w0 face) Hbox Hpad)
      as [Hrh Hrw].
    rewrite Hrh, Hrw.
    rewrite detect_yawn_flag_wide_face;
      [| exact Hpos | apply Hpad | exact Hshape].
    split; [reflexivity | apply status_without_yawn_not_drowsy].
Qed.

Lemma yawn_never_detected_on_cascade_faces_witness :
  let frame :=
    {| emotions :=
         detect_emotion (fun _ => ("Neutral"%string, 13 # 20))
           (Some (480, 640)%Z) [[Some []; Some [(500, 100, 140, 140)%Z]]];
       gray_h := 480; gray_w := 640;
       eyes_strict := Some []; eyes_lenient := None; roi_stats := None |} in
  let att := snd (fst (detect_emotion_and_attention (fun _ _ => 0) frame init)) in
  yawn_detected att = false /\ status att <> "Drowsy / Fatigued"%string.
Proof.
  apply (yawn_never_detected_on_cascade_faces
           (fun _ => ("Neutral"%string, 13 # 20)) (fun _ _ => 0) 480 640
           [[Some []; Some [(500, 100, 140, 140)%Z]]]
           (Some []) None None init).
  - unfold detections_inside.
    apply Forall_cons; [| apply Forall_nil].
    apply Forall_cons; [apply Forall_nil |].
    apply Forall_cons; [| apply Forall_nil].
    apply Forall_cons; [| apply Forall_nil].
    unfold box_inside. vm_compute. repeat split; discriminate.
  - unfold detections_square.
    apply Forall_cons; [| apply Forall_nil].
    apply Forall_cons; [apply Forall_nil |].
    apply Forall_cons; [| apply Forall_nil].
    apply Forall_cons; [| apply Forall_nil].
    vm_compute. split; [reflexivity | discriminate].
Defined.

(** ** The label and confidence of [simple_emotion_detection] *)

Lemma max_by_score_spec (best : string * Q) (items : list (string * Q)) :
  In (max_by_score best items) (best :: items)
  /\ forall item, In item (best :: items) ->
                  snd item <= snd (max_by_score best items).
Proof.
  revert best. induction items as [| item rest IH]; intro best; simpl.
  - split; [left; reflexivity |].
    intros it [H | []]. subst. apply Qle_refl.
  - destruct (Qgtb (snd item) (snd best)) eqn:E.
    + apply Qgtb_gt in E. destruct (IH item) as [Hin Hmax]. split.
      * destruct Hin as [H | H]; [right; left; exact H | right; right; exact H].
      * intros it [H | [H | H]].
        -- subst it. eapply Qle_trans; [apply Qlt_le_weak, E |].
           apply Hmax. left. reflexivity.
        -- apply Hmax. left. exact H.
        -- apply Hmax. right. exact H.
    + apply Qgtb_le in E. destruct (IH best) as [Hin Hmax]. split.
      * destruct Hin as [H | H]; [left; exact H | right; right; exact H].
      * intros it [H | [H | H]].
        -- apply Hmax. left. exact H.
        -- subst it. eapply Qle_trans; [exact E |].
           apply Hmax. left. reflexivity.
        -- apply Hmax. right. exact H.
Qed.

Lemma insert_desc_perm (x : Q) (l : list Q) :
  Permutation (x :: l) (insert_desc x l).
Proof.
  induction l as [| y l IH]; simpl; [reflexivity |].
  destruct (Qle_bool y x); [reflexivity |].
  rewrite perm_swap. apply perm_skip. exact IH.
Qed.

Lemma sorted_desc_perm (l : list Q) : Permutation l (sorted_desc l).
Proof.
  unfold sorted_desc. induction l as [| x l IH]; simpl; [constructor |].
  rewrite <- insert_desc_perm. apply perm_skip. exact IH.
Qed.

Lemma insert_desc_sorted (x : Q) (l : list Q) :
  StronglySorted (fun a b => b <= a) l ->
  StronglySorted (fun a b => b <= a) (insert_desc x l).
Proof.
  induction 1 as [| y l Hs IH Hall]; simpl.
  - constructor; constructor.
  - destruct (Qle_bool y x) eqn:E.
    + apply Qle_bool_iff in E.
      constructor; [constructor; assumption |].
      constructor; [exact E |].
      eapply Forall_impl; [| exact Hall]. intros a Ha. simpl in Ha.
      eapply Qle_trans; eassumption.
    + assert (Hxy : x <= y).
      { destruct (Qlt_le_dec x y) as [H | H]; [apply Qlt_le_weak, H |].
        apply Qle_bool_iff in H. congruence. }
      constructor; [exact IH |].
      apply (Permutation_Forall (insert_desc_perm x l)).
      constructor; assumption.
Qed.

Lemma sorted_desc_sorted (l : list Q) :
  StronglySorted (fun a b => b <= a) (sorted_desc l).
Proof.
  unfold sorted_desc. induction l as [| x l IH]; simpl; [constructor |].
  apply insert_desc_sorted. exact IH.
Qed.

(** Two entries with different labels occupy two places of the table. *)
Lemma two_entries_perm (l : list (string * Q)) (e e' : string) (s s' : Q) :
  In (e, s) l -> In (e', s') l -> e <> e' ->
  exists others, Permutation (map snd l) (s :: s' :: others).
Proof.
  intros Hin Hin' Hne.
  assert (H : exists rest, Permutation l ((e, s) :: (e', s') :: rest)).
  { apply in_split in Hin as (l1 & l2 & Hl). subst l.
    apply in_app_or in Hin' as [H | [H | H]].
    - apply in_split in H as (l3 & l4 & Hl). subst l1.
      exists (l3 ++ l4 ++ l2).
      rewrite <- Permutation_middle. apply perm_skip.
      rewrite <- app_assoc. simpl. rewrite <- Permutation_middle.
      reflexivity.
    - injection H as H1 H2. contradiction.
    - apply in_split in H as (l3 & l4 & Hl). subst l2.
      exists (l1 ++ l3 ++ l4).
      rewrite <- Permutation_middle. apply perm_skip.
      rewrite app_assoc, <- Permutation_middle, <- app_assoc.
      reflexivity. }
  destruct H as [rest H]. exists (map snd rest).
  apply (Permutation_map snd) in H. exact H.
Qed.

Lemma emotion_scores_length (f : face_features) :
  length (emotion_scores f) = 7%nat.
Proof. reflexivity. Qed.

Lemma emotion_scores_labels (f : face_features) :
  map fst (emotion_scores f) = score_table_labels.
Proof. reflexivity. Qed.

(** X20.  For a face whose measurements succeed, [simple_emotion_detection]
    returns either the fallback ("Neutral", 0.65) or a label of the score
    table whose score is at least 0.18 and exceeds the score of every
    other label by at least 0.05, with a confidence between 0.6 and
    0.9. *)
Theorem emotion_label_is_clear_winner (f : face_features) :
  let '(e, c) := simple_emotion_detection (Some (Some f)) in
  (e = "Neutral"%string /\ c = 13 # 20)
  \/ (In e score_table_labels
      /\ 3 # 5 <= c <= 9 # 10
      /\ exists s,
           In (e, s) (emotion_scores f)
           /\ 9 # 50 <= s
           /\ forall e' s', In (e', s') (emotion_scores f) -> e' <> e ->
                            s' + (1 # 20) <= s).
Proof.
  unfold simple_emotion_detection.
  pose proof (emotion_scores_length f) as Hlen.
  pose proof (emotion_scores_labels f) as Hlabels.
  destruct (emotion_scores f) as [| first others] eqn:Escores;
    [discriminate |].
  destruct (max_by_score_spec first others) as [Hin Hmax].
  destruct (max_by_score first others) as [emotion score]. cbn [snd] in Hmax.
  pose proof (sorted_desc_perm (map snd (first :: others))) as Hperm.
  pose proof (sorted_desc_sorted (map snd (first :: others))) as Hsorted.
  assert (Hslen : length (sorted_desc (map snd (first :: others))) = 7%nat).
  { rewrite <- (Permutation_length Hperm), length_map. exact Hlen. }
  destruct (sorted_desc (map snd (first :: others)))
    as [| top [| second rest]]; try discriminate.
  cbv zeta. cbn [nth length].
  replace (1 <? S (S (length rest)))%nat with true by reflexivity.
  cbn [andb].
  destruct (Qltb score (9 # 50)) eqn:Escore; cbn [orb];
    [left; split; reflexivity |].
  destruct (Qltb (top - second) (1 # 20)) eqn:Egap;
    [left; split; reflexivity |].
  right.
  apply Qltb_ge in Escore. apply Qltb_ge in Egap.
  (* the sorted values: [top] bounds all, [second] bounds the rest *)
  inversion Hsorted as [| ? ? Hsorted' Htop]; subst.
  inversion Hsorted' as [| ? ? _ Hsecond]; subst.
  assert (Hbelow : forall v, In v (second :: rest) -> v <= second).
  { intros v [H | H]; [subst; apply Qle_refl |].
    rewrite Forall_forall in Hsecond. apply Hsecond. exact H. }
  assert (Hscore_top : score <= top).
  { assert (H : In score (top :: second :: rest)).
    { apply (Permutation_in _ Hperm).
      apply (in_map snd) in Hin. exact Hin. }
    destruct H as [H | H]; [subst; apply Qle_refl |].
    rewrite Forall_forall in Htop. apply Htop. exact H. }
  assert (Htop_score : top <= score).
  { assert (H : In top (map snd (first :: others))).
    { apply (Permutation_in _ (Permutation_sym Hperm)). left. reflexivity. }
    apply in_map_iff in H as (item & Hsnd & Hitem).
    rewrite <- Hsnd. apply Hmax. exact Hitem. }
  split; [| split].
  - rewrite <- Hlabels. apply (in_map fst) in Hin. exact Hin.
  - assert (Hpos : Qgtb top 0 = true) by (apply Qgtb_gt; lra).
    rewrite Hpos.
    destruct (py_min_cases ((top - second) * 2) (1 # 2)) as [E | E];
      rewrite E;
      [ pose proof (proj2 (py_min_glb ((top - second) * 2) (1 # 2))) as Hle;
        rewrite E in Hle | ];
      match goal with
      | |- _ <= py_min _ (py_max _ ?c) <= _ =>
          destruct (py_max_cases (1 # 2) c) as [E1 | E1]; rewrite E1;
          pose proof (proj2 (py_max_lub (1 # 2) c)) as Hge; rewrite E1 in Hge;
          match goal with
          | |- _ <= py_min _ ?d <= _ =>
              destruct (py_min_cases (9 # 10) d) as [E2 | E2]; rewrite E2;
              pose proof (proj1 (py_min_glb (9 # 10) d)) as Hle9;
              rewrite E2 in Hle9
          end
      end; split; lra.
  - exists score. split; [exact Hin |]. split; [exact Escore |].
    intros e' s' Hin' Hne.
    destruct (two_entries_perm (first :: others) emotion e' score s' Hin Hin')
      as [rest' Hp]; [congruence |].
    assert (Hp' : Permutation (score :: s' :: rest') (top :: second :: rest)).
    { etransitivity; [symmetry; exact Hp | exact Hperm]. }
    assert (Hs' : In s' (top :: second :: rest)).
    { apply (Permutation_in _ Hp'). right. left. reflexivity. }
    destruct Hs' as [Heq | Hs'].
    + (* [s'] sits at the top: then [score] is among the others *)
      subst s'.
      assert (Hp'' : Permutation (score :: rest') (second :: rest)).
      { apply (Permutation_cons_inv (a := top)).
        etransitivity; [apply perm_swap | exact Hp']. }
      assert (Hsc : In score (second :: rest)).
      { apply (Permutation_in _ Hp''). left. reflexivity. }
      apply Hbelow in Hsc. lra.
    + apply Hbelow in Hs'. lra.
Qed.

(** A bright mouth on an even, symmetric face is read as "Happy". *)
Example happy_face_detected :
  simple_emotion_detection
    (Some (Some {| mean_intensity := 100; std_intensity := 20;
                   edge_density := 1 # 20; eye_mean := 100;
                   mouth_mean := 151; forehead_mean := 100;
                   symmetry_score := 9 # 10 |}))
  = ("Happy"%string, 9 # 10).
Proof. vm_compute. reflexivity. Qed.

(** * Further properties of the detector, continued *)

(** ** The blink rate of an arbitrary history *)

Lemma sumZ_flags_range (l : list Z) :
  Forall (fun flag => flag = 0%Z \/ flag = 1%Z) l ->
  (0 <= sumZ l <= Z.of_nat (length l))%Z.
Proof.
  induction 1 as [| x l Hx Hl IH]; simpl sumZ; simpl length; [lia |].
  destruct Hx; subst; lia.
Qed.

(** X21.  For a blink history made of flags 0 and 1,
    [calculate_blink_rate] is 0 while fewer than 10 flags are recorded and
    is otherwise the sum of the last 30 flags over 30, a value between 0
    and 1. *)
Theorem blink_rate_range (st : detector)
  (Hflags : Forall (fun flag => flag = 0%Z \/ flag = 1%Z) (blink_history st)) :
  0 <= calculate_blink_rate st <= 1
  /\ ((length (blink_history st) < 10)%nat -> calculate_blink_rate st = 0)
  /\ ((10 <= length (blink_history st))%nat ->
      calculate_blink_rate st
      = inject_Z (sumZ (last_n 30 (blink_history st))) / 30).
Proof.
  unfold calculate_blink_rate.
  destruct (Nat.ltb_spec (length (blink_history st)) 10) as [Hlt | Hge].
  - split; [split; discriminate |]. split; [reflexivity | lia].
  - split; [| split; [lia | reflexivity]].
    pose proof (sumZ_flags_range _ (Forall_last_n _ 30 _ Hflags)) as [H0 H1].
    rewrite last_n_length in H1.
    set (k := sumZ (last_n 30 (blink_history st))) in *.
    split.
    + apply Qle_shift_div_l; [reflexivity |]. unfold Qle. simpl. lia.
    + apply Qle_shift_div_r; [reflexivity |]. unfold Qle. simpl. lia.
Qed.

Lemma blink_rate_range_witness :
  let st := set_blink_history init [0; 1; 0; 0; 1; 0; 0; 0; 0; 1; 0; 0]%Z in
  0 <= calculate_blink_rate st <= 1
  /\ ((length (blink_history st) < 10)%nat -> calculate_blink_rate st = 0)
  /\ ((10 <= length (blink_history st))%nat ->
      calculate_blink_rate st
      = inject_Z (sumZ (last_n 30 (blink_history st))) / 30).
Proof.
  apply (blink_rate_range
           (set_blink_history init [0; 1; 0; 0; 1; 0; 0; 0; 0; 1; 0; 0]%Z)).
  simpl. repeat (apply Forall_cons; [auto |]). apply Forall_nil.
Defined.

(** ** An eye that is not located *)

Lemma status_with_closed_eye (attention_score : Q) (eyes : eyes_data)
  (hp : head_pose) (yawn : bool) :
  left_open eyes = Some false \/ right_open eyes = Some false ->
  determine_attention_status attention_score eyes hp yawn
  <> "Attentive"%string
  /\ determine_attention_status attention_score eyes hp yawn
     <> "Partially Attentive"%string.
Proof.
  intro Hclosed.
  unfold determine_attention_status, attention_status_body, key.
  destruct (left_open eyes) as [lo |]; cbn [bind]; [| split; discriminate].
  destruct (right_open eyes) as [ro |].
  - assert (Hone : lo = false \/ ro = false).
    { destruct Hclosed as [H | H]; injection H as H; auto. }
    destruct lo, ro; cbn [negb bind];
      [destruct Hone; discriminate | | | split; discriminate].
    (* exactly one eye closed *)
    all: destruct (eyes_detected eyes) as [n |]; cbn [bind];
      [| split; discriminate].
    all: destruct ((n <? 2)%Z && _); [split; discriminate |].
    all: destruct yawn; [split; discriminate |].
    all: destruct (yaw hp) as [y |]; cbn [bind]; [| split; discriminate].
    all: destruct (pitch hp) as [p |]; cbn [bind]; [| split; discriminate].
    all: destruct (_ || _); [split; discriminate |].
    all: cbn [andb].
    all: destruct (Qgtb attention_score 30) eqn:E30;
      [vm_compute; split; discriminate |].
    all: apply Qgtb_le in E30.
    all: destruct (Qle_bool 75 attention_score) eqn:E75;
      [apply Qle_bool_iff in E75; lra |].
    all: destruct (Qle_bool 50 attention_score) eqn:E50;
      [apply Qle_bool_iff in E50; lra |].
    all: destruct (Qle_bool 30 attention_score); split; discriminate.
  - destruct Hclosed as [H | H]; [| discriminate].
    injection H as H. subst lo. cbn. split; discriminate.
Qed.

Lemma eyes_from_detections_unlocated (w : Z) (eyes : list box) :
  (left_eye (eyes_from_detections w eyes) = Some None ->
   left_open (eyes_from_detections w eyes) = Some false)
  /\ (right_eye (eyes_from_detections w eyes) = Some None ->
      right_open (eyes_from_detections w eyes) = Some false).
Proof.
  unfold eyes_from_detections, assign_eyes.
  destruct eyes as [| e1 [| e2 rest]].
  - split; reflexivity.
  - destruct (Qltb _ _); cbv zeta; cbn [left_eye right_eye left_open right_open];
      split; intro H; try discriminate;
      repeat match goal with
             | |- context [if ?c then _ else _] => destruct c
             end; reflexivity.
  - destruct (sorted_by_x (e1 :: e2 :: rest)) as [| l [| r others]];
      cbv zeta; cbn [left_eye right_eye left_open right_open];
      split; intro H; try discriminate; reflexivity.
Qed.

(** X22.  [detect_eyes_detailed] never reports as open an eye that it did
    not locate; hence, whenever one of the two eyes is not located, the
    status is neither "Attentive" nor "Partially Attentive", whatever the
    score. *)
Theorem unlocated_eye_is_closed (w : Z) (strict lenient : exc (list box))
  (attention_score : Q) (hp : head_pose) (yawn : bool) :
  let eyes := detect_eyes_detailed w strict lenient in
  (left_eye eyes = Some None -> left_open eyes = Some false)
  /\ (right_eye eyes = Some None -> right_open eyes = Some false)
  /\ (left_eye eyes = Some None \/ right_eye eyes = Some None ->
      determine_attention_status attention_score eyes hp yawn
      <> "Attentive"%string
      /\ determine_attention_status attention_score eyes hp yawn
         <> "Partially Attentive"%string).
Proof.
  cbv zeta.
  assert (H : (left_eye (detect_eyes_detailed w strict lenient) = Some None ->
               left_open (detect_eyes_detailed w strict lenient) = Some false)
              /\ (right_eye (detect_eyes_detailed w strict lenient) = Some None ->
                  right_open (detect_eyes_detailed w strict lenient)
                  = Some false)).
  { unfold detect_eyes_detailed.
    destruct strict as [eyes |]; cbn [bind]; [| split; reflexivity].
    destruct (length eyes <? 2)%nat; cbn [bind];
      [| apply eyes_from_detections_unlocated].
    destruct lenient as [eyes' |]; cbn [bind];
      [apply eyes_from_detections_unlocated | split; reflexivity]. }
  destruct H as [Hl Hr].
  split; [exact Hl |]. split; [exact Hr |].
  intros [H | H]; apply status_with_closed_eye; [left; auto | right; auto].
Qed.

(** One eye found in the left half of the face, wide open (ratio 0.4):
    the right eye is reported closed and the frame cannot be rated
    "Attentive". *)
Example single_open_eye_is_not_attentive :
  let eyes := detect_eyes_detailed 200 (Some [(30, 50, 50, 40)%Z])
                                   (Some [(30, 50, 50, 40)%Z]) in
  left_open eyes = Some true
  /\ right_open eyes = Some false
  /\ determine_attention_status 100 eyes zero_pose false
     = "Inattentive"%string.
Proof. vm_compute. repeat split; reflexivity. Qed.

(** ** Absent keys *)

(** X23.  When a key that the scorer reads is absent (an eye flag, the
    gaze direction, the yaw, the pitch, or the label of the first face),
    [calculate_attention_score] returns exactly 50, whatever the other
    signals are. *)
Theorem missing_key_scores_fifty
  (emotions_data : list emotion_record) (eyes : eyes_data) (hp : head_pose)
  (rate : Q) (yawn : bool)
  (Hmissing : score_key_missing emotions_data eyes hp) :
  calculate_attention_score emotions_data eyes hp rate yawn = 50.
Proof.
  unfold calculate_attention_score.
  assert (H : attention_score_body emotions_data eyes hp rate yawn = None);
    [| rewrite H; reflexivity].
  unfold attention_score_body. cbv zeta.
  destruct (eye_step eyes _) as [b1 |] eqn:E1; cbn [bind]; [| reflexivity].
  destruct (gaze_step eyes b1) as [b2 |] eqn:E2; cbn [bind]; [| reflexivity].
  destruct (head_pose_step hp b2) as [b3 |] eqn:E3; cbn [bind];
    [| reflexivity].
  destruct (emotion_step emotions_data _) as [b4 |] eqn:E4; cbn [bind];
    [| reflexivity].
  exfalso.
  destruct Hmissing as [H | [H | [H | [H | [H | H]]]]].
  - unfold eye_step, key in E1. rewrite H in E1. discriminate.
  - unfold eye_step, key in E1. rewrite H in E1.
    destruct (left_open eyes) as [[|] |]; cbn in E1; discriminate.
  - unfold gaze_step, key in E2. rewrite H in E2. discriminate.
  - unfold head_pose_step, key in E3. rewrite H in E3. discriminate.
  - unfold head_pose_step, key in E3. rewrite H in E3.
    destruct (yaw hp); discriminate.
  - destruct H as (first & rest & Hem & Hlabel). subst emotions_data.
    unfold emotion_step, key in E4. rewrite Hlabel in E4. discriminate.
Qed.

Lemma missing_key_scores_fifty_witness :
  calculate_attention_score
    [{| emotion := Some "Happy"%string; confidence := None; bbox := None |}]
    {| left_eye := Some None; right_eye := Some None;
       left_ear := Some (7 # 20); right_ear := Some (7 # 20);
       left_open := Some true; right_open := Some true;
       avg_ear := Some (7 # 20); gaze_direction := None;
       eyes_detected := Some 2%Z |}
    zero_pose 0 false = 50.
Proof.
  apply missing_key_scores_fifty.
  right. right. left. reflexivity.
Defined.

(** * Closed eyes in the pipeline *)

Lemma eyes_from_detections_one_eye (w : Z) (e : box) :
  exists a, avg_ear (eyes_from_detections w [e]) = Some a /\ 3 # 10 <= a.
Proof.
  unfold eyes_from_detections, assign_eyes.
  destruct (Qltb _ _); cbv zeta; cbn [avg_ear length Nat.leb Nat.eqb];
    eexists; (split; [reflexivity |]); apply py_max_lub.
Qed.

Lemma detect_eyes_detailed_counts (w : Z) (strict lenient : exc (list box)) :
  let d := detect_eyes_detailed w strict lenient in
  (eyes_detected d = Some 0%Z
   /\ left_open d = Some false /\ right_open d = Some false)
  \/ (eyes_detected d = Some 1%Z
      /\ exists a, avg_ear d = Some a /\ 3 # 10 <= a)
  \/ (exists n, eyes_detected d = Some n /\ (2 <= n)%Z).
Proof.
  cbv zeta.
  assert (Hmain : forall eyes,
             (eyes_detected (eyes_from_detections w eyes) = Some 0%Z
              /\ left_open (eyes_from_detections w eyes) = Some false
              /\ right_open (eyes_from_detections w eyes) = Some false)
             \/ (eyes_detected (eyes_from_detections w eyes) = Some 1%Z
                 /\ exists a, avg_ear (eyes_from_detections w eyes) = Some a
                              /\ 3 # 10 <= a)
             \/ (exists n, eyes_detected (eyes_from_detections w eyes) = Some n
                           /\ (2 <= n)%Z)).
  { intros [| e1 [| e2 rest]].
    - left. repeat split; reflexivity.
    - right. left. split; [| apply eyes_from_detections_one_eye].
      unfold eyes_from_detections.
      destruct (assign_eyes w [e1]) as [[[? ?] ?] ?]. reflexivity.
    - right. right. exists (Z.of_nat (length (e1 :: e2 :: rest))).
      split; [| simpl length; lia].
      unfold eyes_from_detections.
      destruct (assign_eyes w (e1 :: e2 :: rest)) as [[[? ?] ?] ?].
      reflexivity. }
  unfold detect_eyes_detailed.
  destruct strict as [eyes |]; cbn [bind];
    [| left; repeat split; reflexivity].
  destruct (length eyes <? 2)%nat; cbn [bind]; [| apply Hmain].
  destruct lenient as [eyes' |]; cbn [bind];
    [apply Hmain | left; repeat split; reflexivity].
Qed.

(** X25.  On the eye record of [detect_eyes_detailed], the status is
    "Distracted (Eyes Closed)" exactly when both eyes are reported
    closed: with one eye found the average ratio is at least 0.3, so the
    test on the average ratio never decides. *)
Theorem eyes_closed_status_iff_both_closed
  (w : Z) (strict lenient : exc (list box))
  (attention_score : Q) (hp : head_pose) (yawn : bool) :
  let eyes := detect_eyes_detailed w strict lenient in
  determine_attention_status attention_score eyes hp yawn
  = "Distracted (Eyes Closed)"%string
  <-> left_open eyes = Some false /\ right_open eyes = Some false.
Proof.
  cbv zeta. split; [| intros [Hl Hr]; apply status_both_closed; assumption].
  destruct (detect_eyes_detailed_keys w strict lenient)
    as (l_eye & r_eye & l_ear & r_ear & lo & ro & avg & gaze & n & Heyes).
  pose proof (detect_eyes_detailed_counts w strict lenient) as Hcount.
  cbv zeta in Hcount. rewrite Heyes in *.
  cbn [eyes_detected left_open right_open avg_ear] in Hcount.
  unfold determine_attention_status, attention_status_body, key.
  cbn [left_open right_open avg_ear eyes_detected get bind].
  destruct lo, ro; cbn [negb bind]; try (intros _; split; reflexivity).
  all: assert (Hdecide : (n <? 2)%Z && Qltb avg EAR_THRESHOLD = false);
    [| rewrite Hdecide ].
  all: try (destruct Hcount as [(_ & H & _) | [(Hn & a & Ha & Hle) | (m & Hm & Hle)]];
            [ discriminate
            | injection Ha as Ha; subst a;
              apply andb_false_iff; right; apply Qltb_ge;
              unfold EAR_THRESHOLD; lra
            | injection Hm as Hm; subst m;
              apply andb_false_iff; left; apply Z.ltb_ge; lia ]).
  all: try (destruct Hcount as [(_ & _ & H) | [(Hn & a & Ha & Hle) | (m & Hm & Hle)]];
            [ discriminate
            | injection Ha as Ha; subst a;
              apply andb_false_iff; right; apply Qltb_ge;
              unfold EAR_THRESHOLD; lra
            | injection Hm as Hm; subst m;
              apply andb_false_iff; left; apply Z.ltb_ge; lia ]).
  all: destruct yawn; [discriminate |].
  all: destruct (yaw hp) as [y |]; cbn [bind]; [| discriminate].
  all: destruct (pitch hp) as [p |]; cbn [bind]; [| discriminate].
  all: destruct (_ || _); [discriminate |].
  all: cbn [andb].
  all: repeat match goal with
              | |- context [if ?c then _ else _] => destruct c
              end; discriminate.
Qed.
